(** * pyPRMS: the [Parameter] container and its data operations

    A shallow embedding of [pyPRMS/Parameter.py].  A numpy array is a shape,
    the elements in row-major (C) order and the [writeable] flag; Python
    exceptions are values of [exception]; every method maps the parameter
    before the call to an [outcome] holding the parameter after it, what was
    printed and, when the call raised, the exception. *)

From Stdlib Require Import String List ZArith Lia Bool Arith Permutation.
Import ListNotations.
Local Open Scope nat_scope.

(** ** Exceptions *)

(** The Python exceptions the methods can raise.  [NotFoundError] and
    [AlreadyExistsError] stand for the failures of the dimension container,
    whose exception classes the specification does not name. *)
Inductive exception : Type :=
| ValueError | IndexError | TypeError | KeyError | AttributeError
| OverflowError | NotFoundError | AlreadyExistsError.

Inductive result (A : Type) : Type :=
| Ok (a : A)
| Raise (e : exception).
Arguments Ok {A} a.
Arguments Raise {A} e.

Definition product (l : list nat) : nat := fold_right Nat.mul 1 l.

(** ** The dimension container *)

Module Dimensions.

(** Modelled from the spec: the [Dimension] class of [pyPRMS/Dimensions.py],
    a named non-negative integer size. *)
Record Dimension : Type := mkDimension { name : string; size : nat }.

(** Modelled from the spec: the [ParamDimensions] class of
    [pyPRMS/Dimensions.py], an ordered mapping from dimension name to
    [Dimension] whose insertion order is the axis order. *)
Definition ParamDimensions : Type := list (string * Dimension).

Definition empty : ParamDimensions := [].

Definition keys (d : ParamDimensions) : list string := map fst d.
Definition values (d : ParamDimensions) : list Dimension := map snd d.
Definition ndims (d : ParamDimensions) : nat := length d.

(** [name in d.keys()] *)
Definition contains (d : ParamDimensions) (nm : string) : bool :=
  existsb (String.eqb nm) (keys d).

(** Modelled from the spec: [get(name)], a not-found failure for an unknown
    name. *)
Fixpoint get (d : ParamDimensions) (nm : string) : result Dimension :=
  match d with
  | [] => Raise NotFoundError
  | (k, v) :: d' => if String.eqb nm k then Ok v else get d' nm
  end.

(** Modelled from the spec: [get_position(name)], the zero-based axis index
    in insertion order. *)
Fixpoint get_position (d : ParamDimensions) (nm : string) : result nat :=
  match d with
  | [] => Raise NotFoundError
  | (k, _) :: d' =>
      if String.eqb nm k then Ok 0
      else match get_position d' nm with
           | Ok i => Ok (S i)
           | Raise e => Raise e
           end
  end.

(** Modelled from the spec: [get_dimsize_by_index(i)]. *)
Definition get_dimsize_by_index (d : ParamDimensions) (i : nat) : result nat :=
  match nth_error (values d) i with
  | Some v => Ok (size v)
  | None => Raise IndexError
  end.

(** Modelled from the spec: [add(name, size)], which fails when the name is
    already present. *)
Definition add (d : ParamDimensions) (nm : string) (sz : nat)
  : result ParamDimensions :=
  if contains d nm then Raise AlreadyExistsError
  else Ok (d ++ [(nm, mkDimension nm sz)]).

(** Modelled from the spec: [remove(name)]. *)
Definition remove (d : ParamDimensions) (nm : string)
  : result ParamDimensions :=
  if contains d nm
  then Ok (filter (fun kv => negb (String.eqb nm (fst kv))) d)
  else Raise NotFoundError.

(** Modelled from the spec: the assignment [d[name].size = sz] on a name that
    is present. *)
Fixpoint set_size (d : ParamDimensions) (nm : string) (sz : nat)
  : ParamDimensions :=
  match d with
  | [] => []
  | (k, v) :: d' =>
      if String.eqb nm k then (k, mkDimension (name v) sz) :: d'
      else (k, v) :: set_size d' nm sz
  end.

(** The sizes in axis order: [[dd.size for dd in d.values()]]. *)
Definition sizes (d : ParamDimensions) : list nat := map size (values d).

(** The keys of an ordered dictionary are pairwise distinct. *)
Definition wf (d : ParamDimensions) : Prop := NoDup (keys d).

End Dimensions.


(** ** numpy arrays *)

Section Arrays.

(** The scalar values an array, a list or a bound can hold, and numpy's
    elementwise [==] and [<=] on them (on floats [==] is not reflexive). *)
Context {V : Type}.
Variable veq : V -> V -> bool.
Variable vle : V -> V -> bool.

Record ndarray : Type := mkArray {
  shape : list nat;      (* a.shape *)
  flat : list V;         (* the elements in C order *)
  writeable : bool       (* a.flags.writeable *)
}.

(** [a.size] and [a.ndim] *)
Definition asize (a : ndarray) : nat := product (shape a).
Definition ndim (a : ndarray) : nat := length (shape a).

(** numpy keeps as many elements as the shape asks for. *)
Definition wf_array (a : ndarray) : Prop := length (flat a) = asize a.

(** Two arrays with the same shape and elements; the flag is not compared. *)
Definition same_array (a b : ndarray) : Prop :=
  shape a = shape b /\ flat a = flat b.

(** The [i]-th block of [m] elements, and the first [k] such blocks. *)
Definition chunk (m i : nat) (f : list V) : list V := firstn m (skipn (i * m) f).

Fixpoint chunks (m k : nat) (f : list V) : list (list V) :=
  match k with
  | 0 => []
  | S k' => firstn m f :: chunks m k' (skipn m f)
  end.

Definition heads (rows : list (list V)) : list V :=
  flat_map (fun r => firstn 1 r) rows.
Definition tails (rows : list (list V)) : list (list V) :=
  map (fun r => skipn 1 r) rows.

(** The rows read column by column: position [j] of every row, for
    [j = 0 .. m-1]. *)
Fixpoint interleave (m : nat) (rows : list (list V)) : list V :=
  match m with
  | 0 => []
  | S m' => heads rows ++ interleave m' (tails rows)
  end.

(** [a.ravel(order='F')]: the elements with the first axis varying fastest. *)
Fixpoint ravel_F (sh : list nat) (f : list V) : list V :=
  match sh with
  | [] => f
  | s :: ss => interleave (product ss) (map (ravel_F ss) (chunks (product ss) s f))
  end.

(** The C-order elements of the [r] x [c] array filled from [l] in Fortran
    order. *)
Definition unravel_F2 (r c : nat) (l : list V) : list V :=
  interleave r (chunks r c l).

(** [a.reshape((-1, d1), order='F')].  numpy cannot infer the [-1] axis when
    [d1] is zero or does not divide the size.  A rank-1 source is reshaped as
    a view and keeps its flag; other sources are copied. *)
Definition reshape_F (a : ndarray) (d1 : nat) : result ndarray :=
  if (d1 =? 0) || negb (asize a mod d1 =? 0) then Raise ValueError
  else Ok (mkArray [asize a / d1; d1]
                   (unravel_F2 (asize a / d1) d1 (ravel_F (shape a) (flat a)))
                   (if ndim a <=? 1 then writeable a else true)).

(** [a.T]: the axes reversed. *)
Definition transpose (a : ndarray) : ndarray :=
  mkArray (rev (shape a)) (ravel_F (shape a) (flat a)) (writeable a).

(** [np.array(a[0], ndmin=1)] *)
Definition first_item (a : ndarray) : result ndarray :=
  match shape a with
  | [] => Raise IndexError
  | s :: ss =>
      if s =? 0 then Raise IndexError
      else Ok (mkArray (match ss with [] => [1] | _ => ss end)
                       (chunk (product ss) 0 (flat a)) true)
  end.

Fixpoint all_eq (l1 l2 : list V) : bool :=
  match l1, l2 with
  | [], [] => true
  | x :: l1', y :: l2' => veq x y && all_eq l1' l2'
  | _, _ => false
  end.

Fixpoint shape_eqb (s1 s2 : list nat) : bool :=
  match s1, s2 with
  | [], [] => true
  | x :: s1', y :: s2' => (x =? y) && shape_eqb s1' s2'
  | _, _ => false
  end.

(** [np.array_equal(a, b)]: the same shape and every pair of elements [==]. *)
Definition array_equal (a b : ndarray) : bool :=
  shape_eqb (shape a) (shape b) && all_eq (flat a) (flat b).

(** A Python integer index on an axis of length [n]: negative indices count
    from the end. *)
Definition norm_index (n : nat) (i : Z) : option nat :=
  if ((0 <=? i) && (i <? Z.of_nat n))%Z then Some (Z.to_nat i)
  else if ((- Z.of_nat n <=? i) && (i <? 0))%Z then Some (Z.to_nat (i + Z.of_nat n))
  else None.

Fixpoint norm_indices (n : nat) (l : list Z) : option (list nat) :=
  match l with
  | [] => Some []
  | i :: l' =>
      match norm_index n i, norm_indices n l' with
      | Some k, Some ks => Some (k :: ks)
      | _, _ => None
      end
  end.

(** [a[indices]] for a list of integers: the blocks of axis 0 at the given
    positions, in the given order, in a new array. *)
Definition take_rows (a : ndarray) (indices : list Z) : result ndarray :=
  match shape a with
  | [] => Raise IndexError
  | s :: ss =>
      match norm_indices s indices with
      | None => Raise IndexError
      | Some ks =>
          Ok (mkArray (length ks :: ss)
                      (flat_map (fun k => chunk (product ss) k (flat a)) ks)
                      true)
      end
  end.

(** [np.delete(a, indices, axis)] for a list of integers: the positions of
    the axis that are not listed are kept, in a new array. *)
Definition kept (n : nat) (del : list nat) : list nat :=
  filter (fun i => negb (existsb (Nat.eqb i) del)) (seq 0 n).

Fixpoint delete_flat (ax : nat) (sh del : list nat) (f : list V) : list V :=
  match sh with
  | [] => f
  | s :: ss =>
      match ax with
      | 0 => flat_map (fun k => chunk (product ss) k f) (kept s del)
      | S ax' => flat_map (delete_flat ax' ss del) (chunks (product ss) s f)
      end
  end.

Fixpoint delete_shape (ax : nat) (sh del : list nat) : list nat :=
  match sh with
  | [] => []
  | s :: ss =>
      match ax with
      | 0 => length (kept s del) :: ss
      | S ax' => s :: delete_shape ax' ss del
      end
  end.

Definition np_delete (a : ndarray) (indices : list Z) (axis : nat)
  : result ndarray :=
  match nth_error (shape a) axis with
  | None => Raise IndexError
  | Some n =>
      match norm_indices n indices with
      | None => Raise IndexError
      | Some del =>
          Ok (mkArray (delete_shape axis (shape a) del)
                      (delete_flat axis (shape a) del (flat a)) true)
      end
  end.

(** Broadcasting.  [src] and [tgt] have the same rank; an axis of [src] has
    the length of the target axis or length 1, in which case its single block
    is repeated. *)
Fixpoint broadcastable (src tgt : list nat) : bool :=
  match src, tgt with
  | [], [] => true
  | s :: ss, t :: ts => ((s =? t) || (s =? 1)) && broadcastable ss ts
  | _, _ => false
  end.

Fixpoint broadcast_flat (src tgt : list nat) (f : list V) : list V :=
  match src, tgt with
  | s :: ss, t :: ts =>
      if s =? t
      then flat_map (broadcast_flat ss ts) (chunks (product ss) s f)
      else concat (repeat (broadcast_flat ss ts f) t)
  | _, _ => f
  end.

(** [np.broadcast_to(a, sizes)]: a read-only view; the shape of [a] is
    aligned with the last axes of [sizes]. *)
Definition broadcast_to (a : ndarray) (sizes : list nat) : result ndarray :=
  if length sizes <? ndim a then Raise ValueError
  else
    let src := repeat 1 (length sizes - ndim a) ++ shape a in
    if broadcastable src sizes
    then Ok (mkArray sizes (broadcast_flat src sizes (flat a)) false)
    else Raise ValueError.

(** An assigned value may carry extra leading axes of length 1. *)
Fixpoint strip_ones (n : nat) (sh : list nat) : list nat :=
  match sh with
  | 1 :: sh' => if n <? length sh then strip_ones n sh' else sh
  | _ => sh
  end.

(** numpy stores a value in an array as converted to the dtype of that
    array: [cast_item a x] is the element stored for [x] in [a], or the
    exception of the conversion ([OverflowError] for a Python integer out of
    the range of an integer dtype, [TypeError] for [None] in a numeric
    array).  Whether a one-element array of rank 1 or more is still taken for
    a scalar when a single element is assigned depends on the numpy release:
    [array_as_scalar] is [None] where it is, and the exception raised where
    it is not. *)
Variable cast_item : ndarray -> V -> result V.
Variable array_as_scalar : option exception.

Fixpoint cast_all (a : ndarray) (l : list V) : result (list V) :=
  match l with
  | [] => Ok []
  | x :: l' =>
      match cast_item a x with
      | Raise e => Raise e
      | Ok y =>
          match cast_all a l' with
          | Raise e => Raise e
          | Ok ys => Ok (y :: ys)
          end
      end
  end.

(** A one-element array of rank 1 or more assigned to a single element,
    that is, to a block of rank 0. *)
Definition refused_as_scalar (block : list nat) (value : ndarray)
  : option exception :=
  if (length block =? 0) && negb (ndim value =? 0) && (asize value =? 1)
  then array_as_scalar
  else None.

(** [a[index] = value] for an integer index: the value is broadcast to the
    block of axis 0 at that position, converted to the dtype of [a] and
    written there, in place.  A read-only array is refused before the index
    and the value are looked at. *)
Definition set_item (a : ndarray) (index : Z) (value : ndarray)
  : result ndarray :=
  if negb (writeable a) then Raise ValueError
  else
    match shape a with
    | [] => Raise IndexError
    | s :: ss =>
        match norm_index s index with
        | None => Raise IndexError
        | Some k =>
            match refused_as_scalar ss value with
            | Some e => Raise e
            | None =>
                let v := mkArray (strip_ones (length ss) (shape value))
                                 (flat value) (writeable value) in
                match broadcast_to v ss with
                | Raise e => Raise e
                | Ok b =>
                    match cast_all a (flat b) with
                    | Raise e => Raise e
                    | Ok l =>
                        Ok (mkArray (shape a)
                                    (firstn (k * product ss) (flat a) ++ l
                                       ++ skipn (S k * product ss) (flat a))
                                    true)
                    end
                end
            end
        end
    end.

(** A scalar as a rank-0 array. *)
Definition scalar (v : V) : ndarray := mkArray [] [v] true.

(** ** The Parameter class *)

(** A minimum, maximum or default as it is passed in: a number or a string. *)
Inductive pyvalue : Type :=
| PNum (v : V)
| PStr (s : string).

(** The tables [DATA_TYPES] and [DATATYPE_TO_DTYPE] of [pyPRMS/constants.py],
    numpy's conversion of a list element to a dtype, with the exception it
    raises on a value it cannot convert, and Python's [float()] and [int()],
    which fail on some values. *)
Context {dtype : Type}.
Variable DATA_TYPES : list (Z * string).
Variable DATATYPE_TO_DTYPE : list (Z * dtype).
Variable astype : dtype -> V -> result V.
Variable py_float : pyvalue -> option V.
Variable py_int : pyvalue -> option V.

(** Python's [None] as an array element: [np.asarray(None)] is a rank-0
    array holding it. *)
Variable py_none : V.

Fixpoint lookup {A : Type} (k : Z) (t : list (Z * A)) : option A :=
  match t with
  | [] => None
  | (k', x) :: t' => if (k =? k')%Z then Some x else lookup k t'
  end.

(** The state of a [Parameter] object ([Parameter] itself is a reserved word
    here). *)
Record Param : Type := mkParam {
  name : option string;
  datatype : option Z;
  units : option string;
  model : option string;
  description : option string;
  help : option string;
  modules : option (list string);
  minimum : option pyvalue;
  maximum : option pyvalue;
  default : option pyvalue;
  dimensions : Dimensions.ParamDimensions;
  data : option ndarray;
  modified : bool
}.

Definition with_datatype (p : Param) (x : option Z) : Param :=
  mkParam (name p) x (units p) (model p) (description p) (help p)
    (modules p) (minimum p) (maximum p) (default p) (dimensions p) (data p)
    (modified p).
Definition with_units (p : Param) (x : option string) : Param :=
  mkParam (name p) (datatype p) x (model p) (description p) (help p)
    (modules p) (minimum p) (maximum p) (default p) (dimensions p) (data p)
    (modified p).
Definition with_model (p : Param) (x : option string) : Param :=
  mkParam (name p) (datatype p) (units p) x (description p) (help p)
    (modules p) (minimum p) (maximum p) (default p) (dimensions p) (data p)
    (modified p).
Definition with_description (p : Param) (x : option string) : Param :=
  mkParam (name p) (datatype p) (units p) (model p) x (help p)
    (modules p) (minimum p) (maximum p) (default p) (dimensions p) (data p)
    (modified p).
Definition with_help (p : Param) (x : option string) : Param :=
  mkParam (name p) (datatype p) (units p) (model p) (description p) x
    (modules p) (minimum p) (maximum p) (default p) (dimensions p) (data p)
    (modified p).
Definition with_modules (p : Param) (x : option (list string)) : Param :=
  mkParam (name p) (datatype p) (units p) (model p) (description p)
    (help p) x (minimum p) (maximum p) (default p) (dimensions p) (data p)
    (modified p).
Definition with_minimum (p : Param) (x : option pyvalue) : Param :=
  mkParam (name p) (datatype p) (units p) (model p) (description p)
    (help p) (modules p) x (maximum p) (default p) (dimensions p) (data p)
    (modified p).
Definition with_maximum (p : Param) (x : option pyvalue) : Param :=
  mkParam (name p) (datatype p) (units p) (model p) (description p)
    (help p) (modules p) (minimum p) x (default p) (dimensions p) (data p)
    (modified p).
Definition with_default (p : Param) (x : option pyvalue) : Param :=
  mkParam (name p) (datatype p) (units p) (model p) (description p)
    (help p) (modules p) (minimum p) (maximum p) x (dimensions p) (data p)
    (modified p).
Definition with_dimensions (p : Param) (x : Dimensions.ParamDimensions)
  : Param :=
  mkParam (name p) (datatype p) (units p) (model p) (description p)
    (help p) (modules p) (minimum p) (maximum p) (default p) x (data p)
    (modified p).
Definition with_data (p : Param) (x : option ndarray) : Param :=
  mkParam (name p) (datatype p) (units p) (model p) (description p)
    (help p) (modules p) (minimum p) (maximum p) (default p) (dimensions p) x
    (modified p).
Definition with_modified (p : Param) (x : bool) : Param :=
  mkParam (name p) (datatype p) (units p) (model p) (description p)
    (help p) (modules p) (minimum p) (maximum p) (default p) (dimensions p)
    (data p) x.

(** What a method prints: the warning of the data setter that a parameter
    with dimension [one] was passed [n] values and only the first is used;
    the refusal to reduce an array of size one; the error of a reshape
    from a 1D array to a 1D array. *)
Inductive message : Type :=
| WarnOneTruncated (nm : option string) (n : nat)
| CannotReduce (nm : option string)
| ErrorReshape1D.

(** How a call ends: it returns or it raises; either way it leaves a
    parameter behind and may have printed. *)
Inductive outcome : Type :=
| Returned (p : Param) (out : list message)
| Raised (e : exception) (p : Param) (out : list message).

Definition after (o : outcome) : Param :=
  match o with Returned p _ => p | Raised _ p _ => p end.
Definition printed (o : outcome) : list message :=
  match o with Returned _ out => out | Raised _ _ out => out end.
Definition raised (o : outcome) : option exception :=
  match o with Returned _ _ => None | Raised e _ _ => Some e end.

(** One statement after another: the second runs when the first returned. *)
Definition and_then (o : outcome) (k : Param -> outcome) : outcome :=
  match o with
  | Returned p out =>
      match k p with
      | Returned p' out' => Returned p' (out ++ out')
      | Raised e p' out' => Raised e p' (out ++ out')
      end
  | Raised e p out => Raised e p out
  end.

(** *** Construction and the metadata setters *)

Definition fresh (nm : option string) : Param :=
  mkParam nm None None None None None None None None None
          Dimensions.empty None false.

Definition set_datatype (p : Param) (dt : option Z) : outcome :=
  match dt with
  | Some d =>
      match lookup d DATA_TYPES with
      | Some _ => Returned (with_datatype p (Some d)) []
      | None => Raised TypeError p []
      end
  | None => Returned (with_datatype p None) []
  end.

Definition set_units (p : Param) (x : option string) : outcome :=
  Returned (with_units p x) [].
Definition set_model (p : Param) (x : option string) : outcome :=
  Returned (with_model p x) [].
Definition set_description (p : Param) (x : option string) : outcome :=
  Returned (with_description p x) [].
Definition set_help (p : Param) (x : option string) : outcome :=
  Returned (with_help p x) [].

Inductive modules_arg : Type :=
| NoModules
| OneModule (s : string)
| ModuleList (l : list string).

Definition set_modules (p : Param) (x : modules_arg) : outcome :=
  match x with
  | ModuleList l => Returned (with_modules p (Some l)) []
  | OneModule s => Returned (with_modules p (Some [s])) []
  | NoModules => Returned (with_modules p None) []
  end.

Definition set_minimum (p : Param) (value : option pyvalue) : outcome :=
  match datatype p, value with
  | Some dt, Some v =>
      match lookup dt DATA_TYPES with
      | None => Raised KeyError p []
      | Some kind =>
          if String.eqb kind "float" then
            match py_float v with
            | Some x => Returned (with_minimum p (Some (PNum x))) []
            | None => Raised ValueError p []
            end
          else if String.eqb kind "integer" then
            match py_int v with
            | Some x => Returned (with_minimum p (Some (PNum x))) []
            | None => Returned (with_minimum p (Some v)) []
            end
          else Returned (with_minimum p (Some v)) []
      end
  | _, _ => Returned (with_minimum p value) []
  end.

Definition set_maximum (p : Param) (value : option pyvalue) : outcome :=
  match datatype p, value with
  | Some dt, Some v =>
      match lookup dt DATA_TYPES with
      | None => Raised KeyError p []
      | Some kind =>
          if String.eqb kind "float" then
            match py_float v with
            | Some x => Returned (with_maximum p (Some (PNum x))) []
            | None => Raised ValueError p []
            end
          else if String.eqb kind "integer" then
            match py_int v with
            | Some x => Returned (with_maximum p (Some (PNum x))) []
            | None => Returned (with_maximum p (Some v)) []
            end
          else Returned (with_maximum p (Some v)) []
      end
  | _, _ => Returned (with_maximum p value) []
  end.

Definition set_default (p : Param) (value : option pyvalue) : outcome :=
  match datatype p, value with
  | Some dt, Some v =>
      match lookup dt DATA_TYPES with
      | None => Raised KeyError p []
      | Some kind =>
          if String.eqb kind "float" then
            match py_float v with
            | Some x => Returned (with_default p (Some (PNum x))) []
            | None => Raised ValueError p []
            end
          else if String.eqb kind "integer" then
            match py_int v with
            | Some x => Returned (with_default p (Some (PNum x))) []
            | None => Raised ValueError p []
            end
          else Returned (with_default p (Some v)) []
      end
  | _, _ => Returned (with_default p value) []
  end.

(** The arguments of [Parameter(...)]. *)
Record init_args : Type := mkArgs {
  arg_name : option string;
  arg_datatype : option Z;
  arg_units : option string;
  arg_model : option string;
  arg_description : option string;
  arg_help : option string;
  arg_modules : modules_arg;
  arg_minimum : option pyvalue;
  arg_maximum : option pyvalue;
  arg_default : option pyvalue
}.

(** [Parameter.__init__] *)
Definition init (a : init_args) : outcome :=
  and_then (set_datatype (fresh (arg_name a)) (arg_datatype a)) (fun p =>
  and_then (set_units p (arg_units a)) (fun p =>
  and_then (set_model p (arg_model a)) (fun p =>
  and_then (set_description p (arg_description a)) (fun p =>
  and_then (set_help p (arg_help a)) (fun p =>
  and_then (set_modules p (arg_modules a)) (fun p =>
  and_then (set_minimum p (arg_minimum a)) (fun p =>
  and_then (set_maximum p (arg_maximum a)) (fun p =>
  set_default p (arg_default a))))))))).

(** *** Sizes *)

(** The [ndims] property. *)
Definition ndims (p : Param) : nat := Dimensions.ndims (dimensions p).

(** The [data] getter. *)
Definition get_data (p : Param) : result ndarray :=
  match data p with
  | Some a => Ok a
  | None => Raise ValueError
  end.

(** The [size] property: [functools.reduce] over the sizes, which has no
    value on an empty sequence. *)
Definition size (p : Param) : result nat :=
  match Dimensions.sizes (dimensions p) with
  | [] => Raise TypeError
  | x :: xs => Ok (fold_left Nat.mul xs x)
  end.

(** The loop of [has_correct_size]. *)
Definition total_size (p : Param) : result nat :=
  fold_left
    (fun acc dd =>
       match acc with
       | Raise e => Raise e
       | Ok t =>
           match Dimensions.get (dimensions p) dd with
           | Ok d => Ok (t * Dimensions.size d)
           | Raise e => Raise e
           end
       end)
    (Dimensions.keys (dimensions p)) (Ok 1).

Definition has_correct_size (p : Param) : result bool :=
  match total_size p with
  | Raise e => Raise e
  | Ok t =>
      match get_data p with
      | Raise e => Raise e
      | Ok a => Ok (asize a =? t)
      end
  end.

(** *** The data setter *)

(** A Python list of scalars, or of lists. *)
Local Unset Elimination Schemes.
Inductive pylist : Type :=
| PyFlat (l : list V)
| PyNested (rows : list pylist).
Local Set Elimination Schemes.

(** The shape numpy finds for a list: the length, then the common shape of
    the rows; there is none when the rows differ in shape. *)
Fixpoint list_shape (t : pylist) : option (list nat) :=
  match t with
  | PyFlat l => Some [length l]
  | PyNested rows =>
      match rows with
      | [] => Some [0]
      | r :: rs =>
          match list_shape r with
          | None => None
          | Some sh =>
              if forallb
                   (fun r' =>
                      match list_shape r' with
                      | Some sh' => shape_eqb sh sh'
                      | None => false
                      end) rs
              then Some (length rows :: sh)
              else None
          end
      end
  end.

Fixpoint list_flat (t : pylist) : list V :=
  match t with
  | PyFlat l => l
  | PyNested rows => flat_map list_flat rows
  end.

(** What can be assigned: a list, an array, a pandas Series, or anything
    else. *)
Inductive data_input : Type :=
| InList (t : pylist)
| InArray (a : ndarray)
| InSeries (l : list V)
| InOther.

Fixpoint astype_all (dt : dtype) (l : list V) : result (list V) :=
  match l with
  | [] => Ok []
  | x :: l' =>
      match astype dt x with
      | Raise e => Raise e
      | Ok y =>
          match astype_all dt l' with
          | Raise e => Raise e
          | Ok ys => Ok (y :: ys)
          end
      end
  end.

(** [np.array(data_in, dtype=DATATYPE_TO_DTYPE[self.datatype])]: a ragged
    list is a [ValueError]; an element that cannot be converted raises the
    exception of its conversion. *)
Definition np_array (p : Param) (t : pylist) : result ndarray :=
  match datatype p with
  | None => Raise KeyError
  | Some d =>
      match lookup d DATATYPE_TO_DTYPE with
      | None => Raise KeyError
      | Some dt =>
          match list_shape t with
          | None => Raise ValueError
          | Some sh =>
              match astype_all dt (list_flat t) with
              | Raise e => Raise e
              | Ok l' => Ok (mkArray sh l' true)
              end
          end
      end
  end.

(** The [isinstance] chain; [data_np] stays [None] for any other input. *)
Definition to_ndarray (p : Param) (data_in : data_input)
  : result (option ndarray) :=
  match data_in with
  | InList t =>
      match np_array p t with
      | Ok a => Ok (Some a)
      | Raise e => Raise e
      end
  | InArray a => Ok (Some a)
  | InSeries l => Ok (Some (mkArray [length l] l true))
  | InOther => Ok None
  end.

(** The last branch formats [data_in.ndim], which a list does not have. *)
Definition mismatch_error (data_in : data_input) : exception :=
  match data_in with
  | InList _ => AttributeError
  | _ => IndexError
  end.

(** The reconciliation of the incoming array with the declared dimensions. *)
Definition reconcile (p : Param) (data_in : data_input) (data_np : ndarray)
  : result ndarray * list message :=
  match size p with
  | Raise e => (Raise e, [])
  | Ok sz =>
      if asize data_np =? sz then
        if ndim data_np <? ndims p then
          if negb (ndim data_np =? 0) then
            match Dimensions.get_dimsize_by_index (dimensions p) 1 with
            | Raise e => (Raise e, [])
            | Ok d1 => (reshape_F data_np d1, [])
            end
          else (Ok data_np, [])
        else if ndim data_np =? ndims p then (Ok data_np, [])
        else (Raise ValueError, [])
      else if (sz <? asize data_np)
              && Dimensions.contains (dimensions p) "one" then
        (first_item data_np, [WarnOneTruncated (name p) (asize data_np)])
      else (Raise (mismatch_error data_in), [])
  end.

(** The end of the setter: keep, store, or store and flag. *)
Definition store (p : Param) (data_np : ndarray) (out : list message)
  : outcome :=
  match data p with
  | None => Returned (with_data p (Some data_np)) out
  | Some old =>
      if array_equal old data_np then Returned p out
      else Returned (with_modified (with_data p (Some data_np)) true) out
  end.

Definition set_data (p : Param) (data_in : data_input) : outcome :=
  if ndims p =? 0 then Raised ValueError p []
  else
    match to_ndarray p data_in with
    | Raise e => Raised e p []
    | Ok None => Raised AttributeError p []
    | Ok (Some data_np) =>
        match reconcile p data_in data_np with
        | (Raise e, out) => Raised e p out
        | (Ok a, out) => store p a out
        end
    end.

(** *** Element update, bounds check, flattening *)

Definition update_element (p : Param) (index : Z) (value : ndarray)
  : outcome :=
  match data p with
  | None =>
      if array_equal (scalar py_none) value then Returned p []
      else Raised TypeError p []
  | Some a =>
      if array_equal a value then Returned p []
      else
        match set_item a index value with
        | Raise e => Raised e p []
        | Ok a' => Returned (with_modified (with_data p (Some a')) true) []
        end
  end.

Definition check_values (p : Param) : result bool :=
  match minimum p, maximum p with
  | Some (PNum lo), Some (PNum hi) =>
      match data p with
      | None => Raise TypeError
      | Some a =>
          Ok (forallb (fun x => vle lo x) (flat a)
              && forallb (fun x => vle x hi) (flat a))
      end
  | _, _ => Ok true
  end.

Definition tolist (p : Param) : result (list V) :=
  match data p with
  | None => Raise AttributeError
  | Some a => Ok (ravel_F (shape a) (flat a))
  end.

Inductive check_text : Type :=
| CheckOK (nm : option string)
| CheckBAD (nm : option string).

Definition check (p : Param) : result check_text :=
  match has_correct_size p with
  | Raise e => Raise e
  | Ok true => Ok (CheckOK (name p))
  | Ok false => Ok (CheckBAD (name p))
  end.

(** *** Structural edits *)

(** The [indices] argument: a list, or the values view of an ordered
    dictionary, which is turned into a list first. *)
Inductive indices_arg : Type :=
| IndexList (l : list Z)
| OdictValues (l : list Z).

Definition as_list (i : indices_arg) : list Z :=
  match i with IndexList l => l | OdictValues l => l end.

(** [self.dimensions[dim_name].size = self.__data.shape[
    self.dimensions.get_position(dim_name)]] *)
Definition sync_dimension (p : Param) (a : ndarray) (dim_name : string)
  : outcome :=
  match Dimensions.get_position (dimensions p) dim_name with
  | Raise e => Raised e p []
  | Ok pos =>
      match nth_error (shape a) pos with
      | None => Raised IndexError p []
      | Some n =>
          match Dimensions.get (dimensions p) dim_name with
          | Raise e => Raised e p []
          | Ok _ =>
              Returned
                (with_dimensions p
                   (Dimensions.set_size (dimensions p) dim_name n)) []
          end
      end
  end.

Definition remove_by_index (p : Param) (dim_name : string)
  (indices : indices_arg) : outcome :=
  match data p with
  | None => Raised AttributeError p []
  | Some a =>
      if asize a =? 1 then Returned p [CannotReduce (name p)]
      else
        match Dimensions.get_position (dimensions p) dim_name with
        | Raise e => Raised e p []
        | Ok pos =>
            match np_delete a (as_list indices) pos with
            | Raise e => Raised e p []
            | Ok a' => sync_dimension (with_data p (Some a')) a' dim_name
            end
        end
  end.

Definition subset_by_index (p : Param) (dim_name : string)
  (indices : indices_arg) : outcome :=
  match data p with
  | None => Raised AttributeError p []
  | Some a =>
      if asize a =? 1 then Returned p [CannotReduce (name p)]
      else
        match take_rows a (as_list indices) with
        | Raise e => Raised e p []
        | Ok a' => sync_dimension (with_data p (Some a')) a' dim_name
        end
  end.

(** [for kk, vv in new_dims.items(): self.dimensions.add(kk, vv.size)]: the
    dimensions reached, and the exception when an [add] failed. *)
Fixpoint add_all (d : Dimensions.ParamDimensions)
  (new_dims : Dimensions.ParamDimensions)
  : Dimensions.ParamDimensions * option exception :=
  match new_dims with
  | [] => (d, None)
  | (kk, vv) :: rest =>
      match Dimensions.add d kk (Dimensions.size vv) with
      | Raise e => (d, Some e)
      | Ok d' => add_all d' rest
      end
  end.

(** The common end of both branches of [reshape]: drop the old dimension,
    add the new ones, store the broadcast data. *)
Definition replace_dimensions (p : Param) (old_dim : string)
  (new_dims : Dimensions.ParamDimensions) (tmp_data : ndarray) : outcome :=
  match Dimensions.remove (dimensions p) old_dim with
  | Raise e => Raised e p []
  | Ok d0 =>
      match add_all d0 new_dims with
      | (d', Some e) => Raised e (with_dimensions p d') []
      | (d', None) =>
          Returned (with_data (with_dimensions p d') (Some tmp_data)) []
      end
  end.

(** [self.__data] as numpy sees it when handed over as an argument. *)
Definition data_or_none (p : Param) : ndarray :=
  match data p with
  | Some a => a
  | None => scalar py_none
  end.

Definition reshape (p : Param) (new_dims : Dimensions.ParamDimensions)
  : outcome :=
  if Dimensions.ndims (dimensions p) =? 1 then
    if Dimensions.contains (dimensions p) "one" then
      let new_sizes := Dimensions.sizes new_dims in
      match broadcast_to (data_or_none p) new_sizes with
      | Raise e => Raised e p []
      | Ok tmp_data => replace_dimensions p "one" new_dims tmp_data
      end
    else if forallb (Dimensions.contains new_dims)
                    (Dimensions.keys (dimensions p)) then
      if length new_dims =? 1 then Returned p [ErrorReshape1D]
      else
        let new_sizes := Dimensions.sizes new_dims in
        let tmp :=
          match broadcast_to (data_or_none p) new_sizes with
          | Ok b => Ok b
          | Raise ValueError =>
              match broadcast_to (data_or_none p) (rev new_sizes) with
              | Ok b => Ok (transpose b)
              | Raise e => Raise e
              end
          | Raise e => Raise e
          end in
        match tmp, Dimensions.keys (dimensions p) with
        | Raise e, _ => Raised e p []
        | Ok _, [] => Raised IndexError p []
        | Ok tmp_data, old_dim :: _ =>
            replace_dimensions p old_dim new_dims tmp_data
        end
    else Returned p []
  else Returned p [].

(** *** Calls on a parameter *)

(** The calls that can change a parameter: the property setters, the
    methods, and [p.dimensions.add(name, size)] on the dimension container
    the [dimensions] property hands out. *)
Inductive call : Type :=
| CallSetDatatype (dt : option Z)
| CallSetUnits (x : option string)
| CallSetModel (x : option string)
| CallSetDescription (x : option string)
| CallSetHelp (x : option string)
| CallSetModules (x : modules_arg)
| CallSetMinimum (x : option pyvalue)
| CallSetMaximum (x : option pyvalue)
| CallSetDefault (x : option pyvalue)
| CallSetData (data_in : data_input)
| CallUpdateElement (index : Z) (value : ndarray)
| CallRemoveByIndex (dim_name : string) (indices : indices_arg)
| CallSubsetByIndex (dim_name : string) (indices : indices_arg)
| CallReshape (new_dims : Dimensions.ParamDimensions)
| CallDimensionsAdd (nm : string) (sz : nat).

Definition dimensions_add (p : Param) (nm : string) (sz : nat) : outcome :=
  match Dimensions.add (dimensions p) nm sz with
  | Ok d => Returned (with_dimensions p d) []
  | Raise e => Raised e p []
  end.

Definition exec (c : call) (p : Param) : outcome :=
  match c with
  | CallSetDatatype dt => set_datatype p dt
  | CallSetUnits x => set_units p x
  | CallSetModel x => set_model p x
  | CallSetDescription x => set_description p x
  | CallSetHelp x => set_help p x
  | CallSetModules x => set_modules p x
  | CallSetMinimum x => set_minimum p x
  | CallSetMaximum x => set_maximum p x
  | CallSetDefault x => set_default p x
  | CallSetData d => set_data p d
  | CallUpdateElement i v => update_element p i v
  | CallRemoveByIndex nm i => remove_by_index p nm i
  | CallSubsetByIndex nm i => subset_by_index p nm i
  | CallReshape nd => reshape p nd
  | CallDimensionsAdd nm sz => dimensions_add p nm sz
  end.

(** A caller making one call after another on the same object, going on
    after a call that raised. *)
Fixpoint exec_all (cs : list call) (p : Param) : Param :=
  match cs with
  | [] => p
  | c :: cs' => exec_all cs' (after (exec c p))
  end.

(** *** Views of the data *)

(** [all_equal]: on more than one element, every block of axis 0 is
    compared with the first one, element by element. *)
Definition all_equal (p : Param) : result bool :=
  match data p with
  | None => Raise AttributeError
  | Some a =>
      if 1 <? asize a then
        match shape a with
        | [] => Raise IndexError
        | s :: ss =>
            Ok (forallb
                  (fun c => all_eq c (chunk (product ss) 0 (flat a)))
                  (chunks (product ss) s (flat a)))
        end
      else Ok false
  end.

(** An ordered dictionary from values to positions: assigning to a key
    that is present ([==] to a stored key) replaces its value where it
    stands, a new key goes to the end. *)
Fixpoint odict_set (d : list (V * nat)) (k : V) (i : nat) : list (V * nat) :=
  match d with
  | [] => [(k, i)]
  | (k', j) :: d' =>
      if veq k' k then (k', i) :: d' else (k', j) :: odict_set d' k i
  end.

Fixpoint odict_get (d : list (V * nat)) (k : V) : option nat :=
  match d with
  | [] => None
  | (k', j) :: d' => if veq k' k then Some j else odict_get d' k
  end.

(** [enumerate(l)] *)
Definition enumerate (l : list V) : list (nat * V) :=
  combine (seq 0 (length l)) l.

(** The [index_map] property.  [tolist()] of a rank-1 array is a list of
    scalars; of a rank-0 array a scalar, which cannot be enumerated; of an
    array of higher rank a list of lists, which cannot be keys. *)
Definition index_map (p : Param) : result (list (V * nat)) :=
  match data p with
  | None => Raise AttributeError
  | Some a =>
      match shape a with
      | [] => Raise TypeError
      | [_] =>
          Ok (fold_left (fun d iv => odict_set d (snd iv) (fst iv))
                        (enumerate (flat a)) [])
      | s :: _ => if s =? 0 then Ok [] else Raise TypeError
      end
  end.

End Arrays.

Arguments ndarray V : clear implicits.
Arguments pyvalue V : clear implicits.
Arguments Param V : clear implicits.
Arguments outcome V : clear implicits.
Arguments data_input V : clear implicits.
Arguments pylist V : clear implicits.
Arguments init_args V : clear implicits.
Arguments call V : clear implicits.

(** ** An instance: integer-typed parameters *)

Module IntValues.

(** The scalars: Python integers and [None]. *)
Inductive value : Type :=
| Int (z : Z)
| NoneValue.

Definition value_eq (x y : value) : bool :=
  match x, y with
  | Int a, Int b => (a =? b)%Z
  | NoneValue, NoneValue => true
  | _, _ => false
  end.

Definition value_le (x y : value) : bool :=
  match x, y with
  | Int a, Int b => (a <=? b)%Z
  | _, _ => false
  end.

(** The integer rows of the two tables: datatype code 1 with numpy's 64-bit
    integer dtype.  The float and string codes have no values here. *)
Definition DATA_TYPES : list (Z * string) := [(1%Z, "integer"%string)].
Definition DATATYPE_TO_DTYPE : list (Z * unit) := [(1%Z, tt)].

(** The conversion to [int64]: a Python integer out of its range is an
    [OverflowError], [None] a [TypeError]. *)
Definition int64 (v : value) : result value :=
  match v with
  | Int z =>
      if ((- 2 ^ 63 <=? z) && (z <? 2 ^ 63))%Z then Ok (Int z)
      else Raise OverflowError
  | NoneValue => Raise TypeError
  end.

Definition astype (dt : unit) (v : value) : result value := int64 v.

Definition is_none (v : value) : bool :=
  match v with NoneValue => true | Int _ => false end.

(** An array that holds [None] has dtype [object] and stores any value as it
    is; the others are [int64] arrays. *)
Definition cast_item (a : ndarray value) (v : value) : result value :=
  if existsb is_none (flat a) then Ok v else int64 v.

(** The releases that still take a one-element array for a scalar. *)
Definition array_as_scalar : option exception := None.

(** Python's [int()] on a string of ASCII characters: white space around an
    optional sign (code 45 or 43) and decimal digits, single underscores
    (code 95) between digits. *)
Definition is_space (c : Ascii.ascii) : bool :=
  let n := Ascii.nat_of_ascii c in
  ((9 <=? n) && (n <=? 13)) || ((28 <=? n) && (n <=? 32)).

Definition digit (c : Ascii.ascii) : option Z :=
  let n := Ascii.nat_of_ascii c in
  if (48 <=? n) && (n <=? 57) then Some (Z.of_nat (n - 48)) else None.

Fixpoint lstrip (l : list Ascii.ascii) : list Ascii.ascii :=
  match l with
  | c :: l' => if is_space c then lstrip l' else l
  | [] => []
  end.

Definition strip (l : list Ascii.ascii) : list Ascii.ascii :=
  rev (lstrip (rev (lstrip l))).

(** The digits after the first one: [after_digit] tells whether the
    character before was a digit, which an underscore and the end need. *)
Fixpoint digits (acc : Z) (after_digit : bool) (l : list Ascii.ascii)
  : option Z :=
  match l with
  | [] => if after_digit then Some acc else None
  | c :: l' =>
      match digit c with
      | Some d => digits (10 * acc + d)%Z true l'
      | None =>
          if (Ascii.nat_of_ascii c =? 95) && after_digit
          then digits acc false l'
          else None
      end
  end.

Definition unsigned (l : list Ascii.ascii) : option Z :=
  match l with
  | c :: l' =>
      match digit c with
      | Some d => digits d true l'
      | None => None
      end
  | [] => None
  end.

Definition int_of_string (s : string) : option Z :=
  match strip (list_ascii_of_string s) with
  | c :: l =>
      if Ascii.nat_of_ascii c =? 45 then option_map Z.opp (unsigned l)
      else if Ascii.nat_of_ascii c =? 43 then unsigned l
      else unsigned (c :: l)
  | [] => None
  end.

Definition py_number (v : pyvalue value) : option value :=
  match v with
  | PNum (Int z) => Some (Int z)
  | PNum NoneValue => None
  | PStr s => option_map Int (int_of_string s)
  end.

Definition set_data := set_data value_eq DATATYPE_TO_DTYPE astype.
Definition update_element :=
  update_element value_eq cast_item array_as_scalar NoneValue.
Definition reshape := reshape NoneValue.
Definition check_values := check_values value_le.
Definition exec :=
  exec value_eq cast_item array_as_scalar DATA_TYPES DATATYPE_TO_DTYPE astype
       py_number py_number NoneValue.
Definition exec_all :=
  exec_all value_eq cast_item array_as_scalar DATA_TYPES DATATYPE_TO_DTYPE
           astype py_number py_number NoneValue.
Definition init := init DATA_TYPES py_number py_number.

Definition ints (l : list Z) : list value := map Int l.

Definition dim (nm : string) (n : nat) : string * Dimensions.Dimension :=
  (nm, Dimensions.mkDimension nm n).

(** An integer parameter with the given dimensions, data and bounds. *)
Definition param (nm : string) (dims : Dimensions.ParamDimensions)
  (d : option (ndarray value)) (lo hi : option (pyvalue value))
  : Param value :=
  mkParam (Some nm) (Some 1%Z) None None None None None lo hi None dims d
          false.

(** A scalar parameter as the setter leaves it after [p.data = [8]]. *)
Definition basin_solsta : Param value :=
  param "basin_solsta" [dim "one" 1] (Some (mkArray [1] (ints [8%Z]) true))
        None None.

(** A scalar parameter without data. *)
Definition scalar_param : Param value :=
  param "basin_solsta" [dim "one" 1] None None None.

(** A parameter that declares [one] next to another dimension. *)
Definition one_and_nhru : Param value :=
  param "mixed" [dim "one" 1; dim "nhru" 4] None None None.

(** The parameter of the test suite over four gages. *)
Definition poi_gage_segment : Param value :=
  param "poi_gage_segment" [dim "npoigages" 4]
        (Some (mkArray [4] (ints [12; 4; 45; 26]%Z) true)) None None.

(** A 2 x 3 parameter that was handed a 3 x 2 array. *)
Definition swapped : Param value :=
  param "tmax_adj" [dim "nhru" 2; dim "nmonths" 3]
        (Some (mkArray [3; 2] (ints [1; 2; 3; 4; 5; 6]%Z) true)) None None.

(** A 2 x 3 parameter holding a 2 x 3 array. *)
Definition tmax_adj : Param value :=
  param "tmax_adj" [dim "nhru" 2; dim "nmonths" 3]
        (Some (mkArray [2; 3] (ints [1; 2; 3; 4; 5; 6]%Z) true)) None None.

(** The dimensions [{nhru: 4, nmonths: 12}]. *)
Definition nhru_nmonths : Dimensions.ParamDimensions :=
  [dim "nhru" 4; dim "nmonths" 12].

(** A 2 x 3 parameter without data. *)
Definition tmax_empty : Param value :=
  param "tmax_adj" [dim "nhru" 2; dim "nmonths" 3] None None None.

(** The gage parameter with the bounds 0 and 40. *)
Definition gage_bounded : Param value :=
  param "poi_gage_segment" [dim "npoigages" 4]
        (Some (mkArray [4] (ints [12; 4; 45; 26]%Z) true))
        (Some (PNum (Int 0))) (Some (PNum (Int 40))).

(** A parameter over two hrus and no months, holding the empty 2 x 0
    array. *)
Definition no_months : Param value :=
  param "tmax_adj" [dim "nhru" 2; dim "nmonths" 0]
        (Some (mkArray [2; 0] [] true)) None None.

(** Incoming arrays: five values in a row, and a 2 x 2 array. *)
Definition five_values : ndarray value :=
  mkArray [5] (ints [7; 8; 9; 10; 11]%Z) true.
Definition two_by_two : ndarray value :=
  mkArray [2; 2] (ints [7; 8; 9; 10]%Z) true.

(** The gage parameter declared over gages and months, holding a 2 x 3
    array. *)
Definition gages_by_month : Param value :=
  param "gage_month" [dim "npoigages" 2; dim "nmonths" 3]
        (Some (mkArray [2; 3] (ints [1; 2; 3; 4; 5; 6]%Z) true)) None None.

(** Station numbers with a repeated one. *)
Definition stations : Param value :=
  param "poi_gage_id" [dim "npoigages" 4]
        (Some (mkArray [4] (ints [7; 9; 7; 3]%Z) true)) None None.

Definition index_map := index_map value_eq.
Definition all_equal := all_equal value_eq.
Definition set_minimum := set_minimum DATA_TYPES py_number py_number.
Definition set_default := set_default DATA_TYPES py_number py_number.

End IntValues.

(** ** Date parsing ([prms_helpers.py]) *)

Module Helpers.

Local Open Scope Z_scope.

(** The fields of a [datetime.datetime]. *)
Record datetime : Type := mkDatetime {
  year : Z; month : Z; day : Z;
  hour : Z; minute : Z; second : Z; microsecond : Z
}.

(** [calendar.isleap] *)
Definition isleap (y : Z) : bool :=
  (y mod 4 =? 0) && (negb (y mod 100 =? 0) || (y mod 400 =? 0)).

(** [calendar.mdays] *)
Definition mdays (m : Z) : Z :=
  if m =? 2 then 28
  else if (m =? 4) || (m =? 6) || (m =? 9) || (m =? 11) then 30
  else 31.

(** [calendar.monthrange(year, month)[1]]: the number of days of the
    month; there is none for a month outside 1 .. 12. *)
Definition monthrange_days (y m : Z) : option Z :=
  if (1 <=? m) && (m <=? 12)
  then Some (mdays m + (if (m =? 2) && isleap y then 1 else 0))
  else None.

Definition in_range (lo x hi : Z) : bool := (lo <=? x) && (x <=? hi).

(** [datetime.datetime] on the integers: three to seven of them, within the ranges
    of their fields; anything else raises. *)
Definition make_datetime (dint : list Z) : option datetime :=
  match dint with
  | y :: m :: d :: rest =>
      let field (i : nat) := nth i rest 0 in
      match monthrange_days y m with
      | None => None
      | Some ndays =>
          if (length rest <=? 4)%nat
             && in_range 1 y 9999 && in_range 1 d ndays
             && in_range 0 (field 0%nat) 23 && in_range 0 (field 1%nat) 59
             && in_range 0 (field 2%nat) 59
             && in_range 0 (field 3%nat) 999999
          then Some (mkDatetime y m d (field 0%nat) (field 1%nat)
                                (field 2%nat) (field 3%nat))
          else None
      end
  | _ => None
  end.

Section Dparse.

(** The arguments, and [int()] on them, which fails on some. *)
Context {A : Type}.
Variable to_int : A -> option Z.

Fixpoint ints_of (dstr : list A) : option (list Z) :=
  match dstr with
  | [] => Some []
  | x :: rest =>
      match to_int x, ints_of rest with
      | Some z, Some zs => Some (z :: zs)
      | _, _ => None
      end
  end.

(** [dparse] on its arguments; [None] stands for a raised exception. *)
Definition dparse (dstr : list A) : option datetime :=
  match ints_of dstr with
  | None => None
  | Some dint =>
      match dint with
      | [y; m] =>
          match monthrange_days y m with
          | None => None
          | Some ndays => make_datetime [y; m; ndays]
          end
      | [y] =>
          match monthrange_days y 12 with
          | None => None
          | Some ndays => make_datetime [y; 12; ndays]
          end
      | _ => make_datetime dint
      end
  end.

End Dparse.

End Helpers.

(** * Properties *)

(** Case analysis on the first [match] or [if] of the goal. *)
Ltac break_match :=
  match goal with
  | |- context [match ?x with _ => _ end] => destruct x eqn:?
  | |- context [if ?x then _ else _] => destruct x eqn:?
  end.

(** ** Lists cut into blocks and read column by column *)

Section Blocks.

Context {V : Type}.

(** [x :: col] for every element [x] of a row and the column next to it. *)
Fixpoint zip_cons (row : list V) (cols : list (list V)) : list (list V) :=
  match row, cols with
  | x :: row', col :: cols' => (x :: col) :: zip_cons row' cols'
  | _, _ => []
  end.

Lemma firstn_exact (l l' : list V) (n : nat) :
  length l = n -> firstn n (l ++ l') = l.
Proof.
  intros <-. rewrite firstn_app, Nat.sub_diag, firstn_all. cbn.
  apply app_nil_r.
Qed.

Lemma skipn_exact (l l' : list V) (n : nat) :
  length l = n -> skipn n (l ++ l') = l'.
Proof.
  intros <-. rewrite skipn_app, Nat.sub_diag, skipn_all. reflexivity.
Qed.

Lemma length_chunks (m k : nat) (f : list V) : length (chunks m k f) = k.
Proof.
  revert f. induction k as [|k IH]; intros f; cbn; [reflexivity|].
  now rewrite IH.
Qed.

Lemma chunks_all_length (m k : nat) (f : list V) :
  length f = k * m -> Forall (fun r => length r = m) (chunks m k f).
Proof.
  revert f. induction k as [|k IH]; intros f Hf; cbn; constructor.
  - rewrite length_firstn. cbn in Hf. lia.
  - apply IH. rewrite length_skipn. cbn in Hf. lia.
Qed.

Lemma concat_chunks (m k : nat) (f : list V) :
  length f = k * m -> concat (chunks m k f) = f.
Proof.
  revert f. induction k as [|k IH]; intros f Hf; cbn.
  - cbn in Hf. symmetry. now apply length_zero_iff_nil.
  - rewrite IH; [apply firstn_skipn|].
    rewrite length_skipn. cbn in Hf. lia.
Qed.

Lemma heads_length (rows : list (list V)) (c : nat) :
  Forall (fun r => length r = S c) rows -> length (heads rows) = length rows.
Proof.
  induction 1 as [|r rows Hr _ IH]; [reflexivity|].
  change (heads (r :: rows)) with (firstn 1 r ++ heads rows).
  rewrite length_app, IH.
  destruct r; [discriminate|]. reflexivity.
Qed.

Lemma tails_all_length (rows : list (list V)) (c : nat) :
  Forall (fun r => length r = S c) rows ->
  Forall (fun r => length r = c) (tails rows).
Proof.
  induction 1 as [|r rows Hr _ IH]; cbn; constructor; [|exact IH].
  destruct r; [discriminate|]. cbn in *. lia.
Qed.

Lemma heads_zip_cons (row : list V) (cols : list (list V)) :
  length cols = length row -> heads (zip_cons row cols) = row.
Proof.
  revert cols. induction row as [|x row IH]; intros [|col cols] H;
    try discriminate; [reflexivity|].
  cbn. f_equal. apply IH. now injection H.
Qed.

Lemma tails_zip_cons (row : list V) (cols : list (list V)) :
  length cols = length row -> tails (zip_cons row cols) = cols.
Proof.
  revert cols. induction row as [|x row IH]; intros [|col cols] H;
    try discriminate; [reflexivity|].
  cbn. f_equal. apply IH. now injection H.
Qed.

(** Reading one more row column by column puts one more element in front
    of every column. *)
Lemma chunks_interleave_cons (c : nat) :
  forall (row0 : list V) (rows : list (list V)),
    length row0 = c ->
    Forall (fun r => length r = c) rows ->
    chunks (S (length rows)) c (interleave c (row0 :: rows))
    = zip_cons row0 (chunks (length rows) c (interleave c rows)).
Proof.
  induction c as [|c IH]; intros row0 rows H0 Hrows.
  - destruct row0; [reflexivity | discriminate].
  - destruct row0 as [|x row0]; [discriminate|].
    cbn [interleave chunks].
    assert (Hh : length (heads rows) = length rows)
      by (eapply heads_length; eassumption).
    change (heads ((x :: row0) :: rows)) with (x :: heads rows).
    change (tails ((x :: row0) :: rows)) with (row0 :: tails rows).
    cbn [app firstn skipn zip_cons].
    rewrite !firstn_exact, !skipn_exact by assumption.
    f_equal.
    assert (Ht : length (tails rows) = length rows)
      by (unfold tails; apply length_map).
    rewrite <- Ht. apply IH.
    + now injection H0.
    + now apply tails_all_length.
Qed.

(** Columns of the columns: the original rows. *)
Lemma interleave_involutive (c : nat) (rows : list (list V)) :
  Forall (fun r => length r = c) rows ->
  interleave (length rows) (chunks (length rows) c (interleave c rows))
  = concat rows.
Proof.
  induction 1 as [|row0 rows H0 Hrows IH]; [reflexivity|].
  cbn [length]. rewrite chunks_interleave_cons by assumption.
  cbn [interleave concat].
  rewrite heads_zip_cons, tails_zip_cons
    by (rewrite length_chunks; now symmetry).
  now rewrite IH.
Qed.

Lemma interleave_one (rows : list (list V)) :
  Forall (fun r => length r = 1) rows -> interleave 1 rows = concat rows.
Proof.
  intros H. cbn. rewrite app_nil_r. induction H as [|r rows Hr _ IH].
  - reflexivity.
  - change (heads (r :: rows)) with (firstn 1 r ++ heads rows).
    cbn [concat]. rewrite IH.
    destruct r as [|x [|y r]]; try discriminate. reflexivity.
Qed.

Lemma map_id_on {A : Type} (g : A -> A) (l : list A) :
  Forall (fun x => g x = x) l -> map g l = l.
Proof.
  induction 1 as [|x l Hx _ IH]; cbn; [reflexivity|]. now rewrite Hx, IH.
Qed.

(** Flattening a rank-1 array in Fortran order changes nothing. *)
Lemma ravel_F_1d (n : nat) (f : list V) :
  length f = n -> ravel_F [n] f = f.
Proof.
  intros Hf. cbn. rewrite map_id. rewrite app_nil_r.
  change (flat_map (fun r => firstn 1 r) (chunks 1 n f))
    with (heads (chunks 1 n f)).
  pose proof (interleave_one (chunks 1 n f)) as H1. cbn in H1.
  rewrite app_nil_r in H1. rewrite H1.
  - apply concat_chunks. lia.
  - apply chunks_all_length. lia.
Qed.

(** Fortran-order flattening of a rank-2 array reads its rows column by
    column. *)
Lemma ravel_F_2d (r c : nat) (f : list V) :
  length f = r * c -> ravel_F [r; c] f = interleave c (chunks c r f).
Proof.
  intros Hf. cbn [ravel_F product fold_right]. rewrite Nat.mul_1_r.
  f_equal. apply map_id_on.
  eapply Forall_impl; [|apply chunks_all_length; exact Hf].
  intros row Hrow. now apply (ravel_F_1d c).
Qed.

(** Filling an [r] x [c] array in Fortran order from the Fortran-order
    flattening of an [r] x [c] array gives the array back. *)
Lemma unravel_ravel_F2 (r c : nat) (f : list V) :
  length f = r * c -> unravel_F2 r c (ravel_F [r; c] f) = f.
Proof.
  intros Hf. rewrite ravel_F_2d by exact Hf. unfold unravel_F2.
  pose proof (interleave_involutive c (chunks c r f)
                (chunks_all_length c r f Hf)) as H.
  rewrite length_chunks in H. rewrite H. now apply concat_chunks.
Qed.

End Blocks.

(** ** Dimension containers *)

Lemma contains_false_notin (d : Dimensions.ParamDimensions) (nm : string) :
  ~ In nm (Dimensions.keys d) -> Dimensions.contains d nm = false.
Proof.
  unfold Dimensions.contains. induction (Dimensions.keys d) as [|k ks IH];
    cbn; intros H; [reflexivity|].
  rewrite IH by tauto. destruct (String.eqb_spec nm k); [|reflexivity].
  subst. tauto.
Qed.

Lemma get_skip (k nm : string) (v : Dimensions.Dimension)
  (d : Dimensions.ParamDimensions) :
  nm <> k -> Dimensions.get ((k, v) :: d) nm = Dimensions.get d nm.
Proof.
  intros H. cbn. destruct (String.eqb_spec nm k); [contradiction|reflexivity].
Qed.

(** The loop of [has_correct_size], from any starting product, over keys
    that are all present and distinct. *)
Lemma total_size_loop (d0 d : Dimensions.ParamDimensions) (t : nat) :
  NoDup (Dimensions.keys d) ->
  (forall kv, In kv d -> Dimensions.get d0 (fst kv) = Ok (snd kv)) ->
  fold_left
    (fun acc dd =>
       match acc with
       | Raise e => Raise e
       | Ok t =>
           match Dimensions.get d0 dd with
           | Ok x => Ok (t * Dimensions.size x)
           | Raise e => Raise e
           end
       end)
    (Dimensions.keys d) (Ok t)
  = Ok (t * product (Dimensions.sizes d)).
Proof.
  revert t. induction d as [|[k v] d IH]; intros t Hnd Hget; cbn.
  - now rewrite Nat.mul_1_r.
  - pose proof (Hget (k, v) (or_introl eq_refl)) as Hk. cbn in Hk.
    rewrite Hk. inversion Hnd; subst. rewrite IH; [|assumption|].
    + f_equal. unfold product, Dimensions.sizes, Dimensions.values.
      cbn. lia.
    + intros kv Hin. apply Hget. now right.
Qed.

Lemma get_of_key (d : Dimensions.ParamDimensions) :
  Dimensions.wf d ->
  forall kv, In kv d -> Dimensions.get d (fst kv) = Ok (snd kv).
Proof.
  unfold Dimensions.wf.
  induction d as [|[k v] d IH]; intros Hnd kv Hin; [contradiction|].
  cbn in Hnd. inversion Hnd as [|? ? Hk Hd]; subst.
  destruct Hin as [<- | Hin].
  - cbn. now rewrite String.eqb_refl.
  - rewrite get_skip; [now apply IH|].
    intros E. apply Hk. rewrite <- E. unfold Dimensions.keys.
    now apply in_map.
Qed.

Lemma fold_mul_product (xs : list nat) (x : nat) :
  fold_left Nat.mul xs x = x * product xs.
Proof.
  revert x. induction xs as [|y xs IH]; intros x; cbn [fold_left].
  - cbn. lia.
  - rewrite IH. change (product (y :: xs)) with (y * product xs). lia.
Qed.

Lemma shape_eqb_eq (s1 s2 : list nat) : shape_eqb s1 s2 = true -> s1 = s2.
Proof.
  revert s2. induction s1 as [|x s1 IH]; intros [|y s2] H;
    try discriminate; [reflexivity|].
  cbn in H. apply andb_prop in H as [Hx Hs].
  apply Nat.eqb_eq in Hx. subst. f_equal. now apply IH.
Qed.

Section Properties.

Context {V : Type}.
Variable veq : V -> V -> bool.
Variable vle : V -> V -> bool.
Variable cast_item : ndarray V -> V -> result V.
Variable array_as_scalar : option exception.
Context {dtype : Type}.
Variable DATA_TYPES : list (Z * string).
Variable DATATYPE_TO_DTYPE : list (Z * dtype).
Variable astype : dtype -> V -> result V.
Variable py_float : pyvalue V -> option V.
Variable py_int : pyvalue V -> option V.
Variable py_none : V.

Lemma array_equal_shape (a b : ndarray V) :
  array_equal veq a b = true -> shape a = shape b.
Proof.
  unfold array_equal. intros H. apply andb_prop in H as [H _].
  now apply shape_eqb_eq.
Qed.

(** Both ways of computing the declared size agree with the product of the
    sizes. *)
Lemma size_product (p : Param V) :
  ndims p <> 0 -> size p = Ok (product (Dimensions.sizes (dimensions p))).
Proof.
  unfold ndims, Dimensions.ndims, size. intros H.
  destruct (dimensions p) as [|[k v] d]; [contradiction|].
  cbn. rewrite fold_mul_product. reflexivity.
Qed.

Lemma total_size_product (p : Param V) :
  Dimensions.wf (dimensions p) ->
  total_size p = Ok (product (Dimensions.sizes (dimensions p))).
Proof.
  intros Hwf. unfold total_size.
  rewrite (total_size_loop (dimensions p) (dimensions p) 1 Hwf
             (get_of_key _ Hwf)).
  f_equal. lia.
Qed.

(** The reshape to two axes keeps the element count. *)
Lemma reshape_F_size (a b : ndarray V) (d1 : nat) :
  reshape_F a d1 = Ok b -> asize b = asize a.
Proof.
  unfold reshape_F. destruct (d1 =? 0) eqn:E0; [discriminate|].
  destruct (asize a mod d1 =? 0) eqn:Em; [|discriminate].
  cbn. intros [= <-]. unfold asize at 1. cbn.
  apply Nat.eqb_neq in E0. apply Nat.eqb_eq in Em.
  rewrite Nat.mul_1_r.
  pose proof (Nat.div_mod_eq (asize a) d1). lia.
Qed.

(** What the setter stores has the size of the reconciled array. *)
Lemma store_size (p : Param V) (a : ndarray V) (out : list message) :
  exists b, data (after (store veq p a out)) = Some b /\ asize b = asize a
            /\ dimensions (after (store veq p a out)) = dimensions p.
Proof.
  unfold store. destruct (data p) as [old|] eqn:Hd.
  - destruct (array_equal veq old a) eqn:He.
    + exists old. cbn. repeat split; [assumption|].
      unfold asize. now rewrite (array_equal_shape _ _ He).
    + exists a. cbn. auto.
  - exists a. cbn. auto.
Qed.

(** ** The data setter *)

Lemma first_item_rank1_size (a b : ndarray V) :
  ndim a = 1 -> first_item a = Ok b -> asize b = 1.
Proof.
  unfold ndim, first_item. destruct (shape a) as [|s [|s' ss]];
    try discriminate. intros _.
  destruct (s =? 0); [discriminate|]. now intros [= <-].
Qed.

(** The reconciled array has the declared size when the incoming one had
    it, or when a rank-1 array was cut down for a size-1 parameter. *)
Lemma reconcile_size (p : Param V) (data_in : data_input V)
  (data_np a : ndarray V) (out : list message) (sz : nat) :
  size p = Ok sz ->
  reconcile p data_in data_np = (Ok a, out) ->
  asize data_np = sz \/ (ndim data_np = 1 /\ sz = 1) ->
  asize a = sz.
Proof.
  intros Hsz. unfold reconcile. rewrite Hsz.
  destruct (asize data_np =? sz) eqn:Esz.
  - apply Nat.eqb_eq in Esz. intros H _.
    destruct (ndim data_np <? ndims p).
    + destruct (negb (ndim data_np =? 0)).
      * destruct (Dimensions.get_dimsize_by_index (dimensions p) 1);
          [|discriminate].
        injection H as H _. apply reshape_F_size in H. congruence.
      * injection H as H _. congruence.
    + destruct (ndim data_np =? ndims p); [|discriminate].
      injection H as H _. congruence.
  - apply Nat.eqb_neq in Esz. intros H [Heq | [Hrank ->]]; [contradiction|].
    destruct ((1 <? asize data_np)
              && Dimensions.contains (dimensions p) "one"); [|discriminate].
    injection H as H _. now apply first_item_rank1_size in H.
Qed.

Lemma set_data_returned (p p' : Param V) (data_in : data_input V)
  (data_np : ndarray V) (out : list message) :
  to_ndarray DATATYPE_TO_DTYPE astype p data_in = Ok (Some data_np) ->
  set_data veq DATATYPE_TO_DTYPE astype p data_in = Returned p' out ->
  ndims p <> 0 /\
  exists a, reconcile p data_in data_np = (Ok a, out)
            /\ store veq p a out = Returned p' out.
Proof.
  unfold set_data. intros -> Hst.
  destruct (ndims p =? 0) eqn:E; [discriminate|].
  apply Nat.eqb_neq in E. split; [exact E|].
  destruct (reconcile p data_in data_np) as [[a|e] o]; [|discriminate].
  exists a.
  assert (o = out) as ->.
  { unfold store in Hst. destruct (data p); [destruct (array_equal _ _ _)|];
      now injection Hst. }
  split; [reflexivity | exact Hst].
Qed.

(** C1 (as amended): after a data assignment that returns, the stored
    array has the declared total size, so [has_correct_size()] is true,
    whenever the incoming element count equals the declared total size,
    and also when a rank-1 array is assigned to a parameter of declared
    size 1 (where an oversized array is cut to its first element). *)
Theorem set_data_has_correct_size (p p' : Param V) (data_in : data_input V)
  (data_np : ndarray V) (out : list message) :
  Dimensions.wf (dimensions p) ->
  to_ndarray DATATYPE_TO_DTYPE astype p data_in = Ok (Some data_np) ->
  set_data veq DATATYPE_TO_DTYPE astype p data_in = Returned p' out ->
  size p = Ok (asize data_np) \/ (ndim data_np = 1 /\ size p = Ok 1) ->
  has_correct_size p' = Ok true.
Proof.
  intros Hwf Hnp Hset Hcase.
  destruct (set_data_returned _ _ _ _ _ Hnp Hset) as [Hnd [a [Hrec Hst]]].
  pose proof (size_product p Hnd) as Hsz.
  assert (Ha : asize a = product (Dimensions.sizes (dimensions p))).
  { eapply reconcile_size; [exact Hsz | exact Hrec |].
    destruct Hcase as [H | [Hr H]]; rewrite Hsz in H; injection H as E.
    - left. now symmetry.
    - right. split; [exact Hr | exact E]. }
  destruct (store_size p a out) as [b [Hb [Hsize Hdims]]].
  rewrite Hst in Hb, Hdims. cbn in Hb, Hdims.
  unfold has_correct_size.
  rewrite total_size_product by (now rewrite Hdims).
  unfold get_data. rewrite Hb, Hdims, Hsize, Ha.
  now rewrite Nat.eqb_refl.
Qed.

(** ** Flattening and assigning back *)

Lemma astype_all_id (dt : dtype) (l : list V) :
  Forall (fun v => astype dt v = Ok v) l -> astype_all astype dt l = Ok l.
Proof.
  induction 1 as [|x l Hx _ IH]; cbn; [reflexivity|]. now rewrite Hx, IH.
Qed.

Lemma Forall_heads (P : V -> Prop) (rows : list (list V)) :
  Forall (Forall P) rows -> Forall P (heads rows).
Proof.
  induction 1 as [|r rows Hr _ IH]; [constructor|].
  change (heads (r :: rows)) with (firstn 1 r ++ heads rows).
  apply Forall_app. split; [|exact IH].
  destruct Hr; cbn; constructor; [assumption | constructor].
Qed.

Lemma Forall_tails (P : V -> Prop) (rows : list (list V)) :
  Forall (Forall P) rows -> Forall (Forall P) (tails rows).
Proof.
  induction 1 as [|r rows Hr _ IH]; cbn; constructor; [|exact IH].
  destruct Hr; cbn; [constructor | assumption].
Qed.

Lemma Forall_interleave (P : V -> Prop) (m : nat) (rows : list (list V)) :
  Forall (Forall P) rows -> Forall P (interleave m rows).
Proof.
  revert rows. induction m as [|m IH]; intros rows H; cbn; [constructor|].
  apply Forall_app. split; [now apply Forall_heads|].
  apply IH. now apply Forall_tails.
Qed.

Lemma Forall_firstn (P : V -> Prop) (n : nat) (f : list V) :
  Forall P f -> Forall P (firstn n f).
Proof.
  intros H. revert n. induction H as [|x f Hx _ IH]; intros [|n]; cbn;
    constructor; auto.
Qed.

Lemma Forall_skipn (P : V -> Prop) (n : nat) (f : list V) :
  Forall P f -> Forall P (skipn n f).
Proof.
  intros H. revert n. induction H as [|x f Hx Hf IH]; intros [|n]; cbn;
    try constructor; auto.
Qed.

Lemma Forall_chunks (P : V -> Prop) (m k : nat) (f : list V) :
  Forall P f -> Forall (Forall P) (chunks m k f).
Proof.
  revert f. induction k as [|k IH]; intros f H; cbn; constructor.
  - now apply Forall_firstn.
  - apply IH. now apply Forall_skipn.
Qed.

Lemma length_interleave (m : nat) (rows : list (list V)) :
  Forall (fun r => length r = m) rows ->
  length (interleave m rows) = m * length rows.
Proof.
  revert rows. induction m as [|m IH]; intros rows H; cbn [interleave].
  - reflexivity.
  - rewrite length_app, (heads_length rows m H), IH.
    + unfold tails. rewrite length_map. lia.
    + now apply tails_all_length.
Qed.

(** Assigning an array that is the stored one, element for element, leaves
    the stored one or an identical one behind. *)
Lemma store_same (p : Param V) (a new : ndarray V) (out : list message) :
  data p = Some a ->
  same_array new a ->
  exists p' a', store veq p new out = Returned p' out
                /\ data p' = Some a' /\ same_array a' a.
Proof.
  intros Hd Hsame. unfold store. rewrite Hd.
  destruct (array_equal veq a new).
  - exists p, a. split; [reflexivity|]. split; [exact Hd|].
    split; reflexivity.
  - eexists _, new. split; [reflexivity|]. split; [reflexivity|].
    exact Hsame.
Qed.

(** C2 (as amended): for a parameter with one or two dimensions that holds
    an array of exactly the declared shape (with a non-empty second axis)
    whose elements pass unchanged through the conversion to the declared
    datatype, assigning [tolist()] back through the data setter returns
    and leaves an array with the same shape and the same element at every
    position. *)
Theorem tolist_set_data_roundtrip (p : Param V) (a : ndarray V)
  (d : Z) (dt : dtype) (l : list V) :
  data p = Some a ->
  wf_array a ->
  shape a = Dimensions.sizes (dimensions p) ->
  (exists n, shape a = [n]) \/ (exists r c, shape a = [r; c] /\ c <> 0) ->
  datatype p = Some d ->
  lookup d DATATYPE_TO_DTYPE = Some dt ->
  Forall (fun v => astype dt v = Ok v) (flat a) ->
  tolist p = Ok l ->
  exists p' a',
    set_data veq DATATYPE_TO_DTYPE astype p (InList (PyFlat l))
    = Returned p' []
    /\ data p' = Some a' /\ same_array a' a.
Proof.
  intros Hd Hwf Hshape Hrank Hdt Hlk Hast Hl.
  unfold tolist in Hl. rewrite Hd in Hl. injection Hl as <-.
  unfold wf_array, asize in Hwf.
  assert (Hnd : ndims p = length (shape a)).
  { rewrite Hshape. unfold ndims, Dimensions.ndims, Dimensions.sizes,
      Dimensions.values. now rewrite !length_map. }
  assert (Hsz : size p = Ok (product (shape a))).
  { rewrite Hshape. apply size_product. rewrite Hnd.
    destruct Hrank as [[n E] | [r [c [E _]]]]; rewrite E; discriminate. }
  unfold set_data, to_ndarray, np_array. rewrite Hdt, Hlk.
  cbn [list_shape list_flat].
  destruct Hrank as [[n E] | [r [c [E Hc]]]]; rewrite E in *.
  - (* one dimension *)
    cbn in Hwf. rewrite Nat.mul_1_r in Hwf.
    rewrite (ravel_F_1d n (flat a) Hwf), (astype_all_id dt _ Hast).
    rewrite Hnd. cbn [length Nat.eqb].
    unfold reconcile. rewrite Hsz, Hnd. unfold asize, ndim. cbn.
    rewrite Hwf, Nat.mul_1_r, Nat.eqb_refl.
    apply store_same; [exact Hd|]. split; cbn; congruence.
  - (* two dimensions *)
    assert (Hlen : length (flat a) = r * c)
      by (cbn in Hwf; rewrite Nat.mul_1_r in Hwf; exact Hwf).
    assert (Hrl : length (ravel_F [r; c] (flat a)) = r * c).
    { rewrite ravel_F_2d by exact Hlen.
      rewrite length_interleave by (now apply chunks_all_length).
      rewrite length_chunks. lia. }
    rewrite astype_all_id.
    2:{ rewrite ravel_F_2d by exact Hlen. apply Forall_interleave.
        now apply Forall_chunks. }
    rewrite Hnd. cbn [length Nat.eqb].
    unfold reconcile. rewrite Hsz, Hnd. unfold asize, ndim.
    cbn [shape flat product fold_right length]. rewrite Hrl.
    replace (r * c * 1 =? r * (c * 1)) with true
      by (symmetry; apply Nat.eqb_eq; lia).
    cbn [Nat.ltb Nat.leb Nat.eqb negb].
    assert (Hd1 : Dimensions.get_dimsize_by_index (dimensions p) 1 = Ok c).
    { unfold Dimensions.get_dimsize_by_index, Dimensions.sizes in *.
      destruct (Dimensions.values (dimensions p)) as [|x [|y ys]];
        try discriminate. cbn in *. congruence. }
    rewrite Hd1. unfold reshape_F, asize, ndim.
    cbn [shape flat writeable product fold_right length].
    replace (c =? 0) with false by (symmetry; apply Nat.eqb_neq; exact Hc).
    replace (r * c * 1) with (r * c) by lia.
    rewrite Nat.Div0.mod_mul, Nat.div_mul by exact Hc.
    cbn [Nat.eqb negb orb].
    rewrite (ravel_F_1d (r * c) _ Hrl), (unravel_ravel_F2 r c (flat a) Hlen).
    apply store_same; [exact Hd|]. split; cbn; congruence.
Qed.

(** ** The branches of the data setter *)

Lemma printed_store (p : Param V) (a : ndarray V) (out : list message) :
  printed (store veq p a out) = out.
Proof.
  unfold store. destruct (data p); [destruct (array_equal _ _ _)|];
    reflexivity.
Qed.

Lemma raised_store (p : Param V) (a : ndarray V) (out : list message) :
  raised (store veq p a out) = None.
Proof.
  unfold store. destruct (data p); [destruct (array_equal _ _ _)|];
    reflexivity.
Qed.

Lemma size_ndims (p : Param V) (sz : nat) :
  size p = Ok sz -> (ndims p =? 0) = false.
Proof.
  unfold size, ndims, Dimensions.ndims, Dimensions.sizes, Dimensions.values.
  destruct (dimensions p); [discriminate | reflexivity].
Qed.

(** What the setter prints, and whether it raises, is decided by
    [reconcile]. *)
Lemma set_data_reconcile (p : Param V) (data_in : data_input V)
  (data_np : ndarray V) (sz : nat) :
  to_ndarray DATATYPE_TO_DTYPE astype p data_in = Ok (Some data_np) ->
  size p = Ok sz ->
  set_data veq DATATYPE_TO_DTYPE astype p data_in
  = match reconcile p data_in data_np with
    | (Raise e, out) => Raised e p out
    | (Ok a, out) => store veq p a out
    end.
Proof.
  intros Hnp Hsz. unfold set_data. now rewrite (size_ndims p sz Hsz), Hnp.
Qed.

(** C3 (as amended): the setter takes the truncation path, which prints
    the warning, exactly when the incoming element count exceeds the
    declared total size and [one] is among the dimension names, whether or
    not other dimensions are declared next to it; on that path a rank-1
    incoming array is replaced by the one-element array of its first
    element and the call returns. *)
Theorem truncation_iff_oversized_and_one (p : Param V)
  (data_in : data_input V) (data_np : ndarray V) (sz : nat) :
  to_ndarray DATATYPE_TO_DTYPE astype p data_in = Ok (Some data_np) ->
  size p = Ok sz ->
  (printed (set_data veq DATATYPE_TO_DTYPE astype p data_in)
   = [WarnOneTruncated (name p) (asize data_np)]
   <-> sz < asize data_np /\ Dimensions.contains (dimensions p) "one" = true)
  /\ (sz < asize data_np ->
      Dimensions.contains (dimensions p) "one" = true ->
      ndim data_np = 1 ->
      raised (set_data veq DATATYPE_TO_DTYPE astype p data_in) = None
      /\ set_data veq DATATYPE_TO_DTYPE astype p data_in
         = store veq p (mkArray [1] (firstn 1 (flat data_np)) true)
                 [WarnOneTruncated (name p) (asize data_np)]).
Proof.
  intros Hnp Hsz. rewrite (set_data_reconcile p data_in data_np sz Hnp Hsz).
  unfold reconcile. rewrite Hsz. split.
  - destruct (asize data_np =? sz) eqn:Esz.
    + apply Nat.eqb_eq in Esz. split; [|lia].
      destruct (ndim data_np <? ndims p).
      * destruct (negb (ndim data_np =? 0)).
        -- destruct (Dimensions.get_dimsize_by_index (dimensions p) 1);
             [destruct (reshape_F data_np _)|];
             rewrite ?printed_store; discriminate.
        -- rewrite printed_store. discriminate.
      * destruct (ndim data_np =? ndims p);
          rewrite ?printed_store; discriminate.
    + destruct (sz <? asize data_np) eqn:Elt.
      * apply Nat.ltb_lt in Elt.
        destruct (Dimensions.contains (dimensions p) "one"); cbn [andb].
        -- split; [auto|]. intros _.
           destruct (first_item data_np); [apply printed_store|reflexivity].
        -- split; [discriminate | intros [_ H]; discriminate].
      * apply Nat.ltb_ge in Elt. cbn [andb].
        split; [discriminate | lia].
  - intros Hlt Hone Hrank.
    replace (asize data_np =? sz) with false
      by (symmetry; apply Nat.eqb_neq; lia).
    replace (sz <? asize data_np) with true
      by (symmetry; now apply Nat.ltb_lt).
    rewrite Hone. cbn [andb].
    unfold first_item, ndim, asize in *.
    destruct (shape data_np) as [|s [|s' ss]]; try discriminate.
    destruct (s =? 0) eqn:E0.
    + apply Nat.eqb_eq in E0. subst. cbn in Hlt. lia.
    + cbn. split; [apply raised_store | reflexivity].
Qed.

(** C4 (as amended): an incoming array of higher rank than the declared
    number of dimensions fails with the dimensionality error (a
    [ValueError]) when its element count equals the declared total size;
    with any other element count the setter never raises that error: it
    returns normally when the count exceeds the declared size and [one]
    is among the dimension names, and fails with the error of the size
    mismatch otherwise. *)
Theorem rank_excess_error_needs_equal_size (p : Param V)
  (data_in : data_input V) (data_np : ndarray V) (sz : nat) :
  to_ndarray DATATYPE_TO_DTYPE astype p data_in = Ok (Some data_np) ->
  size p = Ok sz ->
  ndims p < ndim data_np ->
  (asize data_np = sz ->
   set_data veq DATATYPE_TO_DTYPE astype p data_in = Raised ValueError p [])
  /\ (asize data_np <> sz ->
      raised (set_data veq DATATYPE_TO_DTYPE astype p data_in)
      <> Some ValueError)
  /\ (sz < asize data_np ->
      Dimensions.contains (dimensions p) "one" = true ->
      raised (set_data veq DATATYPE_TO_DTYPE astype p data_in) = None)
  /\ (asize data_np <> sz ->
      ~ (sz < asize data_np
         /\ Dimensions.contains (dimensions p) "one" = true) ->
      set_data veq DATATYPE_TO_DTYPE astype p data_in
      = Raised (mismatch_error data_in) p []).
Proof.
  intros Hnp Hsz Hrank.
  rewrite (set_data_reconcile p data_in data_np sz Hnp Hsz).
  unfold reconcile. rewrite Hsz.
  assert (Hfirst : asize data_np <> 0 ->
                   exists b, first_item data_np = Ok b).
  { unfold first_item, asize, ndim in *.
    destruct (shape data_np) as [|s ss]; [cbn in Hrank; lia|].
    intros Hne. destruct (s =? 0) eqn:E0; [|eauto].
    apply Nat.eqb_eq in E0. subst. cbn in Hne. lia. }
  repeat split.
  - intros Heq. rewrite (proj2 (Nat.eqb_eq _ _) Heq).
    replace (ndim data_np <? ndims p) with false
      by (symmetry; apply Nat.ltb_ge; lia).
    replace (ndim data_np =? ndims p) with false
      by (symmetry; apply Nat.eqb_neq; lia).
    reflexivity.
  - intros Hne. rewrite (proj2 (Nat.eqb_neq _ _) Hne).
    destruct ((sz <? asize data_np)
              && Dimensions.contains (dimensions p) "one") eqn:E.
    + apply andb_prop in E as [Elt _]. apply Nat.ltb_lt in Elt.
      destruct Hfirst as [b ->]; [lia|]. rewrite raised_store. discriminate.
    + destruct data_in; discriminate.
  - intros Hlt Hone.
    replace (asize data_np =? sz) with false
      by (symmetry; apply Nat.eqb_neq; lia).
    replace (sz <? asize data_np) with true
      by (symmetry; now apply Nat.ltb_lt).
    rewrite Hone. cbn [andb].
    destruct Hfirst as [b ->]; [lia|]. apply raised_store.
  - intros Hne Hnot. rewrite (proj2 (Nat.eqb_neq _ _) Hne).
    destruct (sz <? asize data_np) eqn:Elt; [|reflexivity].
    destruct (Dimensions.contains (dimensions p) "one"); [|reflexivity].
    exfalso. apply Hnot. apply Nat.ltb_lt in Elt. now split.
Qed.

(** ** The modified flag *)

Lemma all_eq_differs (l1 l2 : list V) (i : nat) (x y : V) :
  nth_error l1 i = Some x -> nth_error l2 i = Some y -> veq x y = false ->
  all_eq veq l1 l2 = false.
Proof.
  revert l1 l2. induction i as [|i IH]; intros [|a l1] [|b l2] H1 H2 Hxy;
    try discriminate; cbn in *.
  - injection H1 as ->. injection H2 as ->. now rewrite Hxy.
  - rewrite (IH _ _ H1 H2 Hxy). apply andb_false_r.
Qed.

(** Arrays with a pair of elements at one position that are not [==] are
    not [array_equal]. *)
Lemma array_equal_differs (a b : ndarray V) (i : nat) (x y : V) :
  nth_error (flat a) i = Some x -> nth_error (flat b) i = Some y ->
  veq x y = false -> array_equal veq a b = false.
Proof.
  intros H1 H2 Hxy. unfold array_equal.
  rewrite (all_eq_differs _ _ i x y H1 H2 Hxy). apply andb_false_r.
Qed.

Lemma modified_and_then (o : outcome V) (k : Param V -> outcome V) (b : bool) :
  modified (after o) = b ->
  (forall p, modified p = b -> modified (after (k p)) = b) ->
  modified (after (and_then o k)) = b.
Proof.
  intros Ho Hk. destruct o as [p out | e p out]; cbn in *; [|exact Ho].
  specialize (Hk p Ho). destruct (k p); exact Hk.
Qed.

(** The metadata setters do not touch the flag. *)
Lemma set_datatype_modified (p : Param V) (x : option Z) :
  modified (after (set_datatype DATA_TYPES p x)) = modified p.
Proof. unfold set_datatype. repeat break_match; reflexivity. Qed.

Lemma set_minimum_modified (p : Param V) (x : option (pyvalue V)) :
  modified (after (set_minimum DATA_TYPES py_float py_int p x)) = modified p.
Proof. unfold set_minimum. repeat break_match; reflexivity. Qed.

Lemma set_maximum_modified (p : Param V) (x : option (pyvalue V)) :
  modified (after (set_maximum DATA_TYPES py_float py_int p x)) = modified p.
Proof. unfold set_maximum. repeat break_match; reflexivity. Qed.

Lemma set_default_modified (p : Param V) (x : option (pyvalue V)) :
  modified (after (set_default DATA_TYPES py_float py_int p x)) = modified p.
Proof. unfold set_default. repeat break_match; reflexivity. Qed.

Lemma set_modules_modified (p : Param V) (x : modules_arg) :
  modified (after (set_modules p x)) = modified p.
Proof. destruct x; reflexivity. Qed.

Lemma init_modified (args : init_args V) :
  modified (after (init DATA_TYPES py_float py_int args)) = false.
Proof.
  unfold init.
  repeat (apply modified_and_then; [|intros ? <-]);
    rewrite ?set_datatype_modified, ?set_minimum_modified,
      ?set_maximum_modified, ?set_default_modified, ?set_modules_modified;
    reflexivity.
Qed.

(** A first assignment stores the data and leaves the flag alone. *)
Lemma first_set_data_modified (p : Param V) (data_in : data_input V) :
  data p = None ->
  modified (after (set_data veq DATATYPE_TO_DTYPE astype p data_in))
  = modified p.
Proof.
  intros Hd. unfold set_data, store. rewrite Hd.
  repeat break_match; reflexivity.
Qed.

Lemma sync_dimension_modified (p : Param V) (a : ndarray V) (nm : string) :
  modified (after (sync_dimension p a nm)) = modified p.
Proof. unfold sync_dimension. repeat break_match; reflexivity. Qed.

Lemma replace_dimensions_modified (p : Param V) (old_dim : string)
  (nd : Dimensions.ParamDimensions) (a : ndarray V) :
  modified (after (replace_dimensions p old_dim nd a)) = modified p.
Proof. unfold replace_dimensions. repeat break_match; reflexivity. Qed.

(** No call clears the flag. *)
Lemma exec_keeps_modified (c : call V) (p : Param V) :
  modified p = true ->
  modified
    (after (exec veq cast_item array_as_scalar DATA_TYPES
                 DATATYPE_TO_DTYPE astype py_float py_int py_none c p)) = true.
Proof.
  intros Hm. destruct c; cbn [exec].
  - now rewrite set_datatype_modified.
  - exact Hm.
  - exact Hm.
  - exact Hm.
  - exact Hm.
  - now rewrite set_modules_modified.
  - now rewrite set_minimum_modified.
  - now rewrite set_maximum_modified.
  - now rewrite set_default_modified.
  - unfold set_data, store. repeat break_match; cbn; auto.
  - unfold update_element. repeat break_match; cbn; auto.
  - unfold remove_by_index. repeat break_match;
      rewrite ?sync_dimension_modified; cbn; auto.
  - unfold subset_by_index. repeat break_match;
      rewrite ?sync_dimension_modified; cbn; auto.
  - unfold reshape. repeat break_match;
      rewrite ?replace_dimensions_modified; cbn; auto.
  - unfold dimensions_add. break_match; cbn; auto.
Qed.

Lemma exec_all_keeps_modified (cs : list (call V)) (p : Param V) :
  modified p = true ->
  modified
    (exec_all veq cast_item array_as_scalar DATA_TYPES
              DATATYPE_TO_DTYPE astype py_float py_int py_none cs p) = true.
Proof.
  revert p. induction cs as [|c cs IH]; intros p Hm; cbn; [exact Hm|].
  apply IH. now apply exec_keeps_modified.
Qed.

(** C5: the modified flag is false on a freshly constructed parameter and
    after a first data assignment; an assignment whose reconciled array is
    [array_equal] to the stored one changes nothing (flag and storage are
    kept); an assignment whose reconciled array is not [array_equal] to
    the stored one, in particular one that differs at some position,
    stores it and sets the flag; and no sequence of calls clears a set
    flag. *)
Theorem modified_flag_lifecycle :
  (forall args : init_args V,
      modified (after (init DATA_TYPES py_float py_int args)) = false)
  /\ (forall (p : Param V) (data_in : data_input V),
         data p = None -> modified p = false ->
         modified (after (set_data veq DATATYPE_TO_DTYPE astype p data_in))
         = false)
  /\ (forall (p : Param V) (data_in : data_input V)
        (data_np old new : ndarray V) (out : list message),
         data p = Some old -> ndims p <> 0 ->
         to_ndarray DATATYPE_TO_DTYPE astype p data_in = Ok (Some data_np) ->
         reconcile p data_in data_np = (Ok new, out) ->
         (array_equal veq old new = true ->
          set_data veq DATATYPE_TO_DTYPE astype p data_in = Returned p out)
         /\ (array_equal veq old new = false ->
             set_data veq DATATYPE_TO_DTYPE astype p data_in
             = Returned (with_modified (with_data p (Some new)) true) out)
         /\ ((exists i x y, nth_error (flat old) i = Some x
                            /\ nth_error (flat new) i = Some y
                            /\ veq x y = false) ->
             modified
               (after (set_data veq DATATYPE_TO_DTYPE astype p data_in))
             = true))
  /\ (forall (cs : list (call V)) (p : Param V),
         modified p = true ->
         modified
           (exec_all veq cast_item array_as_scalar DATA_TYPES
                     DATATYPE_TO_DTYPE astype py_float
                     py_int py_none cs p) = true).
Proof.
  split; [exact init_modified|].
  split.
  { intros p data_in Hd Hm. now rewrite first_set_data_modified. }
  split; [|exact exec_all_keeps_modified].
  intros p data_in data_np old new out Hd Hnd Hnp Hrec.
  assert (Hset : set_data veq DATATYPE_TO_DTYPE astype p data_in
                 = store veq p new out).
  { unfold set_data. apply Nat.eqb_neq in Hnd. now rewrite Hnd, Hnp, Hrec. }
  rewrite Hset. unfold store. rewrite Hd.
  split; [|split].
  - now intros ->.
  - now intros ->.
  - intros (i & x & y & Hx & Hy & Hxy).
    now rewrite (array_equal_differs old new i x y Hx Hy Hxy).
Qed.

(** ** The bounds check *)

Lemma forallb_false_exists (f : V -> bool) (l : list V) :
  forallb f l = false <-> exists x, In x l /\ f x = false.
Proof.
  induction l as [|a l IH]; cbn.
  - split; [discriminate | intros [x [[] _]]].
  - rewrite andb_false_iff, IH. split.
    + intros [Ha | [x [Hin Hx]]]; [exists a | exists x]; auto.
    + intros [x [[<- | Hin] Hx]]; [now left | right; eauto].
Qed.

(** C6: with data present [check_values()] returns a boolean; it is true
    whenever the minimum or the maximum is unset or either of them is a
    string; and it is false exactly when both bounds are set, both are
    numbers, and some stored value lies outside the closed interval from
    the minimum to the maximum. *)
Theorem check_values_spec (p : Param V) (a : ndarray V) :
  data p = Some a ->
  (exists b, check_values vle p = Ok b)
  /\ (minimum p = None \/ maximum p = None
      \/ (exists s, minimum p = Some (PStr s))
      \/ (exists s, maximum p = Some (PStr s)) ->
      check_values vle p = Ok true)
  /\ (check_values vle p = Ok false <->
      exists lo hi,
        minimum p = Some (PNum lo) /\ maximum p = Some (PNum hi)
        /\ exists x, In x (flat a) /\ (vle lo x && vle x hi) = false).
Proof.
  intros Hd. unfold check_values. rewrite Hd.
  destruct (minimum p) as [[lo|s1]|]; destruct (maximum p) as [[hi|s2]|].
  all: split; [eauto|].
  all: split.
  all: try (intros _; reflexivity).
  all: try (split; [discriminate
                   | intros (lo' & hi' & H1 & H2 & _); discriminate]).
  - intros [H | [H | [[s H] | [s H]]]]; discriminate.
  - split.
    + intros H. injection H as H. exists lo, hi. repeat split.
      apply andb_false_iff in H as [H | H];
        apply forallb_false_exists in H as [x [Hin Hx]];
        exists x; (split; [exact Hin|]); rewrite Hx;
        [reflexivity | apply andb_false_r].
    + intros (lo' & hi' & [= <-] & [= <-] & x & Hin & Hx). f_equal.
      apply andb_false_iff in Hx as [Hx | Hx]; apply andb_false_iff;
        [left | right]; apply forallb_false_exists; eauto.
Qed.

(** ** Structural edits *)

(** C7: on a parameter whose stored array has exactly one element,
    [remove_by_index] and [subset_by_index] return without raising, for
    any dimension name and indices, and leave the parameter, hence its
    data and every dimension size, as it was; they only print the
    refusal. *)
Theorem singleton_edits_are_refused (p : Param V) (a : ndarray V)
  (dim_name : string) (indices : indices_arg) :
  data p = Some a ->
  asize a = 1 ->
  remove_by_index p dim_name indices = Returned p [CannotReduce (name p)]
  /\ subset_by_index p dim_name indices = Returned p [CannotReduce (name p)].
Proof.
  intros Hd Hs. unfold remove_by_index, subset_by_index.
  rewrite Hd, Hs. split; reflexivity.
Qed.

Lemma norm_index_in_range (n : nat) (i : Z) :
  (- Z.of_nat n <= i < Z.of_nat n)%Z ->
  norm_index n i = Some (Z.to_nat (i mod Z.of_nat n))
  /\ Z.to_nat (i mod Z.of_nat n) < n.
Proof.
  intros Hi. unfold norm_index.
  destruct ((0 <=? i) && (i <? Z.of_nat n))%Z eqn:E.
  - apply andb_prop in E as [E1 E2].
    apply Z.leb_le in E1. apply Z.ltb_lt in E2.
    rewrite Z.mod_small by lia. split; [reflexivity | lia].
  - assert (Hneg : (i < 0)%Z).
    { apply andb_false_iff in E as [E | E];
        [apply Z.leb_gt in E | apply Z.ltb_ge in E]; lia. }
    replace ((- Z.of_nat n <=? i) && (i <? 0))%Z with true
      by (symmetry; apply andb_true_intro; split;
          [apply Z.leb_le | apply Z.ltb_lt]; lia).
    assert (Hm : (i mod Z.of_nat n = i + Z.of_nat n)%Z).
    { rewrite <- (Z_mod_plus_full i 1 (Z.of_nat n)).
      rewrite Z.mod_small by lia. lia. }
    rewrite Hm. split; [reflexivity | lia].
Qed.

Lemma norm_indices_in_range (n : nat) (l : list Z) :
  Forall (fun i => (- Z.of_nat n <= i < Z.of_nat n)%Z) l ->
  norm_indices n l = Some (map (fun i => Z.to_nat (i mod Z.of_nat n)) l)
  /\ Forall (fun k => k < n) (map (fun i => Z.to_nat (i mod Z.of_nat n)) l).
Proof.
  induction 1 as [|i l Hi _ [IH1 IH2]]; cbn; [split; [reflexivity|constructor]|].
  destruct (norm_index_in_range n i Hi) as [-> Hlt]. rewrite IH1.
  split; [reflexivity | now constructor].
Qed.

Lemma single_element_at (f : list V) (k : nat) :
  k < length f -> map Some (firstn 1 (skipn k f)) = [nth_error f k].
Proof.
  revert f. induction k as [|k IH]; intros [|x f] H; cbn in *; try lia.
  - reflexivity.
  - apply IH. lia.
Qed.

Lemma elements_at (f : list V) (ks : list nat) :
  Forall (fun k => k < length f) ks ->
  map Some (flat_map (fun k => chunk 1 k f) ks) = map (nth_error f) ks.
Proof.
  induction 1 as [|k ks Hk _ IH]; [reflexivity|].
  cbn [flat_map map]. rewrite map_app, IH. unfold chunk.
  rewrite Nat.mul_1_r, single_element_at by exact Hk. reflexivity.
Qed.

(** C8: on a parameter over one dimension that holds a rank-1 array with
    more than one element, [subset_by_index] with the name of that
    dimension and indices within the axis returns, stores the array of
    the elements at the given positions in the given order (a negative
    index counts from the end), and sets the size of the dimension to the
    number of indices. *)
Theorem subset_by_index_selects (p : Param V) (a : ndarray V) (n : nat)
  (dim_name : string) (d : Dimensions.Dimension) (indices : indices_arg) :
  data p = Some a ->
  shape a = [n] ->
  wf_array a ->
  1 < n ->
  dimensions p = [(dim_name, d)] ->
  Forall (fun i => (- Z.of_nat n <= i < Z.of_nat n)%Z) (as_list indices) ->
  exists p' a',
    subset_by_index p dim_name indices = Returned p' []
    /\ data p' = Some a'
    /\ shape a' = [length (as_list indices)]
    /\ map Some (flat a')
       = map (fun i => nth_error (flat a) (Z.to_nat (i mod Z.of_nat n)))
             (as_list indices)
    /\ dimensions p'
       = [(dim_name,
           Dimensions.mkDimension (Dimensions.name d)
                                  (length (as_list indices)))].
Proof.
  intros Hd Hsh Hwf Hn Hdims Hidx.
  destruct (norm_indices_in_range n _ Hidx) as [Hnorm Hlt].
  unfold wf_array, asize in Hwf. rewrite Hsh in Hwf. cbn in Hwf.
  rewrite Nat.mul_1_r in Hwf.
  unfold subset_by_index. rewrite Hd. unfold asize. rewrite Hsh.
  cbn [product fold_right]. rewrite Nat.mul_1_r.
  replace (n =? 1) with false by (symmetry; apply Nat.eqb_neq; lia).
  unfold take_rows. rewrite Hsh, Hnorm.
  unfold sync_dimension. cbn [dimensions with_data]. rewrite Hdims.
  cbn [Dimensions.get_position Dimensions.get Dimensions.set_size].
  rewrite String.eqb_refl. cbn [shape nth_error].
  eexists _, _. split; [reflexivity|]. cbn [data with_dimensions with_data].
  split; [reflexivity|]. cbn [shape flat dimensions].
  rewrite !length_map. split; [reflexivity|]. split; [|reflexivity].
  cbn [product fold_right]. rewrite elements_at by (now rewrite Hwf).
  now rewrite map_map.
Qed.

(** ** Broadcasting a scalar *)

Lemma product_ones (sh : list nat) : Forall (eq 1) sh -> product sh = 1.
Proof.
  induction 1 as [|s sh <- _ IH]; [reflexivity|].
  change (product (1 :: sh)) with (1 * product sh). lia.
Qed.

Lemma concat_repeat_repeat (v : V) (m t : nat) :
  concat (repeat (repeat v m) t) = repeat v (t * m).
Proof.
  induction t as [|t IH]; cbn; [reflexivity|].
  now rewrite IH, repeat_app.
Qed.

(** A one-element array of axes of length 1 broadcasts to any shape of its
    rank, and every element of the result is its element. *)
Lemma broadcast_ones (v : V) (src tgt : list nat) :
  Forall (eq 1) src -> length src = length tgt ->
  broadcastable src tgt = true
  /\ broadcast_flat src tgt [v] = repeat v (product tgt).
Proof.
  intros H. revert tgt.
  induction H as [|s ss <- Hss IH]; intros [|t ts] Hlen; try discriminate.
  - split; reflexivity.
  - injection Hlen as Hlen. destruct (IH ts Hlen) as [IHb IHf].
    split.
    + cbn. rewrite IHb. now rewrite orb_true_r.
    + cbn [broadcast_flat]. change (product (t :: ts)) with (t * product ts).
      destruct (1 =? t) eqn:E.
      * apply Nat.eqb_eq in E. subst t.
        rewrite (product_ones ss Hss). cbn. rewrite IHf.
        now rewrite app_nil_r, Nat.add_0_r.
      * rewrite IHf. apply concat_repeat_repeat.
Qed.

Lemma add_all_fresh (d new_dims : Dimensions.ParamDimensions) :
  NoDup (Dimensions.keys d ++ Dimensions.keys new_dims) ->
  add_all d new_dims
  = (d ++ map (fun kv => (fst kv,
                          Dimensions.mkDimension (fst kv)
                            (Dimensions.size (snd kv)))) new_dims,
     None).
Proof.
  revert d. induction new_dims as [|[kk vv] rest IH]; intros d Hnd.
  - cbn. now rewrite app_nil_r.
  - cbn [add_all]. unfold Dimensions.add.
    cbn [Dimensions.keys map fst] in Hnd.
    rewrite contains_false_notin.
    2:{ intros Hin. apply NoDup_remove_2 in Hnd. apply Hnd.
        apply in_or_app. now left. }
    rewrite IH.
    + cbn [map fst snd]. now rewrite <- app_assoc.
    + unfold Dimensions.keys in *. rewrite map_app, <- app_assoc. exact Hnd.
Qed.

(** C9: on a parameter whose single dimension is [one] and whose data is
    one value (a one-element array of rank at most the number of new
    dimensions), [reshape(new_dims)] returns, the dimensions become
    exactly the names and sizes of [new_dims] in their order, and the data
    becomes the array of that shape in which every element is the
    original value. *)
Theorem reshape_scalar_broadcasts (p : Param V) (a : ndarray V) (v : V)
  (d : Dimensions.Dimension) (new_dims : Dimensions.ParamDimensions) :
  dimensions p = [("one"%string, d)] ->
  data p = Some a ->
  flat a = [v] ->
  Forall (eq 1) (shape a) ->
  length (shape a) <= length new_dims ->
  Dimensions.wf new_dims ->
  exists p',
    reshape py_none p new_dims = Returned p' []
    /\ Dimensions.keys (dimensions p') = Dimensions.keys new_dims
    /\ Dimensions.sizes (dimensions p') = Dimensions.sizes new_dims
    /\ data p'
       = Some (mkArray (Dimensions.sizes new_dims)
                       (repeat v (product (Dimensions.sizes new_dims)))
                       false).
Proof.
  intros Hdims Hd Hflat Hones Hrank Hwf.
  assert (Hlen : length (Dimensions.sizes new_dims) = length new_dims)
    by (unfold Dimensions.sizes, Dimensions.values; now rewrite !length_map).
  destruct (broadcast_ones v
              (repeat 1 (length (Dimensions.sizes new_dims) - ndim a)
                 ++ shape a)
              (Dimensions.sizes new_dims)) as [Hb Hf].
  { apply Forall_app. split; [|exact Hones].
    apply Forall_forall. intros x Hx. now apply repeat_spec in Hx. }
  { rewrite length_app, repeat_length. unfold ndim. lia. }
  unfold reshape. rewrite Hdims.
  change (Dimensions.ndims [("one"%string, d)] =? 1) with true.
  change (Dimensions.contains [("one"%string, d)] "one") with true.
  cbn match. unfold data_or_none, broadcast_to. rewrite Hd.
  replace (length (Dimensions.sizes new_dims) <? ndim a) with false
    by (symmetry; apply Nat.ltb_ge; unfold ndim; lia).
  rewrite Hb, Hflat, Hf.
  unfold replace_dimensions. rewrite Hdims.
  change (Dimensions.remove [("one"%string, d)] "one")
    with (Ok (@nil (string * Dimensions.Dimension))).
  cbv beta iota. rewrite add_all_fresh by exact Hwf.
  eexists. split; [reflexivity|].
  cbn [dimensions data with_data with_dimensions app].
  unfold Dimensions.keys, Dimensions.sizes, Dimensions.values.
  rewrite !map_map. cbn [fst snd Dimensions.size]. auto.
Qed.

(** ** Element update *)

Lemma write_back (f : list V) (i : nat) (x : V) :
  nth_error f i = Some x -> firstn i f ++ [x] ++ skipn (S i) f = f.
Proof.
  revert f. induction i as [|i IH]; intros [|y f] H; try discriminate.
  - cbn in *. now injection H as ->.
  - cbn in *. f_equal. now apply IH.
Qed.

(** C10 (as amended): on a parameter with data, an [update_element] that
    returns sets the modified flag whenever the value is not [array_equal]
    to the whole stored array.  In particular, on a writeable rank-1 array,
    writing the scalar that the array already holds at the index, which the
    conversion to the dtype of the array leaves as it is, returns, sets the
    flag, and leaves the elements as they were: a scalar is never
    [array_equal] to a rank-1 array.  On a read-only array the call raises
    [ValueError] instead and leaves the parameter, the flag included, as it
    was. *)
Theorem update_element_flags_unchanged_data (p : Param V) (a : ndarray V) :
  data p = Some a ->
  (forall (index : Z) (value : ndarray V) (p' : Param V)
          (out : list message),
      array_equal veq a value = false ->
      update_element veq cast_item array_as_scalar py_none p index value
      = Returned p' out ->
      modified p' = true)
  /\ (forall (n i : nat) (x : V),
         shape a = [n] -> wf_array a -> writeable a = true ->
         nth_error (flat a) i = Some x ->
         cast_item a x = Ok x ->
         array_equal veq a (scalar x) = false
         /\ exists p' a',
             update_element veq cast_item array_as_scalar py_none p
               (Z.of_nat i) (scalar x)
             = Returned p' []
             /\ modified p' = true
             /\ data p' = Some a' /\ same_array a' a)
  /\ (forall (index : Z) (value : ndarray V),
         writeable a = false ->
         array_equal veq a value = false ->
         update_element veq cast_item array_as_scalar py_none p index value
         = Raised ValueError p []).
Proof.
  intros Hd. split; [|split].
  - intros index value p' out Hne. unfold update_element.
    rewrite Hd, Hne.
    destruct (set_item cast_item array_as_scalar a index value);
      [|discriminate].
    now intros [= <- _].
  - intros n i x Hsh Hwf Hw Hx Hcast.
    assert (Hne : array_equal veq a (scalar x) = false)
      by (unfold array_equal; now rewrite Hsh).
    split; [exact Hne|].
    assert (Hi : i < n).
    { unfold wf_array, asize in Hwf. rewrite Hsh in Hwf. cbn in Hwf.
      assert (i < length (flat a)) by (apply nth_error_Some; congruence).
      lia. }
    unfold update_element. rewrite Hd, Hne.
    unfold set_item. rewrite Hw, Hsh. cbn [negb].
    unfold norm_index.
    replace ((0 <=? Z.of_nat i) && (Z.of_nat i <? Z.of_nat n))%Z with true
      by (symmetry; apply andb_true_intro; split;
          [apply Z.leb_le | apply Z.ltb_lt]; lia).
    rewrite Nat2Z.id.
    change (refused_as_scalar array_as_scalar [] (scalar x))
      with (@None exception).
    cbn. rewrite Hcast.
    rewrite !Nat.mul_1_r.
    eexists _, _. split; [reflexivity|]. cbn.
    split; [reflexivity|]. split; [reflexivity|].
    split; cbn; [now rewrite Hsh|]. exact (write_back (flat a) i x Hx).
  - intros index value Hw Hne. unfold update_element.
    rewrite Hd, Hne. unfold set_item. now rewrite Hw.
Qed.

End Properties.

(** * The model on the scenarios of the test suite *)

(** Removing the second gage leaves [12, 45, 26] over three gages. *)
Example remove_second_gage :
  remove_by_index IntValues.poi_gage_segment "npoigages" (IndexList [1%Z])
  = Returned
      (with_dimensions
         (with_data IntValues.poi_gage_segment
            (Some (mkArray [3] (IntValues.ints [12; 45; 26]%Z) true)))
         [IntValues.dim "npoigages" 3]) [].
Proof. reflexivity. Qed.

(** Deleting along the second axis, and with an index from the end. *)
Example delete_column :
  np_delete (mkArray [2; 3] (IntValues.ints [1; 2; 3; 4; 5; 6]%Z) true)
            [1%Z] 1
  = Ok (mkArray [2; 2] (IntValues.ints [1; 3; 4; 6]%Z) true).
Proof. reflexivity. Qed.

Example delete_last_row :
  np_delete (mkArray [2; 3] (IntValues.ints [1; 2; 3; 4; 5; 6]%Z) true)
            [(-1)%Z] 0
  = Ok (mkArray [1; 3] (IntValues.ints [1; 2; 3]%Z) true).
Proof. reflexivity. Qed.

(** Fortran-order flattening of the 2 x 2 x 2 array of 0 .. 7. *)
Example ravel_F_rank3 :
  ravel_F [2; 2; 2] (IntValues.ints [0; 1; 2; 3; 4; 5; 6; 7]%Z)
  = IntValues.ints [0; 4; 2; 6; 1; 5; 3; 7]%Z.
Proof. reflexivity. Qed.

(** A flat list of six values fills the 2 x 3 parameter column by column. *)
Example flat_list_fills_columns :
  data (after (IntValues.set_data IntValues.tmax_empty
                 (InList (PyFlat (IntValues.ints [1; 4; 2; 5; 3; 6]%Z)))))
  = Some (mkArray [2; 3] (IntValues.ints [1; 2; 3; 4; 5; 6]%Z) true).
Proof. reflexivity. Qed.

(** Four gage values against [{npoigages: 4, nmonths: 2}]: the direct
    broadcast fails, the reversed one is transposed. *)
Example reshape_1d_to_2d :
  data (after (IntValues.reshape IntValues.poi_gage_segment
                 [IntValues.dim "npoigages" 4; IntValues.dim "nmonths" 2]))
  = Some (mkArray [4; 2]
            (IntValues.ints [12; 12; 4; 4; 45; 45; 26; 26]%Z) false).
Proof. reflexivity. Qed.

(** The broadcast array that [reshape] leaves is read-only. *)
Example update_after_reshape_raises :
  raised
    (IntValues.update_element
       (after (IntValues.reshape IntValues.basin_solsta
                 IntValues.nhru_nmonths))
       0 (scalar (IntValues.Int 3)))
  = Some ValueError.
Proof. reflexivity. Qed.

(** * The properties on the integer instance *)

Lemma nodup_two (x y : string) : x <> y -> NoDup [x; y].
Proof.
  intros H. constructor; [|constructor; [|constructor]].
  - intros [E | []]. now apply H.
  - intros [].
Qed.

Lemma set_data_has_correct_size_witness :
  has_correct_size
    (after (IntValues.set_data IntValues.tmax_empty
              (InList (PyFlat (IntValues.ints [1; 4; 2; 5; 3; 6]%Z)))))
  = Ok true.
Proof.
  eapply (set_data_has_correct_size IntValues.value_eq
            IntValues.DATATYPE_TO_DTYPE IntValues.astype
            IntValues.tmax_empty _
            (InList (PyFlat (IntValues.ints [1; 4; 2; 5; 3; 6]%Z)))).
  - apply nodup_two. discriminate.
  - reflexivity.
  - reflexivity.
  - left. reflexivity.
Defined.

(** C1 fails on the truncation path: a parameter over [one] and [nhru]
    (declared size 4) that is assigned five values keeps one of them, and
    a parameter over [one] alone that is assigned a 2 x 2 array keeps its
    first row; both assignments return and [has_correct_size()] is false
    afterwards. *)
Lemma set_data_wrong_size_counterexample :
  (ndims IntValues.one_and_nhru = 2
   /\ raised (IntValues.set_data IntValues.one_and_nhru
                (InArray IntValues.five_values)) = None
   /\ has_correct_size
        (after (IntValues.set_data IntValues.one_and_nhru
                  (InArray IntValues.five_values))) = Ok false)
  /\ (ndims IntValues.scalar_param = 1
      /\ raised (IntValues.set_data IntValues.scalar_param
                   (InArray IntValues.two_by_two)) = None
      /\ has_correct_size
           (after (IntValues.set_data IntValues.scalar_param
                     (InArray IntValues.two_by_two))) = Ok false).
Proof. repeat split. Qed.

Lemma tolist_set_data_roundtrip_witness :
  exists p' a',
    IntValues.set_data IntValues.tmax_adj
      (InList (PyFlat (IntValues.ints [1; 4; 2; 5; 3; 6]%Z)))
    = Returned p' []
    /\ data p' = Some a'
    /\ same_array a' (mkArray [2; 3] (IntValues.ints [1; 2; 3; 4; 5; 6]%Z)
                              true).
Proof.
  apply (tolist_set_data_roundtrip IntValues.value_eq
           IntValues.DATATYPE_TO_DTYPE IntValues.astype IntValues.tmax_adj
           _ 1%Z tt).
  - reflexivity.
  - reflexivity.
  - reflexivity.
  - right. exists 2, 3. split; [reflexivity | discriminate].
  - reflexivity.
  - reflexivity.
  - repeat constructor.
  - reflexivity.
Defined.

(** C2 fails when the stored array has the declared element count but not
    the declared shape: the 2 x 3 parameter accepts a 3 x 2 array, and
    gets a 2 x 3 array back from its own list, with other elements at its
    positions.  It also fails on an empty second axis, where the reshape
    of the list raises. *)
Lemma tolist_roundtrip_counterexample :
  (tolist IntValues.no_months = Ok []
   /\ IntValues.set_data IntValues.no_months (InList (PyFlat []))
      = Raised ValueError IntValues.no_months [])
  /\ IntValues.set_data IntValues.tmax_empty
       (InArray (mkArray [3; 2] (IntValues.ints [1; 2; 3; 4; 5; 6]%Z) true))
     = Returned IntValues.swapped []
  /\ data IntValues.swapped
     = Some (mkArray [3; 2] (IntValues.ints [1; 2; 3; 4; 5; 6]%Z) true)
  /\ size IntValues.swapped = Ok 6
  /\ tolist IntValues.swapped = Ok (IntValues.ints [1; 3; 5; 2; 4; 6]%Z)
  /\ IntValues.set_data IntValues.swapped
       (InList (PyFlat (IntValues.ints [1; 3; 5; 2; 4; 6]%Z)))
     = Returned
         (with_modified
            (with_data IntValues.swapped
               (Some (mkArray [2; 3]
                        (IntValues.ints [1; 5; 4; 3; 2; 6]%Z) true)))
            true) []
  /\ ~ same_array
         (mkArray [2; 3] (IntValues.ints [1; 5; 4; 3; 2; 6]%Z) true)
         (mkArray [3; 2] (IntValues.ints [1; 2; 3; 4; 5; 6]%Z) true).
Proof.
  repeat split. intros [H _]. discriminate H.
Qed.

Lemma truncation_iff_oversized_and_one_witness :
  (printed (IntValues.set_data IntValues.scalar_param
              (InArray IntValues.five_values))
   = [WarnOneTruncated (Some "basin_solsta"%string) 5]
   <-> 1 < 5
       /\ Dimensions.contains (dimensions IntValues.scalar_param) "one"
          = true)
  /\ (1 < 5 ->
      Dimensions.contains (dimensions IntValues.scalar_param) "one" = true ->
      ndim IntValues.five_values = 1 ->
      raised (IntValues.set_data IntValues.scalar_param
                (InArray IntValues.five_values)) = None
      /\ IntValues.set_data IntValues.scalar_param
           (InArray IntValues.five_values)
         = store IntValues.value_eq IntValues.scalar_param
             (mkArray [1] [IntValues.Int 7] true)
             [WarnOneTruncated (Some "basin_solsta"%string) 5]).
Proof.
  apply (truncation_iff_oversized_and_one IntValues.value_eq
           IntValues.DATATYPE_TO_DTYPE IntValues.astype
           IntValues.scalar_param (InArray IntValues.five_values)
           IntValues.five_values 1).
  - reflexivity.
  - reflexivity.
Defined.

(** C3 fails for a parameter that declares [one] next to another
    dimension: assigned more values than its declared size, it takes the
    truncation path all the same. *)
Lemma truncation_with_other_dimensions_counterexample :
  Dimensions.keys (dimensions IntValues.one_and_nhru)
  = ["one"%string; "nhru"%string]
  /\ size IntValues.one_and_nhru = Ok 4
  /\ asize IntValues.five_values = 5
  /\ IntValues.set_data IntValues.one_and_nhru
       (InArray IntValues.five_values)
     = Returned
         (with_data IntValues.one_and_nhru
            (Some (mkArray [1] [IntValues.Int 7] true)))
         [WarnOneTruncated (Some "mixed"%string) 5].
Proof. repeat split. Qed.

Lemma rank_excess_error_needs_equal_size_witness :
  IntValues.set_data IntValues.poi_gage_segment
    (InArray IntValues.two_by_two)
  = Raised ValueError IntValues.poi_gage_segment [].
Proof.
  apply (proj1 (rank_excess_error_needs_equal_size IntValues.value_eq
                  IntValues.DATATYPE_TO_DTYPE IntValues.astype
                  IntValues.poi_gage_segment
                  (InArray IntValues.two_by_two) IntValues.two_by_two 4
                  eq_refl eq_refl (le_n 2))).
  reflexivity.
Defined.

(** C4 fails when the element count differs from the declared size: a
    rank-2 array assigned to the parameter over [one] alone is not
    rejected, the call returns. *)
Lemma rank_excess_accepted_counterexample :
  ndims IntValues.scalar_param = 1
  /\ ndim IntValues.two_by_two = 2
  /\ IntValues.set_data IntValues.scalar_param
       (InArray IntValues.two_by_two)
     = Returned
         (with_data IntValues.scalar_param
            (Some (mkArray [2] (IntValues.ints [7; 8]%Z) true)))
         [WarnOneTruncated (Some "basin_solsta"%string) 4].
Proof. repeat split. Qed.

Lemma modified_flag_lifecycle_witness :
  modified
    (after (IntValues.set_data IntValues.scalar_param
              (InList (PyFlat [IntValues.Int 8])))) = false
  /\ IntValues.set_data IntValues.basin_solsta
       (InList (PyFlat [IntValues.Int 8]))
     = Returned IntValues.basin_solsta []
  /\ IntValues.set_data IntValues.basin_solsta
       (InList (PyFlat [IntValues.Int 9]))
     = Returned
         (with_modified
            (with_data IntValues.basin_solsta
               (Some (mkArray [1] [IntValues.Int 9] true))) true) []
  /\ modified
       (IntValues.exec_all
          [CallSetData (InList (PyFlat [IntValues.Int 8]));
           CallSetUnits (Some "deg"%string)]
          (with_modified IntValues.basin_solsta true)) = true.
Proof.
  destruct (modified_flag_lifecycle IntValues.value_eq IntValues.cast_item
              IntValues.array_as_scalar IntValues.DATA_TYPES
              IntValues.DATATYPE_TO_DTYPE IntValues.astype
              IntValues.py_number IntValues.py_number IntValues.NoneValue)
    as (_ & Hfirst & Hnext & Hkeep).
  split; [apply Hfirst; reflexivity|].
  split.
  { apply (proj1 (Hnext IntValues.basin_solsta
                    (InList (PyFlat [IntValues.Int 8]))
                    (mkArray [1] [IntValues.Int 8] true)
                    (mkArray [1] [IntValues.Int 8] true)
                    (mkArray [1] [IntValues.Int 8] true) []
                    eq_refl (fun H => Nat.neq_succ_0 0 H) eq_refl eq_refl)).
    reflexivity. }
  split.
  { apply (proj1 (proj2 (Hnext IntValues.basin_solsta
                           (InList (PyFlat [IntValues.Int 9]))
                           (mkArray [1] [IntValues.Int 9] true)
                           (mkArray [1] [IntValues.Int 8] true)
                           (mkArray [1] [IntValues.Int 9] true) []
                           eq_refl (fun H => Nat.neq_succ_0 0 H)
                           eq_refl eq_refl))).
    reflexivity. }
  apply Hkeep. reflexivity.
Defined.

Lemma check_values_spec_witness :
  IntValues.check_values IntValues.gage_bounded = Ok false.
Proof.
  apply (proj2 (proj2 (check_values_spec IntValues.value_le
                         IntValues.gage_bounded _ eq_refl))).
  exists (IntValues.Int 0), (IntValues.Int 40).
  split; [reflexivity|]. split; [reflexivity|].
  exists (IntValues.Int 45). split; [|reflexivity].
  cbn. auto.
Defined.

Lemma singleton_edits_are_refused_witness :
  remove_by_index IntValues.basin_solsta "one" (IndexList [0%Z])
  = Returned IntValues.basin_solsta
      [CannotReduce (Some "basin_solsta"%string)]
  /\ subset_by_index IntValues.basin_solsta "one" (IndexList [0%Z])
     = Returned IntValues.basin_solsta
         [CannotReduce (Some "basin_solsta"%string)].
Proof.
  apply (singleton_edits_are_refused IntValues.basin_solsta
           (mkArray [1] [IntValues.Int 8] true)); reflexivity.
Defined.

Lemma subset_by_index_selects_witness :
  exists p' a',
    subset_by_index IntValues.poi_gage_segment "npoigages"
      (IndexList [0; 2]%Z) = Returned p' []
    /\ data p' = Some a'
    /\ shape a' = [2]
    /\ map Some (flat a') = [Some (IntValues.Int 12); Some (IntValues.Int 45)]
    /\ dimensions p' = [IntValues.dim "npoigages" 2].
Proof.
  apply (subset_by_index_selects IntValues.poi_gage_segment
           (mkArray [4] (IntValues.ints [12; 4; 45; 26]%Z) true) 4
           "npoigages" (Dimensions.mkDimension "npoigages" 4)
           (IndexList [0; 2]%Z)).
  - reflexivity.
  - reflexivity.
  - reflexivity.
  - lia.
  - reflexivity.
  - repeat constructor; cbn; lia.
Defined.

Lemma reshape_scalar_broadcasts_witness :
  exists p',
    IntValues.reshape IntValues.basin_solsta IntValues.nhru_nmonths
    = Returned p' []
    /\ Dimensions.keys (dimensions p') = ["nhru"%string; "nmonths"%string]
    /\ Dimensions.sizes (dimensions p') = [4; 12]
    /\ data p'
       = Some (mkArray [4; 12] (repeat (IntValues.Int 8) 48) false).
Proof.
  apply (reshape_scalar_broadcasts IntValues.NoneValue
           IntValues.basin_solsta (mkArray [1] [IntValues.Int 8] true)
           (IntValues.Int 8) (Dimensions.mkDimension "one" 1)
           IntValues.nhru_nmonths).
  - reflexivity.
  - reflexivity.
  - reflexivity.
  - repeat constructor.
  - cbn. lia.
  - apply nodup_two. discriminate.
Defined.

Lemma update_element_flags_unchanged_data_witness :
  array_equal IntValues.value_eq
    (mkArray [4] (IntValues.ints [12; 4; 45; 26]%Z) true)
    (scalar (IntValues.Int 4)) = false
  /\ exists p' a',
      IntValues.update_element IntValues.poi_gage_segment 1
        (scalar (IntValues.Int 4)) = Returned p' []
      /\ modified p' = true
      /\ data p' = Some a'
      /\ same_array a' (mkArray [4] (IntValues.ints [12; 4; 45; 26]%Z) true).
Proof.
  apply (proj1 (proj2 (update_element_flags_unchanged_data
                         IntValues.value_eq IntValues.cast_item
                         IntValues.array_as_scalar IntValues.NoneValue
                         IntValues.poi_gage_segment
                         (mkArray [4] (IntValues.ints [12; 4; 45; 26]%Z) true)
                         eq_refl)) 4 1 (IntValues.Int 4)); reflexivity.
Defined.

(** C10 fails on a read-only array.  After [reshape] the data is a
    read-only view: updating its first row with the value it is filled with,
    which is not [array_equal] to the 4 x 12 array, raises and leaves the
    flag unset. *)
Lemma update_element_read_only_counterexample :
  exists a,
    data (after (IntValues.reshape IntValues.basin_solsta
                   IntValues.nhru_nmonths)) = Some a
    /\ asize a = 48
    /\ array_equal IntValues.value_eq a (scalar (IntValues.Int 8)) = false
    /\ IntValues.update_element
         (after (IntValues.reshape IntValues.basin_solsta
                   IntValues.nhru_nmonths)) 0 (scalar (IntValues.Int 8))
       = Raised ValueError
           (after (IntValues.reshape IntValues.basin_solsta
                     IntValues.nhru_nmonths)) []
    /\ modified
         (after (IntValues.update_element
                   (after (IntValues.reshape IntValues.basin_solsta
                             IntValues.nhru_nmonths)) 0
                   (scalar (IntValues.Int 8)))) = false.
Proof.
  eexists. split; [reflexivity|]. repeat split; reflexivity.
Qed.

(** * Further properties of the class *)

Section MoreProperties.

Context {V : Type}.
Variable veq : V -> V -> bool.
Variable vle : V -> V -> bool.
Variable cast_item : ndarray V -> V -> result V.
Variable array_as_scalar : option exception.
Context {dtype : Type}.
Variable DATA_TYPES : list (Z * string).
Variable DATATYPE_TO_DTYPE : list (Z * dtype).
Variable astype : dtype -> V -> result V.
Variable py_float : pyvalue V -> option V.
Variable py_int : pyvalue V -> option V.
Variable py_none : V.

(** ** Parameters without dimensions *)

(** Without a declared dimension a parameter cannot receive data: whatever
    is called on it, short of adding a dimension to its container, it
    still has no dimension and no data afterwards. *)
Theorem no_dimensions_no_data (cs : list (call V)) (p : Param V) :
  Forall (fun c => forall nm sz, c <> CallDimensionsAdd nm sz) cs ->
  ndims p = 0 ->
  data p = None ->
  ndims (exec_all veq cast_item array_as_scalar DATA_TYPES
                  DATATYPE_TO_DTYPE astype py_float py_int py_none cs p) = 0
  /\ data (exec_all veq cast_item array_as_scalar DATA_TYPES
                    DATATYPE_TO_DTYPE astype py_float py_int
                    py_none cs p) = None.
Proof.
  intros Hcs. revert p. induction Hcs as [|c cs Hc _ IH]; intros p Hn Hd.
  - now split.
  - cbn [exec_all].
    assert (Hstep :
      ndims (after (exec veq cast_item array_as_scalar DATA_TYPES
                         DATATYPE_TO_DTYPE astype py_float
                         py_int py_none c p)) = 0
      /\ data (after (exec veq cast_item array_as_scalar DATA_TYPES
                           DATATYPE_TO_DTYPE astype py_float
                           py_int py_none c p)) = None).
    { unfold ndims in *. destruct c; cbn [exec].
      - unfold set_datatype. repeat break_match; now split.
      - now split.
      - now split.
      - now split.
      - now split.
      - unfold set_modules. break_match; now split.
      - unfold set_minimum. repeat break_match; now split.
      - unfold set_maximum. repeat break_match; now split.
      - unfold set_default. repeat break_match; now split.
      - unfold set_data, ndims. rewrite Hn. now split.
      - unfold update_element. rewrite Hd. break_match; now split.
      - unfold remove_by_index. rewrite Hd. now split.
      - unfold subset_by_index. rewrite Hd. now split.
      - unfold reshape. rewrite Hn. now split.
      - exfalso. now apply (Hc nm sz). }
    destruct Hstep as [Hn' Hd']. now apply IH.
Qed.

(** ** The declared size *)

(** With data present, [has_correct_size()] compares the element count
    with what the [size] property returns: the loop over the keys and the
    reduction over the values give the same product. *)
Theorem has_correct_size_agrees_with_size (p : Param V) (a : ndarray V)
  (sz : nat) :
  Dimensions.wf (dimensions p) ->
  data p = Some a ->
  size p = Ok sz ->
  has_correct_size p = Ok (asize a =? sz).
Proof.
  intros Hwf Hd Hsz. unfold has_correct_size, get_data.
  rewrite (total_size_product p Hwf), Hd.
  rewrite size_product in Hsz.
  - now injection Hsz as <-.
  - unfold size in Hsz. unfold ndims, Dimensions.ndims.
    unfold Dimensions.sizes, Dimensions.values in Hsz.
    destruct (dimensions p); [discriminate | discriminate].
Qed.

(** ** Assigning the same data again *)

Lemma all_eq_refl (l : list V) :
  (forall x, veq x x = true) -> all_eq veq l l = true.
Proof.
  intros Hr. induction l as [|x l IH]; cbn; [reflexivity|].
  now rewrite Hr, IH.
Qed.

Lemma shape_eqb_refl (sh : list nat) : shape_eqb sh sh = true.
Proof.
  induction sh as [|x sh IH]; cbn; [reflexivity|].
  now rewrite Nat.eqb_refl, IH.
Qed.

Lemma array_equal_refl (a : ndarray V) :
  (forall x, veq x x = true) -> array_equal veq a a = true.
Proof.
  intros Hr. unfold array_equal.
  now rewrite shape_eqb_refl, all_eq_refl.
Qed.

(** When every value is [==] to itself (no NaN), an assignment that
    returned can be repeated: the second one returns too, prints the
    same, and leaves the parameter, its modified flag included, as the
    first one left it. *)
Theorem set_data_twice (p p1 : Param V) (data_in : data_input V)
  (out : list message) :
  (forall x, veq x x = true) ->
  set_data veq DATATYPE_TO_DTYPE astype p data_in = Returned p1 out ->
  set_data veq DATATYPE_TO_DTYPE astype p1 data_in = Returned p1 out.
Proof.
  intros Hr. unfold set_data.
  destruct (ndims p =? 0) eqn:En; [discriminate|].
  destruct (to_ndarray DATATYPE_TO_DTYPE astype p data_in)
    as [[data_np|]|e] eqn:Enp; try discriminate.
  destruct (reconcile p data_in data_np) as [[a|e] o] eqn:Erec;
    [|discriminate].
  unfold store. destruct (data p) as [old|] eqn:Hd.
  - destruct (array_equal veq old a) eqn:Eeq; intros [= <- <-].
    + now rewrite En, Enp, Erec, Hd, Eeq.
    + change (ndims (with_modified (with_data p (Some a)) true))
        with (ndims p).
      change (to_ndarray DATATYPE_TO_DTYPE astype
                (with_modified (with_data p (Some a)) true) data_in)
        with (to_ndarray DATATYPE_TO_DTYPE astype p data_in).
      rewrite En, Enp.
      change (reconcile (with_modified (with_data p (Some a)) true)
                data_in data_np)
        with (reconcile p data_in data_np).
      rewrite Erec. cbn [data with_modified with_data].
      now rewrite (array_equal_refl a Hr).
  - intros [= <- <-].
    change (ndims (with_data p (Some a))) with (ndims p).
    change (to_ndarray DATATYPE_TO_DTYPE astype (with_data p (Some a))
              data_in)
      with (to_ndarray DATATYPE_TO_DTYPE astype p data_in).
    rewrite En, Enp.
    change (reconcile (with_data p (Some a)) data_in data_np)
      with (reconcile p data_in data_np).
    rewrite Erec. cbn [data with_data].
    now rewrite (array_equal_refl a Hr).
Qed.

(** ** Removing and selecting positions *)

Lemma get_position_get (d : Dimensions.ParamDimensions) (nm : string)
  (pos : nat) :
  Dimensions.get_position d nm = Ok pos ->
  exists v, Dimensions.get d nm = Ok v.
Proof.
  revert pos. induction d as [|[k v] d IH]; intros pos; cbn;
    [discriminate|].
  destruct (String.eqb nm k); [eauto|].
  destruct (Dimensions.get_position d nm) as [i|e]; [|discriminate].
  intros _. now apply (IH i).
Qed.

Lemma get_position_unknown (d : Dimensions.ParamDimensions) (nm : string) :
  Dimensions.contains d nm = false ->
  Dimensions.get_position d nm = Raise NotFoundError.
Proof.
  unfold Dimensions.contains.
  induction d as [|[k v] d IH]; cbn; [reflexivity|].
  destruct (String.eqb nm k); [discriminate|]. cbn. intros H.
  now rewrite IH.
Qed.

Lemma keys_set_size (d : Dimensions.ParamDimensions) (nm : string)
  (x : nat) :
  Dimensions.keys (Dimensions.set_size d nm x) = Dimensions.keys d.
Proof.
  induction d as [|[k v] d IH]; cbn; [reflexivity|].
  destruct (String.eqb nm k); cbn; [reflexivity|].
  f_equal. exact IH.
Qed.

Lemma nth_delete_shape (sh del : list nat) (pos n : nat) :
  nth_error sh pos = Some n ->
  nth_error (delete_shape pos sh del) pos = Some (length (kept n del)).
Proof.
  revert pos. induction sh as [|s sh IH]; intros [|pos] H; cbn in *;
    try discriminate.
  - now injection H as ->.
  - now apply IH.
Qed.

(** Writing the new length of an axis into the dimension at that position
    is the change of shape that the deletion makes. *)
Lemma sizes_set_size_delete (d : Dimensions.ParamDimensions) (nm : string)
  (pos n : nat) (del : list nat) :
  Dimensions.get_position d nm = Ok pos ->
  nth_error (Dimensions.sizes d) pos = Some n ->
  Dimensions.sizes (Dimensions.set_size d nm (length (kept n del)))
  = delete_shape pos (Dimensions.sizes d) del.
Proof.
  revert pos. induction d as [|[k v] d IH]; intros pos; cbn;
    [discriminate|].
  destruct (String.eqb nm k).
  - intros [= <-]. cbn. now intros [= ->].
  - destruct (Dimensions.get_position d nm) as [i|e] eqn:E; [|discriminate].
    intros [= <-] Hn. cbn in Hn.
    cbn [delete_shape map snd]. f_equal. exact (IH i eq_refl Hn).
Qed.

(** Writing a dimension's own size back changes no size. *)
Lemma sizes_set_size_same (d : Dimensions.ParamDimensions) (nm : string)
  (pos n : nat) :
  Dimensions.get_position d nm = Ok pos ->
  nth_error (Dimensions.sizes d) pos = Some n ->
  Dimensions.sizes (Dimensions.set_size d nm n) = Dimensions.sizes d.
Proof.
  revert pos. induction d as [|[k v] d IH]; intros pos; cbn;
    [discriminate|].
  destruct (String.eqb nm k).
  - intros [= <-]. cbn. now intros [= ->].
  - destruct (Dimensions.get_position d nm) as [i|e] eqn:E; [|discriminate].
    intros [= <-] Hn. cbn in Hn.
    cbn [map snd]. f_equal. exact (IH i eq_refl Hn).
Qed.

(** How a [remove_by_index] that gets past the singleton test ends. *)
Lemma remove_by_index_cases (p : Param V) (a : ndarray V) (nm : string)
  (idx : indices_arg) :
  data p = Some a ->
  asize a <> 1 ->
  (exists e, remove_by_index p nm idx = Raised e p [])
  \/ (exists pos n del,
         Dimensions.get_position (dimensions p) nm = Ok pos
         /\ nth_error (shape a) pos = Some n
         /\ norm_indices n (as_list idx) = Some del
         /\ remove_by_index p nm idx
            = Returned
                (with_dimensions
                   (with_data p
                      (Some (mkArray (delete_shape pos (shape a) del)
                               (delete_flat pos (shape a) del (flat a))
                               true)))
                   (Dimensions.set_size (dimensions p) nm
                      (length (kept n del)))) []).
Proof.
  intros Hd Hs. unfold remove_by_index. rewrite Hd.
  replace (asize a =? 1) with false by (symmetry; now apply Nat.eqb_neq).
  destruct (Dimensions.get_position (dimensions p) nm) as [pos|e] eqn:Epos;
    [|left; eauto].
  unfold np_delete.
  destruct (nth_error (shape a) pos) as [n|] eqn:En; [|left; eauto].
  destruct (norm_indices n (as_list idx)) as [del|] eqn:Edel;
    [|left; eauto].
  right. exists pos, n, del. repeat split; try assumption.
  unfold sync_dimension. cbn [dimensions with_data shape]. rewrite Epos.
  rewrite (nth_delete_shape _ del _ _ En).
  destruct (get_position_get _ _ _ Epos) as [v ->]. reflexivity.
Qed.


(** [subset_by_index] replaces the data before it looks the dimension up:
    with a name the parameter does not declare it raises, and the
    selection is already stored. *)
Theorem subset_by_index_unknown_name (p : Param V) (a a' : ndarray V)
  (nm : string) (idx : indices_arg) :
  data p = Some a ->
  asize a <> 1 ->
  take_rows a (as_list idx) = Ok a' ->
  Dimensions.contains (dimensions p) nm = false ->
  raised (subset_by_index p nm idx) <> None
  /\ after (subset_by_index p nm idx) = with_data p (Some a').
Proof.
  intros Hd Hs Ht Hc. unfold subset_by_index. rewrite Hd, Ht.
  replace (asize a =? 1) with false by (symmetry; now apply Nat.eqb_neq).
  unfold sync_dimension. cbn [dimensions with_data].
  rewrite (get_position_unknown _ _ Hc). cbn. split; [discriminate|].
  reflexivity.
Qed.

Lemma has_correct_size_of_shape (p : Param V) (a : ndarray V) :
  Dimensions.wf (dimensions p) ->
  data p = Some a ->
  shape a = Dimensions.sizes (dimensions p) ->
  has_correct_size p = Ok true.
Proof.
  intros Hwf Hd Hsh. unfold has_correct_size, get_data.
  rewrite (total_size_product p Hwf), Hd. unfold asize. rewrite Hsh.
  now rewrite Nat.eqb_refl.
Qed.

(** [remove_by_index] keeps the shape of the data equal to the declared
    sizes, whichever axis the named dimension stands for: when the shape
    was the list of declared sizes before a call that returns, it is so
    afterwards, the names are the same, and [has_correct_size()] is
    true. *)
Theorem remove_by_index_keeps_shape (p p' : Param V) (a : ndarray V)
  (nm : string) (idx : indices_arg) (out : list message) :
  Dimensions.wf (dimensions p) ->
  data p = Some a ->
  shape a = Dimensions.sizes (dimensions p) ->
  remove_by_index p nm idx = Returned p' out ->
  Dimensions.keys (dimensions p') = Dimensions.keys (dimensions p)
  /\ has_correct_size p' = Ok true
  /\ exists a', data p' = Some a'
                /\ shape a' = Dimensions.sizes (dimensions p').
Proof.
  intros Hwf Hd Hsh Hret.
  destruct (Nat.eq_dec (asize a) 1) as [E|E].
  - unfold remove_by_index in Hret. rewrite Hd, E in Hret. cbn in Hret.
    injection Hret as <- _. split; [reflexivity|].
    split; [now apply (has_correct_size_of_shape p a) | eauto].
  - destruct (remove_by_index_cases p a nm idx Hd E)
      as [[e He] | (pos & n & del & Hpos & Hn & _ & Hrem)];
      [congruence|].
    rewrite Hrem in Hret. injection Hret as <- _.
    cbn [dimensions data with_dimensions with_data].
    assert (Hsizes :
      delete_shape pos (shape a) del
      = Dimensions.sizes
          (Dimensions.set_size (dimensions p) nm (length (kept n del)))).
    { rewrite Hsh in *. symmetry. now apply sizes_set_size_delete. }
    split; [apply keys_set_size|].
    split; [|eauto].
    eapply has_correct_size_of_shape; cbn; [|reflexivity|exact Hsizes].
    unfold Dimensions.wf. now rewrite keys_set_size.
Qed.

Lemma take_rows_shape (a a' : ndarray V) (l : list Z) :
  take_rows a l = Ok a' ->
  exists s ss, shape a = s :: ss /\ shape a' = length l :: ss.
Proof.
  unfold take_rows. destruct (shape a) as [|s ss]; [discriminate|].
  destruct (norm_indices s l) as [ks|] eqn:E; [|discriminate].
  intros [= <-]. exists s, ss. split; [reflexivity|]. cbn. f_equal.
  revert ks E. induction l as [|i l IH]; cbn; intros ks.
  - now intros [= <-].
  - destruct (norm_index s i); [|discriminate].
    destruct (norm_indices s l) as [ks'|]; [|discriminate].
    intros [= <-]. cbn. f_equal. now apply IH.
Qed.

(** [subset_by_index] selects along axis 0 whatever dimension is named.
    Named with the first dimension, a call that returns keeps the shape of
    the data equal to the declared sizes, and [has_correct_size()] is
    true afterwards. *)
Theorem subset_by_index_first_axis_keeps_shape (p p' : Param V)
  (a : ndarray V) (nm : string) (idx : indices_arg) (out : list message) :
  Dimensions.wf (dimensions p) ->
  data p = Some a ->
  shape a = Dimensions.sizes (dimensions p) ->
  Dimensions.get_position (dimensions p) nm = Ok 0 ->
  subset_by_index p nm idx = Returned p' out ->
  Dimensions.keys (dimensions p') = Dimensions.keys (dimensions p)
  /\ has_correct_size p' = Ok true
  /\ exists a', data p' = Some a'
                /\ shape a' = Dimensions.sizes (dimensions p').
Proof.
  intros Hwf Hd Hsh Hpos. unfold subset_by_index. rewrite Hd.
  destruct (asize a =? 1).
  - intros [= <- _]. split; [reflexivity|].
    split; [now apply (has_correct_size_of_shape p a) | eauto].
  - destruct (take_rows a (as_list idx)) as [a'|e] eqn:Et; [|discriminate].
    destruct (take_rows_shape _ _ _ Et) as (s & ss & Hs & Hs').
    unfold sync_dimension. cbn [dimensions with_data]. rewrite Hpos, Hs'.
    cbn [nth_error].
    destruct (get_position_get _ _ _ Hpos) as [v ->].
    intros [= <- _]. cbn [dimensions data with_dimensions with_data].
    assert (Hsizes :
      shape a'
      = Dimensions.sizes
          (Dimensions.set_size (dimensions p) nm (length (as_list idx)))).
    { rewrite Hs'. rewrite Hs in Hsh.
      destruct (dimensions p) as [|[k w] d]; [discriminate|].
      cbn in Hpos. destruct (String.eqb nm k) eqn:Ek.
      - cbn. rewrite Ek. cbn. injection Hsh as _ ->. reflexivity.
      - destruct (Dimensions.get_position d nm); discriminate. }
    split; [apply keys_set_size|].
    split; [|eauto].
    eapply has_correct_size_of_shape; cbn; [|reflexivity|exact Hsizes].
    unfold Dimensions.wf. now rewrite keys_set_size.
Qed.

(** Named with a dimension that is not the first, [subset_by_index] still
    cuts axis 0 of the data and writes the named dimension's old size
    back: no declared size changes, so [has_correct_size()] afterwards
    tells whether as many positions were selected as the first axis
    had. *)
Theorem subset_by_index_other_axis (p p' : Param V) (a : ndarray V)
  (nm : string) (idx : indices_arg) (out : list message) (pos : nat) :
  Dimensions.wf (dimensions p) ->
  data p = Some a ->
  asize a <> 1 ->
  shape a = Dimensions.sizes (dimensions p) ->
  Dimensions.get_position (dimensions p) nm = Ok (S pos) ->
  subset_by_index p nm idx = Returned p' out ->
  Dimensions.sizes (dimensions p') = Dimensions.sizes (dimensions p)
  /\ exists a', data p' = Some a'
                /\ shape a' = length (as_list idx) :: tl (shape a)
                /\ has_correct_size p'
                   = Ok (product (shape a') =? product (shape a)).
Proof.
  intros Hwf Hd Hne Hsh Hpos. unfold subset_by_index. rewrite Hd.
  replace (asize a =? 1) with false by (symmetry; now apply Nat.eqb_neq).
  destruct (take_rows a (as_list idx)) as [a'|e] eqn:Et; [|discriminate].
  destruct (take_rows_shape _ _ _ Et) as (s & ss & Hs & Hs').
  unfold sync_dimension. cbn [dimensions with_data]. rewrite Hpos, Hs'.
  cbn [nth_error].
  destruct (nth_error ss pos) as [n|] eqn:En; [|discriminate].
  destruct (get_position_get _ _ _ Hpos) as [v ->].
  intros [= <- _]. cbn [dimensions data with_dimensions with_data].
  assert (Hsame :
    Dimensions.sizes (Dimensions.set_size (dimensions p) nm n)
    = Dimensions.sizes (dimensions p)).
  { apply (sizes_set_size_same _ _ (S pos)); [exact Hpos|].
    rewrite <- Hsh, Hs. exact En. }
  split; [exact Hsame|].
  exists a'. split; [reflexivity|]. rewrite Hs. cbn [tl].
  split; [exact Hs'|].
  unfold has_correct_size, get_data.
  rewrite total_size_product
    by (cbn; unfold Dimensions.wf; now rewrite keys_set_size).
  cbn [dimensions data with_dimensions with_data].
  rewrite Hsame, <- Hsh, Hs. unfold asize. now rewrite Hs'.
Qed.

Lemma kept_in_range (n : nat) (del : list nat) :
  Forall (fun k => k < n) (kept n del).
Proof.
  apply Forall_forall. intros k Hk. unfold kept in Hk.
  apply filter_In in Hk as [Hk _]. apply in_seq in Hk. lia.
Qed.

Lemma norm_indices_of_nat (n : nat) (ks : list nat) :
  Forall (fun k => k < n) ks ->
  norm_indices n (map Z.of_nat ks) = Some ks.
Proof.
  induction 1 as [|k ks Hk _ IH]; cbn; [reflexivity|].
  rewrite IH. unfold norm_index.
  replace ((0 <=? Z.of_nat k) && (Z.of_nat k <? Z.of_nat n))%Z with true
    by (symmetry; apply andb_true_intro; split;
        [apply Z.leb_le | apply Z.ltb_lt]; lia).
  now rewrite Nat2Z.id.
Qed.

(** On a parameter over one dimension that holds a rank-1 array with more
    than one element, [remove_by_index] with indices within the axis keeps
    exactly the elements at the positions that are not listed, in their
    order, and sets the size of the dimension to their number. *)
Theorem remove_by_index_keeps_unlisted (p : Param V) (a : ndarray V)
  (n : nat) (nm : string) (d : Dimensions.Dimension) (idx : indices_arg) :
  data p = Some a ->
  shape a = [n] ->
  wf_array a ->
  1 < n ->
  dimensions p = [(nm, d)] ->
  Forall (fun i => (- Z.of_nat n <= i < Z.of_nat n)%Z) (as_list idx) ->
  exists p' a',
    remove_by_index p nm idx = Returned p' []
    /\ data p' = Some a'
    /\ map Some (flat a')
       = map (nth_error (flat a))
           (kept n (map (fun i => Z.to_nat (i mod Z.of_nat n))
                        (as_list idx)))
    /\ shape a' = [length (flat a')]
    /\ dimensions p'
       = [(nm, Dimensions.mkDimension (Dimensions.name d)
                 (length (flat a')))].
Proof.
  intros Hd Hsh Hwf Hn Hdims Hidx.
  destruct (norm_indices_in_range n _ Hidx) as [Hnorm _].
  set (del := map (fun i => Z.to_nat (i mod Z.of_nat n)) (as_list idx))
    in *.
  unfold wf_array, asize in Hwf. rewrite Hsh in Hwf. cbn in Hwf.
  rewrite Nat.mul_1_r in Hwf.
  assert (Hel : map Some (flat_map (fun k => chunk 1 k (flat a))
                            (kept n del))
                = map (nth_error (flat a)) (kept n del)).
  { apply elements_at. rewrite Hwf. apply kept_in_range. }
  assert (Hlen : length (flat_map (fun k => chunk 1 k (flat a))
                           (kept n del))
                 = length (kept n del)).
  { rewrite <- (length_map Some), Hel. apply length_map. }
  unfold remove_by_index. rewrite Hd. unfold asize. rewrite Hsh.
  cbn [product fold_right]. rewrite Nat.mul_1_r.
  replace (n =? 1) with false by (symmetry; apply Nat.eqb_neq; lia).
  rewrite Hdims. cbn [Dimensions.get_position].
  rewrite String.eqb_refl. unfold np_delete. rewrite Hsh.
  cbn [nth_error]. rewrite Hnorm.
  unfold sync_dimension. cbn [dimensions with_data]. rewrite Hdims.
  cbn [Dimensions.get_position Dimensions.get Dimensions.set_size].
  rewrite String.eqb_refl.
  cbn [shape delete_shape nth_error delete_flat product fold_right].
  eexists _, _. split; [reflexivity|].
  cbn [data dimensions flat shape with_dimensions with_data].
  split; [reflexivity|]. cbn [flat shape]. rewrite Hlen.
  repeat split. exact Hel.
Qed.

(** On a rank-1 array, removing positions is selecting the others:
    [remove_by_index] with indices within the axis ends as
    [subset_by_index] with the positions that are not listed, in
    ascending order. *)
Theorem remove_is_subset_of_the_rest (p : Param V) (a : ndarray V)
  (n : nat) (nm : string) (idx : indices_arg) :
  data p = Some a ->
  shape a = [n] ->
  Dimensions.get_position (dimensions p) nm = Ok 0 ->
  Forall (fun i => (- Z.of_nat n <= i < Z.of_nat n)%Z) (as_list idx) ->
  remove_by_index p nm idx
  = subset_by_index p nm
      (IndexList
         (map Z.of_nat
            (kept n (map (fun i => Z.to_nat (i mod Z.of_nat n))
                         (as_list idx))))).
Proof.
  intros Hd Hsh Hpos Hidx.
  destruct (norm_indices_in_range n _ Hidx) as [Hnorm _].
  unfold remove_by_index, subset_by_index. rewrite Hd.
  destruct (asize a =? 1); [reflexivity|].
  rewrite Hpos. unfold np_delete, take_rows. rewrite Hsh.
  cbn [nth_error as_list]. rewrite Hnorm.
  rewrite (norm_indices_of_nat n _ (kept_in_range n _)).
  reflexivity.
Qed.

(** ** Reshaping *)

Lemma broadcast_to_shape (a b : ndarray V) (sizes : list nat) :
  broadcast_to a sizes = Ok b -> shape b = sizes /\ writeable b = false.
Proof.
  unfold broadcast_to. destruct (length sizes <? ndim a); [discriminate|].
  destruct (broadcastable _ _); [|discriminate].
  intros [= <-]. now split.
Qed.

Lemma remove_only_dimension (k : string) (v : Dimensions.Dimension) :
  Dimensions.remove [(k, v)] k = Ok [].
Proof.
  unfold Dimensions.remove, Dimensions.contains. cbn.
  now rewrite String.eqb_refl.
Qed.

(** What [replace_dimensions] leaves when the old dimension was the only
    one and the new names are distinct. *)
Lemma replace_only_dimension (p : Param V) (k : string)
  (v : Dimensions.Dimension) (nd : Dimensions.ParamDimensions)
  (tmp : ndarray V) :
  dimensions p = [(k, v)] ->
  Dimensions.wf nd ->
  replace_dimensions p k nd tmp
  = Returned
      (with_data
         (with_dimensions p
            (map (fun kv => (fst kv,
                             Dimensions.mkDimension (fst kv)
                               (Dimensions.size (snd kv)))) nd))
         (Some tmp)) [].
Proof.
  intros Hdims Hwf. unfold replace_dimensions.
  rewrite Hdims, remove_only_dimension.
  now rewrite add_all_fresh by exact Hwf.
Qed.

(** A [reshape] that returns either changed nothing or stored a read-only
    array of the new shape under the new dimensions. *)
Lemma reshape_outcome (p p' : Param V) (nd : Dimensions.ParamDimensions)
  (out : list message) :
  Dimensions.wf nd ->
  reshape py_none p nd = Returned p' out ->
  p' = p
  \/ exists a',
       p' = with_data
              (with_dimensions p
                 (map (fun kv => (fst kv,
                                  Dimensions.mkDimension (fst kv)
                                    (Dimensions.size (snd kv)))) nd))
              (Some a')
       /\ shape a' = Dimensions.sizes nd /\ writeable a' = false.
Proof.
  intros Hwf. unfold reshape.
  destruct (dimensions p) as [|[k v] [|kv d]] eqn:Hdims;
    try (cbn; intros [= <- _]; now left).
  change (Dimensions.ndims [(k, v)] =? 1) with true. cbv iota.
  destruct (Dimensions.contains [(k, v)] "one") eqn:Hone.
  - assert (Hk : k = "one"%string).
    { unfold Dimensions.contains in Hone. cbn in Hone.
      rewrite orb_false_r in Hone. symmetry. now apply String.eqb_eq. }
    subst k.
    destruct (broadcast_to (data_or_none py_none p) (Dimensions.sizes nd))
      as [b|e] eqn:Eb; [|discriminate].
    rewrite (replace_only_dimension p "one" v nd b Hdims Hwf).
    intros [= <- _]. right. exists b.
    split; [reflexivity | now apply (broadcast_to_shape _ _ _ Eb)].
  - destruct (forallb (Dimensions.contains nd)
                      (Dimensions.keys [(k, v)]));
      [|intros [= <- _]; now left].
    destruct (length nd =? 1); [intros [= <- _]; now left|].
    cbn [Dimensions.keys map fst].
    destruct (broadcast_to (data_or_none py_none p) (Dimensions.sizes nd))
      as [b|e] eqn:Eb.
    + rewrite (replace_only_dimension p k v nd b Hdims Hwf).
      intros [= <- _]. right. exists b.
      split; [reflexivity | now apply (broadcast_to_shape _ _ _ Eb)].
    + destruct e; try discriminate.
      destruct (broadcast_to (data_or_none py_none p)
                             (rev (Dimensions.sizes nd)))
        as [b|e] eqn:Er; [|discriminate].
      rewrite (replace_only_dimension p k v nd (transpose b) Hdims Hwf).
      intros [= <- _]. right. exists (transpose b).
      split; [reflexivity|].
      destruct (broadcast_to_shape _ _ _ Er) as [Hs Hw].
      unfold transpose. cbn. rewrite Hs, rev_involutive. now split.
Qed.

Lemma keys_of_new (nd : Dimensions.ParamDimensions) :
  Dimensions.keys
    (map (fun kv => (fst kv,
                     Dimensions.mkDimension (fst kv)
                       (Dimensions.size (snd kv)))) nd)
  = Dimensions.keys nd.
Proof. unfold Dimensions.keys. rewrite map_map. reflexivity. Qed.

Lemma sizes_of_new (nd : Dimensions.ParamDimensions) :
  Dimensions.sizes
    (map (fun kv => (fst kv,
                     Dimensions.mkDimension (fst kv)
                       (Dimensions.size (snd kv)))) nd)
  = Dimensions.sizes nd.
Proof.
  unfold Dimensions.sizes, Dimensions.values. rewrite !map_map.
  reflexivity.
Qed.

(** A [reshape] that returns and changes the parameter leaves it with
    exactly the names and sizes of [new_dims], data of that shape (so
    [has_correct_size()] is true), and the modified flag as it was. *)
Theorem reshape_establishes_shape (p p' : Param V)
  (nd : Dimensions.ParamDimensions) (out : list message) :
  Dimensions.wf nd ->
  reshape py_none p nd = Returned p' out ->
  p' <> p ->
  Dimensions.keys (dimensions p') = Dimensions.keys nd
  /\ Dimensions.sizes (dimensions p') = Dimensions.sizes nd
  /\ modified p' = modified p
  /\ has_correct_size p' = Ok true
  /\ exists a', data p' = Some a' /\ shape a' = Dimensions.sizes nd.
Proof.
  intros Hwf Hret Hne.
  destruct (reshape_outcome p p' nd out Hwf Hret)
    as [E | (a' & -> & Hs & _)]; [contradiction|].
  cbn [dimensions data modified with_data with_dimensions].
  rewrite keys_of_new, sizes_of_new.
  repeat (split; [reflexivity|]).
  split; [|eauto].
  apply (has_correct_size_of_shape _ a');
    cbn [dimensions data with_data with_dimensions].
  - unfold Dimensions.wf. now rewrite keys_of_new.
  - reflexivity.
  - now rewrite sizes_of_new.
Qed.

(** The array a [reshape] stores is a read-only view: afterwards
    [update_element] with a value that is not [array_equal] to the whole
    array raises [ValueError] and changes nothing. *)
Theorem update_element_after_reshape (p p' : Param V)
  (nd : Dimensions.ParamDimensions) (out : list message)
  (a' : ndarray V) (index : Z) (value : ndarray V) :
  Dimensions.wf nd ->
  reshape py_none p nd = Returned p' out ->
  p' <> p ->
  data p' = Some a' ->
  array_equal veq a' value = false ->
  update_element veq cast_item array_as_scalar py_none p' index value
  = Raised ValueError p' [].
Proof.
  intros Hwf Hret Hne Hd Heq.
  destruct (reshape_outcome p p' nd out Hwf Hret)
    as [E | (b & -> & _ & Hw)]; [contradiction|].
  cbn in Hd. injection Hd as ->.
  unfold update_element. cbn [data with_data]. rewrite Heq.
  unfold set_item. now rewrite Hw.
Qed.

Lemma flat_map_id_concat (cs : list (list V)) :
  flat_map (broadcast_flat [] []) cs = concat cs.
Proof.
  induction cs as [|c cs IH]; [reflexivity|].
  cbn [flat_map concat]. rewrite IH. reflexivity.
Qed.

Lemma broadcast_flat_same_axis (n : nat) (f : list V) :
  length f = n -> broadcast_flat [n] [n] f = f.
Proof.
  intros Hf. cbn [broadcast_flat]. rewrite Nat.eqb_refl.
  rewrite flat_map_id_concat. apply concat_chunks. cbn. lia.
Qed.

(** A row broadcast over [c] rows is the row [c] times. *)
Lemma broadcast_flat_rows (n c : nat) (f : list V) :
  length f = n -> broadcast_flat [1; n] [c; n] f = concat (repeat f c).
Proof.
  intros Hf. cbn [broadcast_flat].
  destruct (1 =? c) eqn:E.
  - apply Nat.eqb_eq in E. subst c.
    change (product [n]) with (n * 1). rewrite Nat.mul_1_r.
    cbn [chunks flat_map repeat concat]. rewrite !app_nil_r.
    rewrite firstn_all2 by lia.
    rewrite Nat.eqb_refl, flat_map_id_concat.
    apply concat_chunks. cbn. lia.
  - rewrite Nat.eqb_refl, flat_map_id_concat.
    rewrite concat_chunks by (cbn; lia). reflexivity.
Qed.

Lemma chunks_concat_repeat (n c : nat) (f : list V) :
  length f = n -> chunks n c (concat (repeat f c)) = repeat f c.
Proof.
  intros Hf. induction c as [|c IH]; cbn; [reflexivity|].
  now rewrite firstn_exact, skipn_exact, IH.
Qed.

Lemma length_concat_repeat (c : nat) (f : list V) :
  length (concat (repeat f c)) = c * length f.
Proof.
  induction c as [|c IH]; cbn; [reflexivity|].
  now rewrite length_app, IH.
Qed.

Lemma heads_repeat (x : V) (f : list V) (c : nat) :
  heads (repeat (x :: f) c) = repeat x c.
Proof.
  induction c as [|c IH]; [reflexivity|].
  cbn [repeat]. change (heads ((x :: f) :: repeat (x :: f) c))
    with (x :: heads (repeat (x :: f) c)). now rewrite IH.
Qed.

Lemma tails_repeat (x : V) (f : list V) (c : nat) :
  tails (repeat (x :: f) c) = repeat f c.
Proof.
  induction c as [|c IH]; [reflexivity|].
  cbn [repeat]. change (tails ((x :: f) :: repeat (x :: f) c))
    with (f :: tails (repeat (x :: f) c)). now rewrite IH.
Qed.

(** The columns of [c] copies of a row: every value [c] times. *)
Lemma interleave_repeat (f : list V) (c : nat) :
  interleave (length f) (repeat f c) = flat_map (fun x => repeat x c) f.
Proof.
  induction f as [|x f IH]; [reflexivity|].
  cbn [length interleave flat_map].
  now rewrite heads_repeat, tails_repeat, IH.
Qed.

(** Reshaping a rank-1 parameter over dimension [k] against
    [{k: n, m: c}]: when [c] differs from the number [n] of values (and
    [n] is not 1), the direct broadcast fails, the reversed one is
    transposed, and row [i] of the result holds value [i], [c] times; when
    [c] equals [n] the direct broadcast succeeds and every row is the
    whole data, so the values run along the second axis. *)
Theorem reshape_1d_to_2d_contents (p : Param V) (a : ndarray V)
  (n c : nat) (k m : string) (d0 dk dm : Dimensions.Dimension) :
  dimensions p = [(k, d0)] ->
  k <> "one"%string ->
  k <> m ->
  data p = Some a ->
  shape a = [n] ->
  wf_array a ->
  Dimensions.size dk = n ->
  Dimensions.size dm = c ->
  (n <> c -> n <> 1 ->
   reshape py_none p [(k, dk); (m, dm)]
   = Returned
       (with_data
          (with_dimensions p
             [(k, Dimensions.mkDimension k n);
              (m, Dimensions.mkDimension m c)])
          (Some (mkArray [n; c]
                   (flat_map (fun x => repeat x c) (flat a)) false))) [])
  /\ (n = c ->
      reshape py_none p [(k, dk); (m, dm)]
      = Returned
          (with_data
             (with_dimensions p
                [(k, Dimensions.mkDimension k n);
                 (m, Dimensions.mkDimension m c)])
             (Some (mkArray [n; c] (concat (repeat (flat a) n)) false)))
          []).
Proof.
  intros Hdims Hk Hkm Hd Hsh Hwf Hdk Hdm.
  assert (Hlen : length (flat a) = n).
  { unfold wf_array, asize in Hwf. rewrite Hsh in Hwf. cbn in Hwf. lia. }
  assert (Hnd : Dimensions.wf [(k, dk); (m, dm)])
    by (apply nodup_two; exact Hkm).
  assert (Hstart :
    reshape py_none p [(k, dk); (m, dm)]
    = match
        match broadcast_to a [n; c] with
        | Ok b => Ok b
        | Raise ValueError =>
            match broadcast_to a [c; n] with
            | Ok b => Ok (transpose b)
            | Raise e => Raise e
            end
        | Raise e => Raise e
        end
      with
      | Ok tmp => replace_dimensions p k [(k, dk); (m, dm)] tmp
      | Raise e => Raised e p []
      end).
  { unfold reshape, data_or_none. rewrite Hdims, Hd.
    change (Dimensions.ndims [(k, d0)] =? 1) with true. cbv iota.
    unfold Dimensions.contains. cbn [Dimensions.keys map fst existsb].
    replace (String.eqb "one" k) with false
      by (symmetry; apply String.eqb_neq; congruence).
    cbn [orb forallb]. rewrite String.eqb_refl. cbn [orb andb length].
    change (2 =? 1) with false. cbv iota.
    unfold Dimensions.sizes, Dimensions.values. cbn [map snd rev app].
    rewrite Hdk, Hdm.
    reflexivity. }
  rewrite Hstart.
  assert (Hrep : forall tmp,
    replace_dimensions p k [(k, dk); (m, dm)] tmp
    = Returned
        (with_data
           (with_dimensions p
              [(k, Dimensions.mkDimension k n);
               (m, Dimensions.mkDimension m c)]) (Some tmp)) []).
  { intros tmp. rewrite (replace_only_dimension p k d0 _ tmp Hdims Hnd).
    cbn [map fst snd]. now rewrite Hdk, Hdm. }
  unfold broadcast_to, ndim. rewrite Hsh.
  cbn [length Nat.ltb Nat.leb Nat.sub repeat app broadcastable].
  rewrite Nat.eqb_refl. cbn [orb andb].
  split.
  - intros Hnc Hn1.
    replace (n =? c) with false by (symmetry; now apply Nat.eqb_neq).
    replace (n =? 1) with false by (symmetry; now apply Nat.eqb_neq).
    rewrite andb_false_r, orb_true_r. cbn [andb].
    rewrite Nat.eqb_refl. cbn [orb andb].
    rewrite Hrep. unfold transpose. cbn [shape flat writeable rev app].
    rewrite (broadcast_flat_rows n c _ Hlen).
    rewrite ravel_F_2d by (rewrite length_concat_repeat; lia).
    rewrite (chunks_concat_repeat n c _ Hlen).
    rewrite <- (interleave_repeat (flat a) c), Hlen. reflexivity.
  - intros <-. rewrite Nat.eqb_refl. cbn [orb andb].
    rewrite orb_true_r. cbn [andb]. rewrite Hrep.
    now rewrite (broadcast_flat_rows n n _ Hlen).
Qed.

(** ** Equal values *)

Lemma chunks_of_one (n : nat) (f : list V) :
  length f = n -> chunks 1 n f = map (fun y => [y]) f.
Proof.
  revert f. induction n as [|n IH]; intros [|y f] H; try discriminate;
    [reflexivity|].
  cbn. f_equal. apply IH. now injection H.
Qed.

Lemma forallb_singletons (x : V) (f : list V) :
  forallb (fun c => all_eq veq c [x]) (map (fun y => [y]) f)
  = forallb (fun y => veq y x) f.
Proof.
  induction f as [|y f IH]; cbn; [reflexivity|].
  now rewrite IH, andb_true_r.
Qed.

(** [all_equal()] is false on an array of at most one element; on a rank-1
    array of more than one element it tells whether every element is [==]
    to the first. *)
Theorem all_equal_spec (p : Param V) (a : ndarray V) :
  data p = Some a ->
  (asize a <= 1 -> all_equal veq p = Ok false)
  /\ (forall n x,
         shape a = [n] -> wf_array a -> 1 < n ->
         nth_error (flat a) 0 = Some x ->
         all_equal veq p = Ok (forallb (fun y => veq y x) (flat a))).
Proof.
  intros Hd. unfold all_equal. rewrite Hd. split.
  - intros Hs. now replace (1 <? asize a) with false
      by (symmetry; apply Nat.ltb_ge; exact Hs).
  - intros n x Hsh Hwf Hn Hx. unfold wf_array, asize in *.
    rewrite Hsh in *. cbn [product fold_right] in *.
    rewrite Nat.mul_1_r in *.
    replace (1 <? n) with true by (symmetry; now apply Nat.ltb_lt).
    rewrite (chunks_of_one n _ Hwf). unfold chunk. cbn [Nat.mul skipn].
    destruct (flat a) as [|x0 f]; [discriminate|].
    injection Hx as ->. cbn [firstn]. now rewrite forallb_singletons.
Qed.

Lemma all_eq_repeat (v : V) (m : nat) :
  veq v v = true -> all_eq veq (repeat v m) (repeat v m) = true.
Proof.
  intros Hv. induction m as [|m IH]; cbn; [reflexivity|].
  now rewrite Hv, IH.
Qed.

Lemma chunks_repeat (v : V) (m s : nat) :
  chunks m s (repeat v (s * m)) = repeat (repeat v m) s.
Proof.
  induction s as [|s IH]; [reflexivity|].
  cbn [chunks Nat.mul repeat]. rewrite repeat_app.
  rewrite firstn_exact, skipn_exact by apply repeat_length.
  now rewrite IH.
Qed.

(** A scalar that is [==] to itself, reshaped against dimensions of more
    than one element in all, gives a parameter on which [all_equal()] is
    true. *)
Theorem all_equal_after_scalar_reshape (p : Param V) (a : ndarray V)
  (v : V) (d : Dimensions.Dimension) (nd : Dimensions.ParamDimensions) :
  dimensions p = [("one"%string, d)] ->
  data p = Some a ->
  flat a = [v] ->
  Forall (eq 1) (shape a) ->
  length (shape a) <= length nd ->
  Dimensions.wf nd ->
  veq v v = true ->
  1 < product (Dimensions.sizes nd) ->
  exists p',
    reshape py_none p nd = Returned p' []
    /\ all_equal veq p' = Ok true.
Proof.
  intros Hdims Hd Hflat Hones Hrank Hwf Hv Hsize.
  assert (Hlen : length (Dimensions.sizes nd) = length nd)
    by (unfold Dimensions.sizes, Dimensions.values; now rewrite !length_map).
  destruct (broadcast_ones v
              (repeat 1 (length (Dimensions.sizes nd) - ndim a) ++ shape a)
              (Dimensions.sizes nd)) as [Hb Hf].
  { apply Forall_app. split; [|exact Hones].
    apply Forall_forall. intros x Hx. now apply repeat_spec in Hx. }
  { rewrite length_app, repeat_length. unfold ndim. lia. }
  unfold reshape. rewrite Hdims.
  change (Dimensions.ndims [("one"%string, d)] =? 1) with true.
  change (Dimensions.contains [("one"%string, d)] "one") with true.
  cbv iota. unfold data_or_none, broadcast_to. rewrite Hd.
  replace (length (Dimensions.sizes nd) <? ndim a) with false
    by (symmetry; apply Nat.ltb_ge; unfold ndim; lia).
  rewrite Hb, Hflat, Hf.
  rewrite (replace_only_dimension p "one" d nd _ Hdims Hwf).
  eexists. split; [reflexivity|].
  unfold all_equal, asize. cbn [data with_data shape flat].
  replace (1 <? product (Dimensions.sizes nd)) with true
    by (symmetry; now apply Nat.ltb_lt).
  destruct (Dimensions.sizes nd) as [|s ss]; [cbn in Hsize; lia|].
  change (product (s :: ss)) with (s * product ss) in *.
  rewrite chunks_repeat. unfold chunk. cbn [Nat.mul skipn].
  destruct s as [|s]; [lia|]. cbn [Nat.mul]. rewrite repeat_app.
  rewrite firstn_exact by apply repeat_length.
  f_equal. apply forallb_forall. intros c Hc.
  apply repeat_spec in Hc. subst c. now apply all_eq_repeat.
Qed.

(** ** Bounds that are names *)

(** On a parameter of an integer datatype, a minimum that is a string
    [int()] rejects (the name of a dimension, for a bounded parameter) is
    stored as it is, and [check_values()] is true from then on whatever
    the data and the maximum; the same string as default raises
    [ValueError] and is not stored. *)
Theorem bounded_minimum_disables_check (p : Param V) (dt : Z) (s : string) :
  datatype p = Some dt ->
  lookup dt DATA_TYPES = Some "integer"%string ->
  py_int (PStr s) = None ->
  set_minimum DATA_TYPES py_float py_int p (Some (PStr s))
  = Returned (with_minimum p (Some (PStr s))) []
  /\ check_values vle (with_minimum p (Some (PStr s))) = Ok true
  /\ set_default DATA_TYPES py_float py_int p (Some (PStr s))
     = Raised ValueError p [].
Proof.
  intros Hdt Hlk Hint. unfold set_minimum, set_default, check_values.
  rewrite Hdt, Hlk, Hint. cbn. repeat split.
Qed.

(** ** The index map *)

Section IndexMap.

(** [==] on the values decides equality (integers, strings). *)
Hypothesis veq_eq : forall x y, veq x y = true <-> x = y.

Lemma veq_refl (x : V) : veq x x = true.
Proof. now apply veq_eq. Qed.

Lemma veq_neq (x y : V) : x <> y -> veq x y = false.
Proof.
  intros H. destruct (veq x y) eqn:E; [|reflexivity].
  apply veq_eq in E. contradiction.
Qed.

Lemma odict_get_set (d : list (V * nat)) (k k' : V) (i : nat) :
  odict_get veq (odict_set veq d k i) k'
  = if veq k k' then Some i else odict_get veq d k'.
Proof.
  induction d as [|[k0 j] d IH]; cbn; [reflexivity|].
  destruct (veq k0 k) eqn:E0; cbn.
  - apply veq_eq in E0. subst k0. now destruct (veq k k').
  - destruct (veq k0 k') eqn:E1.
    + apply veq_eq in E1. subst k'.
      destruct (veq k k0) eqn:E2; [|reflexivity].
      apply veq_eq in E2. subst k0. now rewrite veq_refl in E0.
    + exact IH.
Qed.

Lemma enumerate_snoc (l : list V) (x : V) :
  enumerate (l ++ [x]) = enumerate l ++ [(length l, x)].
Proof.
  unfold enumerate. rewrite length_app, Nat.add_comm. cbn [length Nat.add].
  rewrite seq_S.
  assert (H : forall s,
    combine (seq s (length l) ++ [s + length l]) (l ++ [x])
    = combine (seq s (length l)) l ++ [(s + length l, x)]).
  { induction l as [|y l IH]; intros s; cbn.
    - now rewrite Nat.add_0_r.
    - f_equal. rewrite <- Nat.add_succ_comm. apply IH. }
  exact (H 0).
Qed.

(** The dictionary built from a list maps a value to the last position
    that holds it. *)
Lemma index_map_of_list (l : list V) (v : V) (i : nat) :
  odict_get veq
    (fold_left (fun d iv => odict_set veq d (snd iv) (fst iv))
               (enumerate l) []) v = Some i
  <-> nth_error l i = Some v
      /\ forall j, i < j -> nth_error l j <> Some v.
Proof.
  revert i. induction l as [|x l IH] using rev_ind; intros i.
  - cbn. split; [discriminate|]. intros [H _]. now destruct i.
  - rewrite enumerate_snoc, fold_left_app. cbn [fold_left fst snd].
    rewrite odict_get_set. destruct (veq x v) eqn:E.
    + apply veq_eq in E. subst x. split.
      * intros [= <-]. split.
        -- rewrite nth_error_app2 by lia. now rewrite Nat.sub_diag.
        -- intros j Hj Hnth.
           assert (j < length (l ++ [v]))
             by (apply nth_error_Some; congruence).
           rewrite length_app in *. cbn in *. lia.
      * intros [Hnth Hlast].
        assert (Hi : i < length (l ++ [v]))
          by (apply nth_error_Some; congruence).
        rewrite length_app in Hi. cbn in Hi.
        destruct (Nat.eq_dec i (length l)) as [->|Hne]; [reflexivity|].
        exfalso. apply (Hlast (length l)); [lia|].
        rewrite nth_error_app2 by lia. now rewrite Nat.sub_diag.
    + assert (Hxv : x <> v) by (intros ->; now rewrite veq_refl in E).
      rewrite IH. split.
      * intros [Hnth Hlast].
        assert (Hi : i < length l) by (apply nth_error_Some; congruence).
        split; [now rewrite nth_error_app1|].
        intros j Hj. destruct (Nat.lt_ge_cases j (length l)) as [Hl|Hl].
        -- rewrite nth_error_app1 by exact Hl. now apply Hlast.
        -- rewrite nth_error_app2 by exact Hl.
           destruct (j - length l) as [|[|r]]; cbn; congruence.
      * intros [Hnth Hlast].
        assert (Hi : i < length l).
        { destruct (Nat.lt_ge_cases i (length l)) as [Hl|Hl]; [exact Hl|].
          rewrite nth_error_app2 in Hnth by exact Hl.
          destruct (i - length l) as [|[|r]]; cbn in Hnth; congruence. }
        rewrite nth_error_app1 in Hnth by exact Hi.
        split; [exact Hnth|]. intros j Hj Hl.
        apply (Hlast j Hj).
        rewrite nth_error_app1; [exact Hl|].
        apply nth_error_Some. congruence.
Qed.

(** On a rank-1 array [index_map] returns a dictionary in which a value
    is a key exactly when the array holds it, and is mapped to the last
    position that holds it; so looking a value up and reading the array
    at the position found gives the value back. *)
Theorem index_map_last_position (p : Param V) (a : ndarray V) (n : nat) :
  data p = Some a ->
  shape a = [n] ->
  exists d,
    index_map veq p = Ok d
    /\ (forall v i,
           odict_get veq d v = Some i
           <-> nth_error (flat a) i = Some v
               /\ forall j, i < j -> nth_error (flat a) j <> Some v)
    /\ (forall v, odict_get veq d v = None <-> ~ In v (flat a)).
Proof.
  intros Hd Hsh. unfold index_map. rewrite Hd, Hsh.
  eexists. split; [reflexivity|]. split; [apply index_map_of_list|].
  intros v. split.
  - intros Hnone Hin. apply In_nth_error in Hin as [i0 Hi0].
    (* the last position holding v *)
    assert (Hlast : exists i, nth_error (flat a) i = Some v
                      /\ forall j, i < j -> nth_error (flat a) j <> Some v).
    { clear Hnone. revert i0 Hi0.
      induction (flat a) as [|x l IH] using rev_ind; intros i0 Hi0.
      - now destruct i0.
      - destruct (veq x v) eqn:E.
        + apply veq_eq in E. subst x. exists (length l). split.
          * rewrite nth_error_app2 by lia. now rewrite Nat.sub_diag.
          * intros j Hj Hnth.
            assert (j < length (l ++ [v]))
              by (apply nth_error_Some; congruence).
            rewrite length_app in *. cbn in *. lia.
        + assert (Hxv : x <> v) by (intros ->; now rewrite veq_refl in E).
          assert (Hi : i0 < length l).
          { destruct (Nat.lt_ge_cases i0 (length l)) as [Hl|Hl];
              [exact Hl|].
            rewrite nth_error_app2 in Hi0 by exact Hl.
            destruct (i0 - length l) as [|[|r]]; cbn in Hi0; congruence. }
          rewrite nth_error_app1 in Hi0 by exact Hi.
          destruct (IH i0 Hi0) as (i & Hnth & Hl).
          assert (Hil : i < length l) by (apply nth_error_Some; congruence).
          exists i. split; [now rewrite nth_error_app1|].
          intros j Hj. destruct (Nat.lt_ge_cases j (length l)) as [Hjl|Hjl].
          * rewrite nth_error_app1 by exact Hjl. now apply Hl.
          * rewrite nth_error_app2 by exact Hjl.
            destruct (j - length l) as [|[|r]]; cbn; congruence. }
    destruct Hlast as (i & Hlast).
    apply index_map_of_list in Hlast. congruence.
  - intros Hnot.
    destruct (odict_get veq _ v) as [i|] eqn:E; [|reflexivity].
    apply index_map_of_list in E as [Hnth _].
    exfalso. apply Hnot. eapply nth_error_In. exact Hnth.
Qed.

End IndexMap.

(** ** Flattening *)

Lemma heads_tails_permutation (rows : list (list V)) (m : nat) :
  Forall (fun r => length r = S m) rows ->
  Permutation (heads rows ++ concat (tails rows)) (concat rows).
Proof.
  induction 1 as [|r rows Hr _ IH]; [constructor|].
  destruct r as [|x r]; [discriminate|].
  change (heads ((x :: r) :: rows)) with (x :: heads rows).
  change (tails ((x :: r) :: rows)) with (r :: tails rows).
  cbn [concat app]. constructor.
  rewrite Permutation_app_swap_app. apply Permutation_app_head. exact IH.
Qed.

Lemma interleave_permutation (m : nat) (rows : list (list V)) :
  Forall (fun r => length r = m) rows ->
  Permutation (interleave m rows) (concat rows).
Proof.
  revert rows. induction m as [|m IH]; intros rows H.
  - cbn. replace (concat rows) with (@nil V); [constructor|].
    induction H as [|r rows Hr _ IHr]; [reflexivity|].
    cbn. rewrite <- IHr. now destruct r.
  - cbn [interleave].
    rewrite (IH (tails rows) (tails_all_length rows m H)).
    now apply (heads_tails_permutation rows m).
Qed.

Lemma concat_map_permutation (g : list V -> list V) (cs : list (list V)) :
  Forall (fun c => Permutation (g c) c) cs ->
  Permutation (concat (map g cs)) (concat cs).
Proof.
  induction 1 as [|c cs Hc _ IH]; [constructor|].
  cbn. now apply Permutation_app.
Qed.

(** Fortran-order flattening rearranges the elements, for any rank. *)
Lemma ravel_F_permutation (sh : list nat) (f : list V) :
  length f = product sh -> Permutation (ravel_F sh f) f.
Proof.
  revert f. induction sh as [|s sh IH]; intros f Hf; [reflexivity|].
  cbn [ravel_F]. change (product (s :: sh)) with (s * product sh) in Hf.
  pose proof (chunks_all_length (product sh) s f Hf) as Hall.
  assert (Hperm : Forall (fun c => Permutation (ravel_F sh c) c)
                         (chunks (product sh) s f)).
  { eapply Forall_impl; [|exact Hall]. intros c Hc. now apply IH. }
  rewrite interleave_permutation.
  - rewrite (concat_map_permutation _ _ Hperm).
    now rewrite concat_chunks.
  - apply Forall_map. eapply Forall_impl; [|exact Hall].
    intros c Hc. cbn beta.
    rewrite (Permutation_length (IH c Hc)). exact Hc.
Qed.

(** [tolist()] returns the elements of the array, each as often as the
    array holds it, whatever the rank: as many values as [data.size], and
    a rearrangement of the elements. *)
Theorem tolist_rearranges (p : Param V) (a : ndarray V) :
  data p = Some a ->
  wf_array a ->
  exists l, tolist p = Ok l
            /\ length l = asize a
            /\ Permutation l (flat a).
Proof.
  intros Hd Hwf. unfold tolist. rewrite Hd.
  eexists. split; [reflexivity|].
  pose proof (ravel_F_permutation (shape a) (flat a) Hwf) as Hp.
  split; [|exact Hp].
  rewrite (Permutation_length Hp). exact Hwf.
Qed.

(** ** Writing one element *)

Lemma nth_error_write (f : list V) (k j : nat) (x : V) :
  k < length f ->
  nth_error (firstn k f ++ [x] ++ skipn (S k) f) j
  = if j =? k then Some x else nth_error f j.
Proof.
  revert k j. induction f as [|y f IH]; intros k j Hk; [cbn in Hk; lia|].
  destruct k as [|k].
  - destruct j; reflexivity.
  - destruct j as [|j]; [reflexivity|].
    cbn [firstn skipn app nth_error]. cbn in Hk.
    change (S j =? S k) with (j =? k). apply IH. lia.
Qed.

(** On a writeable rank-1 array, [update_element] with an index within
    the axis and a scalar converts the scalar to the dtype of the array.
    When the conversion succeeds the call returns, sets the modified flag,
    and leaves an array of the same shape that holds the converted value at
    that position (a negative index counts from the end) and the old
    elements everywhere else.  When the conversion raises, the call raises
    the same exception and the parameter is as it was. *)
Theorem update_element_writes (p : Param V) (a : ndarray V) (n : nat)
  (index : Z) (x : V) :
  data p = Some a ->
  shape a = [n] ->
  wf_array a ->
  writeable a = true ->
  (- Z.of_nat n <= index < Z.of_nat n)%Z ->
  (forall y : V,
      cast_item a x = Ok y ->
      exists p' a',
        update_element veq cast_item array_as_scalar py_none p index
          (scalar x) = Returned p' []
        /\ modified p' = true
        /\ dimensions p' = dimensions p
        /\ data p' = Some a'
        /\ shape a' = [n]
        /\ forall j,
             nth_error (flat a') j
             = if j =? Z.to_nat (index mod Z.of_nat n) then Some y
               else nth_error (flat a) j)
  /\ (forall e : exception,
         cast_item a x = Raise e ->
         update_element veq cast_item array_as_scalar py_none p index
           (scalar x) = Raised e p []).
Proof.
  intros Hd Hsh Hwf Hw Hidx.
  destruct (norm_index_in_range n index Hidx) as [Hnorm Hlt].
  unfold wf_array, asize in Hwf. rewrite Hsh in Hwf. cbn in Hwf.
  rewrite Nat.mul_1_r in Hwf.
  unfold update_element. rewrite Hd.
  replace (array_equal veq a (scalar x)) with false
    by (unfold array_equal; now rewrite Hsh).
  unfold set_item. rewrite Hw, Hsh, Hnorm. cbn [negb].
  change (refused_as_scalar array_as_scalar [] (scalar x))
    with (@None exception).
  cbn [scalar shape flat writeable length strip_ones].
  unfold broadcast_to, ndim.
  cbn [shape flat length Nat.ltb Nat.leb Nat.sub repeat app broadcastable
       broadcast_flat product fold_right cast_all].
  rewrite !Nat.mul_1_r.
  split.
  - intros y Hcast. rewrite Hcast.
    eexists _, _. split; [reflexivity|].
    cbn [modified dimensions data with_modified with_data shape flat].
    repeat (split; [reflexivity|]).
    intros j. replace (S (Z.to_nat (index mod Z.of_nat n)) * 1)
      with (S (Z.to_nat (index mod Z.of_nat n))) by lia.
    apply nth_error_write. now rewrite Hwf.
  - intros e Hcast. now rewrite Hcast.
Qed.

End MoreProperties.

(** ** Date parsing *)

Section DparseProperties.

Context {A : Type}.
Variable to_int : A -> option Z.

Local Open Scope Z_scope.

(** Called without arguments [dparse] raises; called with a year alone it
    returns the last day of that year, at midnight, when the year is
    within 1 .. 9999, and raises otherwise. *)
Theorem dparse_year (x : A) (y : Z) :
  to_int x = Some y ->
  Helpers.dparse to_int [] = None
  /\ Helpers.dparse to_int [x]
     = if (1 <=? y) && (y <=? 9999)
       then Some (Helpers.mkDatetime y 12 31 0 0 0 0)
       else None.
Proof.
  intros Hx. split; [reflexivity|].
  unfold Helpers.dparse. cbn [Helpers.ints_of]. rewrite Hx.
  cbn. unfold Helpers.in_range.
  destruct ((1 <=? y) && (y <=? 9999)); reflexivity.
Qed.

(** Called with a year within 1 .. 9999 and a month within 1 .. 12,
    [dparse] returns the last day of that month, at midnight: the day it
    picks is the greatest one that [dparse] accepts as a third
    argument. *)
Theorem dparse_month_end (x1 x2 : A) (y m : Z) :
  to_int x1 = Some y ->
  to_int x2 = Some m ->
  1 <= y <= 9999 ->
  1 <= m <= 12 ->
  exists d,
    Helpers.dparse to_int [x1; x2]
    = Some (Helpers.mkDatetime y m d 0 0 0 0)
    /\ 28 <= d <= 31
    /\ forall x3 d',
         to_int x3 = Some d' ->
         (Helpers.dparse to_int [x1; x2; x3] <> None <-> 1 <= d' <= d).
Proof.
  intros H1 H2 Hy Hm.
  assert (Hmr : Helpers.monthrange_days y m
                = Some (Helpers.mdays m
                        + (if (m =? 2) && Helpers.isleap y then 1 else 0))).
  { unfold Helpers.monthrange_days.
    replace ((1 <=? m) && (m <=? 12)) with true; [reflexivity|].
    symmetry. apply andb_true_intro. split; apply Z.leb_le; lia. }
  set (d := Helpers.mdays m
            + (if (m =? 2) && Helpers.isleap y then 1 else 0)) in *.
  assert (Hd : 28 <= d <= 31).
  { unfold d, Helpers.mdays.
    destruct (m =? 2) eqn:E2; cbn [andb].
    - destruct (Helpers.isleap y); lia.
    - destruct ((m =? 4) || (m =? 6) || (m =? 9) || (m =? 11)); lia. }
  assert (Hyr : Helpers.in_range 1 y 9999 = true).
  { unfold Helpers.in_range. apply andb_true_intro.
    split; apply Z.leb_le; lia. }
  exists d. split; [|split; [exact Hd|]].
  - unfold Helpers.dparse. cbn [Helpers.ints_of]. rewrite H1, H2, Hmr.
    unfold Helpers.make_datetime. rewrite Hmr, Hyr.
    replace (Helpers.in_range 1 d d) with true; [reflexivity|].
    symmetry. unfold Helpers.in_range. apply andb_true_intro.
    split; apply Z.leb_le; lia.
  - intros x3 d' H3. unfold Helpers.dparse. cbn [Helpers.ints_of].
    rewrite H1, H2, H3. unfold Helpers.make_datetime. rewrite Hmr, Hyr.
    cbn [length Nat.leb andb nth].
    change (Helpers.in_range 0 0 23) with true.
    change (Helpers.in_range 0 0 59) with true.
    change (Helpers.in_range 0 0 999999) with true.
    rewrite !andb_true_r. unfold Helpers.in_range.
    destruct ((1 <=? d') && (d' <=? d)) eqn:E.
    + apply andb_prop in E as [Ea Eb].
      apply Z.leb_le in Ea. apply Z.leb_le in Eb.
      split; [intros _; lia | discriminate].
    + split; [congruence|]. intros [Ha Hb]. exfalso.
      apply andb_false_iff in E as [E|E]; apply Z.leb_gt in E; lia.
Qed.

End DparseProperties.

(** * The further properties on the integer instance *)

Lemma value_eq_eq (x y : IntValues.value) :
  IntValues.value_eq x y = true <-> x = y.
Proof.
  destruct x as [a|], y as [b|]; cbn; split; try discriminate;
    try reflexivity.
  - intros H. apply Z.eqb_eq in H. now subst.
  - intros [= ->]. apply Z.eqb_refl.
Qed.

Lemma no_dimensions_no_data_witness :
  ndims (IntValues.exec_all
           [CallSetData (InList (PyFlat [IntValues.Int 8]));
            CallReshape IntValues.nhru_nmonths;
            CallUpdateElement 0 (scalar (IntValues.Int 3))]
           (fresh (Some "x"%string))) = 0
  /\ data (IntValues.exec_all
             [CallSetData (InList (PyFlat [IntValues.Int 8]));
              CallReshape IntValues.nhru_nmonths;
              CallUpdateElement 0 (scalar (IntValues.Int 3))]
             (fresh (Some "x"%string))) = None.
Proof.
  apply (no_dimensions_no_data IntValues.value_eq IntValues.cast_item
           IntValues.array_as_scalar IntValues.DATA_TYPES
           IntValues.DATATYPE_TO_DTYPE IntValues.astype IntValues.py_number
           IntValues.py_number IntValues.NoneValue).
  - repeat constructor; intros nm sz; discriminate.
  - reflexivity.
  - reflexivity.
Defined.

Lemma has_correct_size_agrees_with_size_witness :
  has_correct_size IntValues.poi_gage_segment = Ok (4 =? 4).
Proof.
  apply (has_correct_size_agrees_with_size IntValues.poi_gage_segment
           (mkArray [4] (IntValues.ints [12; 4; 45; 26]%Z) true) 4).
  - repeat constructor. intros [].
  - reflexivity.
  - reflexivity.
Defined.

Lemma set_data_twice_witness :
  IntValues.set_data
    (with_modified
       (with_data IntValues.basin_solsta
          (Some (mkArray [1] [IntValues.Int 9] true))) true)
    (InList (PyFlat [IntValues.Int 9]))
  = Returned
      (with_modified
         (with_data IntValues.basin_solsta
            (Some (mkArray [1] [IntValues.Int 9] true))) true) [].
Proof.
  apply (set_data_twice IntValues.value_eq IntValues.DATATYPE_TO_DTYPE
           IntValues.astype IntValues.basin_solsta).
  - intros x. now apply value_eq_eq.
  - reflexivity.
Defined.


Lemma subset_by_index_unknown_name_witness :
  raised (subset_by_index IntValues.poi_gage_segment "nhru"
            (IndexList [0; 2]%Z)) <> None
  /\ after (subset_by_index IntValues.poi_gage_segment "nhru"
              (IndexList [0; 2]%Z))
     = with_data IntValues.poi_gage_segment
         (Some (mkArray [2] (IntValues.ints [12; 45]%Z) true)).
Proof.
  apply (subset_by_index_unknown_name IntValues.poi_gage_segment
           (mkArray [4] (IntValues.ints [12; 4; 45; 26]%Z) true)).
  - reflexivity.
  - discriminate.
  - reflexivity.
  - reflexivity.
Defined.

Lemma remove_by_index_keeps_shape_witness :
  Dimensions.keys
    (dimensions (after (remove_by_index IntValues.gages_by_month "nmonths"
                          (IndexList [1%Z]))))
  = Dimensions.keys (dimensions IntValues.gages_by_month)
  /\ has_correct_size
       (after (remove_by_index IntValues.gages_by_month "nmonths"
                 (IndexList [1%Z]))) = Ok true
  /\ exists a',
       data (after (remove_by_index IntValues.gages_by_month "nmonths"
                      (IndexList [1%Z]))) = Some a'
       /\ shape a'
          = Dimensions.sizes
              (dimensions
                 (after (remove_by_index IntValues.gages_by_month
                           "nmonths" (IndexList [1%Z])))).
Proof.
  apply (remove_by_index_keeps_shape IntValues.gages_by_month _
           (mkArray [2; 3] (IntValues.ints [1; 2; 3; 4; 5; 6]%Z) true)
           "nmonths" (IndexList [1%Z]) []).
  - apply nodup_two. discriminate.
  - reflexivity.
  - reflexivity.
  - reflexivity.
Defined.

Lemma subset_by_index_first_axis_keeps_shape_witness :
  Dimensions.keys
    (dimensions (after (subset_by_index IntValues.gages_by_month
                          "npoigages" (IndexList [1%Z]))))
  = Dimensions.keys (dimensions IntValues.gages_by_month)
  /\ has_correct_size
       (after (subset_by_index IntValues.gages_by_month "npoigages"
                 (IndexList [1%Z]))) = Ok true
  /\ exists a',
       data (after (subset_by_index IntValues.gages_by_month "npoigages"
                      (IndexList [1%Z]))) = Some a'
       /\ shape a'
          = Dimensions.sizes
              (dimensions
                 (after (subset_by_index IntValues.gages_by_month
                           "npoigages" (IndexList [1%Z])))).
Proof.
  apply (subset_by_index_first_axis_keeps_shape IntValues.gages_by_month _
           (mkArray [2; 3] (IntValues.ints [1; 2; 3; 4; 5; 6]%Z) true)
           "npoigages" (IndexList [1%Z]) []).
  - apply nodup_two. discriminate.
  - reflexivity.
  - reflexivity.
  - reflexivity.
  - reflexivity.
Defined.

Lemma subset_by_index_other_axis_witness :
  Dimensions.sizes
    (dimensions (after (subset_by_index IntValues.gages_by_month "nmonths"
                          (IndexList [0%Z]))))
  = [2; 3]
  /\ exists a',
       data (after (subset_by_index IntValues.gages_by_month "nmonths"
                      (IndexList [0%Z]))) = Some a'
       /\ shape a' = [1; 3]
       /\ has_correct_size
            (after (subset_by_index IntValues.gages_by_month "nmonths"
                      (IndexList [0%Z])))
          = Ok (product (shape a') =? 6).
Proof.
  apply (subset_by_index_other_axis IntValues.gages_by_month _
           (mkArray [2; 3] (IntValues.ints [1; 2; 3; 4; 5; 6]%Z) true)
           "nmonths" (IndexList [0%Z]) [] 0).
  - apply nodup_two. discriminate.
  - reflexivity.
  - discriminate.
  - reflexivity.
  - reflexivity.
  - reflexivity.
Defined.

Lemma remove_by_index_keeps_unlisted_witness :
  exists p' a',
    remove_by_index IntValues.poi_gage_segment "npoigages"
      (IndexList [1%Z]) = Returned p' []
    /\ data p' = Some a'
    /\ map Some (flat a')
       = [Some (IntValues.Int 12); Some (IntValues.Int 45);
          Some (IntValues.Int 26)]
    /\ shape a' = [length (flat a')]
    /\ dimensions p'
       = [("npoigages"%string,
           Dimensions.mkDimension "npoigages" (length (flat a')))].
Proof.
  apply (remove_by_index_keeps_unlisted IntValues.poi_gage_segment
           (mkArray [4] (IntValues.ints [12; 4; 45; 26]%Z) true) 4
           "npoigages" (Dimensions.mkDimension "npoigages" 4)
           (IndexList [1%Z])).
  - reflexivity.
  - reflexivity.
  - reflexivity.
  - lia.
  - reflexivity.
  - repeat constructor; cbn; lia.
Defined.

Lemma remove_is_subset_of_the_rest_witness :
  remove_by_index IntValues.poi_gage_segment "npoigages"
    (IndexList [1; -1]%Z)
  = subset_by_index IntValues.poi_gage_segment "npoigages"
      (IndexList [0; 2]%Z).
Proof.
  apply (remove_is_subset_of_the_rest IntValues.poi_gage_segment
           (mkArray [4] (IntValues.ints [12; 4; 45; 26]%Z) true) 4
           "npoigages" (IndexList [1; -1]%Z)).
  - reflexivity.
  - reflexivity.
  - reflexivity.
  - repeat constructor; cbn; lia.
Defined.

Lemma reshape_establishes_shape_witness :
  Dimensions.keys
    (dimensions (after (IntValues.reshape IntValues.basin_solsta
                          IntValues.nhru_nmonths)))
  = ["nhru"%string; "nmonths"%string]
  /\ Dimensions.sizes
       (dimensions (after (IntValues.reshape IntValues.basin_solsta
                             IntValues.nhru_nmonths)))
     = [4; 12]
  /\ modified (after (IntValues.reshape IntValues.basin_solsta
                        IntValues.nhru_nmonths)) = false
  /\ has_correct_size (after (IntValues.reshape IntValues.basin_solsta
                                IntValues.nhru_nmonths)) = Ok true
  /\ exists a',
       data (after (IntValues.reshape IntValues.basin_solsta
                      IntValues.nhru_nmonths)) = Some a'
       /\ shape a' = [4; 12].
Proof.
  apply (reshape_establishes_shape IntValues.NoneValue
           IntValues.basin_solsta _ IntValues.nhru_nmonths []).
  - apply nodup_two. discriminate.
  - reflexivity.
  - discriminate.
Defined.

Lemma update_element_after_reshape_witness :
  IntValues.update_element
    (after (IntValues.reshape IntValues.basin_solsta
              IntValues.nhru_nmonths))
    0 (scalar (IntValues.Int 3))
  = Raised ValueError
      (after (IntValues.reshape IntValues.basin_solsta
                IntValues.nhru_nmonths)) [].
Proof.
  apply (update_element_after_reshape IntValues.value_eq
           IntValues.cast_item IntValues.array_as_scalar
           IntValues.NoneValue IntValues.basin_solsta _
           IntValues.nhru_nmonths []
           (mkArray [4; 12] (repeat (IntValues.Int 8) 48) false)).
  - apply nodup_two. discriminate.
  - reflexivity.
  - discriminate.
  - reflexivity.
  - reflexivity.
Defined.

Lemma reshape_1d_to_2d_contents_witness :
  IntValues.reshape IntValues.poi_gage_segment
    [IntValues.dim "npoigages" 4; IntValues.dim "nmonths" 2]
  = Returned
      (with_data
         (with_dimensions IntValues.poi_gage_segment
            [IntValues.dim "npoigages" 4; IntValues.dim "nmonths" 2])
         (Some (mkArray [4; 2]
                  (IntValues.ints [12; 12; 4; 4; 45; 45; 26; 26]%Z)
                  false))) [].
Proof.
  apply (proj1 (reshape_1d_to_2d_contents IntValues.NoneValue
                  IntValues.poi_gage_segment
                  (mkArray [4] (IntValues.ints [12; 4; 45; 26]%Z) true)
                  4 2 "npoigages" "nmonths"
                  (Dimensions.mkDimension "npoigages" 4)
                  (Dimensions.mkDimension "npoigages" 4)
                  (Dimensions.mkDimension "nmonths" 2)
                  eq_refl
                  ltac:(discriminate) ltac:(discriminate)
                  eq_refl eq_refl eq_refl eq_refl eq_refl));
    discriminate.
Defined.

Lemma all_equal_spec_witness :
  IntValues.all_equal IntValues.poi_gage_segment = Ok false.
Proof.
  apply (proj2 (all_equal_spec IntValues.value_eq
                  IntValues.poi_gage_segment
                  (mkArray [4] (IntValues.ints [12; 4; 45; 26]%Z) true)
                  eq_refl) 4 (IntValues.Int 12)).
  - reflexivity.
  - reflexivity.
  - lia.
  - reflexivity.
Defined.

Lemma all_equal_after_scalar_reshape_witness :
  exists p',
    IntValues.reshape IntValues.basin_solsta IntValues.nhru_nmonths
    = Returned p' []
    /\ IntValues.all_equal p' = Ok true.
Proof.
  apply (all_equal_after_scalar_reshape IntValues.value_eq
           IntValues.NoneValue IntValues.basin_solsta
           (mkArray [1] [IntValues.Int 8] true) (IntValues.Int 8)
           (Dimensions.mkDimension "one" 1) IntValues.nhru_nmonths).
  - reflexivity.
  - reflexivity.
  - reflexivity.
  - repeat constructor.
  - cbn. lia.
  - apply nodup_two. discriminate.
  - reflexivity.
  - cbn. lia.
Defined.

Lemma bounded_minimum_disables_check_witness :
  IntValues.set_minimum IntValues.gage_bounded (Some (PStr "nhru"))
  = Returned (with_minimum IntValues.gage_bounded (Some (PStr "nhru"))) []
  /\ IntValues.check_values
       (with_minimum IntValues.gage_bounded (Some (PStr "nhru"))) = Ok true
  /\ IntValues.set_default IntValues.gage_bounded (Some (PStr "nhru"))
     = Raised ValueError IntValues.gage_bounded [].
Proof.
  apply (bounded_minimum_disables_check IntValues.value_le
           IntValues.DATA_TYPES IntValues.py_number IntValues.py_number
           IntValues.gage_bounded 1%Z "nhru"); reflexivity.
Defined.

Lemma index_map_last_position_witness :
  exists d,
    IntValues.index_map IntValues.stations = Ok d
    /\ (forall v i,
           odict_get IntValues.value_eq d v = Some i
           <-> nth_error (IntValues.ints [7; 9; 7; 3]%Z) i = Some v
               /\ forall j, i < j ->
                    nth_error (IntValues.ints [7; 9; 7; 3]%Z) j <> Some v)
    /\ (forall v, odict_get IntValues.value_eq d v = None
                  <-> ~ In v (IntValues.ints [7; 9; 7; 3]%Z)).
Proof.
  apply (index_map_last_position IntValues.value_eq value_eq_eq
           IntValues.stations
           (mkArray [4] (IntValues.ints [7; 9; 7; 3]%Z) true) 4);
    reflexivity.
Defined.

Lemma tolist_rearranges_witness :
  exists l, tolist IntValues.tmax_adj = Ok l
            /\ length l = 6
            /\ Permutation l (IntValues.ints [1; 2; 3; 4; 5; 6]%Z).
Proof.
  apply (tolist_rearranges IntValues.tmax_adj
           (mkArray [2; 3] (IntValues.ints [1; 2; 3; 4; 5; 6]%Z) true));
    reflexivity.
Defined.

Lemma update_element_writes_witness :
  (exists p' a',
      IntValues.update_element IntValues.poi_gage_segment (-1)
        (scalar (IntValues.Int 5)) = Returned p' []
      /\ modified p' = true
      /\ dimensions p' = dimensions IntValues.poi_gage_segment
      /\ data p' = Some a'
      /\ shape a' = [4]
      /\ forall j,
           nth_error (flat a') j
           = if j =? 3 then Some (IntValues.Int 5)
             else nth_error (IntValues.ints [12; 4; 45; 26]%Z) j)
  /\ IntValues.update_element IntValues.poi_gage_segment 0
       (scalar (IntValues.Int (2 ^ 63)))
     = Raised OverflowError IntValues.poi_gage_segment []
  /\ IntValues.update_element IntValues.poi_gage_segment 0
       (scalar IntValues.NoneValue)
     = Raised TypeError IntValues.poi_gage_segment [].
Proof.
  split; [|split].
  - apply (proj1 (update_element_writes IntValues.value_eq
                    IntValues.cast_item IntValues.array_as_scalar
                    IntValues.NoneValue IntValues.poi_gage_segment
                    (mkArray [4] (IntValues.ints [12; 4; 45; 26]%Z) true) 4
                    (-1)%Z (IntValues.Int 5)
                    eq_refl eq_refl eq_refl eq_refl ltac:(cbn; lia))
                 (IntValues.Int 5)).
    reflexivity.
  - apply (proj2 (update_element_writes IntValues.value_eq
                    IntValues.cast_item IntValues.array_as_scalar
                    IntValues.NoneValue IntValues.poi_gage_segment
                    (mkArray [4] (IntValues.ints [12; 4; 45; 26]%Z) true) 4
                    0%Z (IntValues.Int (2 ^ 63))
                    eq_refl eq_refl eq_refl eq_refl ltac:(cbn; lia))
                 OverflowError).
    reflexivity.
  - apply (proj2 (update_element_writes IntValues.value_eq
                    IntValues.cast_item IntValues.array_as_scalar
                    IntValues.NoneValue IntValues.poi_gage_segment
                    (mkArray [4] (IntValues.ints [12; 4; 45; 26]%Z) true) 4
                    0%Z IntValues.NoneValue
                    eq_refl eq_refl eq_refl eq_refl ltac:(cbn; lia))
                 TypeError).
    reflexivity.
Defined.

Lemma dparse_year_witness :
  Helpers.dparse (@Some Z) [] = None
  /\ Helpers.dparse (@Some Z) [2021%Z]
     = Some (Helpers.mkDatetime 2021 12 31 0 0 0 0).
Proof.
  apply (dparse_year (@Some Z) 2021%Z 2021%Z). reflexivity.
Defined.

Lemma dparse_month_end_witness :
  exists d,
    Helpers.dparse (@Some Z) [2020; 2]%Z
    = Some (Helpers.mkDatetime 2020 2 d 0 0 0 0)
    /\ (28 <= d <= 31)%Z
    /\ forall x3 d',
         Some x3 = Some d' ->
         (Helpers.dparse (@Some Z) [2020; 2; x3]%Z <> None
          <-> (1 <= d' <= d)%Z).
Proof.
  apply (dparse_month_end (@Some Z) 2020%Z 2%Z 2020%Z 2%Z);
    [reflexivity | reflexivity | lia | lia].
Defined.

(** February of a leap year, of a century year that is not one, and a
    month that does not exist. *)
Example dparse_february_2020 :
  Helpers.dparse (@Some Z) [2020; 2]%Z
  = Some (Helpers.mkDatetime 2020 2 29 0 0 0 0).
Proof. reflexivity. Qed.

Example dparse_february_1900 :
  Helpers.dparse (@Some Z) [1900; 2]%Z
  = Some (Helpers.mkDatetime 1900 2 28 0 0 0 0).
Proof. reflexivity. Qed.

Example dparse_month_13 : Helpers.dparse (@Some Z) [2020; 13]%Z = None.
Proof. reflexivity. Qed.
